(** * Land-cover classification pipeline ([scripts/classify.py])

    A shallow embedding of [search_stac_for_point] and [classify_image]
    and the properties of the pipeline stated in the specification.

    Python floats are IEEE binary64 and the arrays of the inference path
    are [np.float32]; both are modelled on the standard library's
    [spec_float] with its parameterised operations.  Calls into rasterio,
    scikit-learn, urllib and planetary_computer are oracles collected in
    the record [World]; every call that the properties speak about leaves
    an [event] in a trace. *)

From Stdlib Require Import ZArith List String Ascii Bool Lia DecimalString DecimalZ.
From Stdlib Require Import Reals Lra.
From Stdlib Require Import Floats.SpecFloat.
Import ListNotations.
Local Open Scope string_scope.
Local Open Scope list_scope.
Local Open Scope Z_scope.

(** ** Exceptions and results *)

(** The exceptions the pipeline can end with.  The two [ValueError]s that
    [classify_image] raises itself are kept apart from each other and from
    the exceptions of library calls. *)
Inductive error : Type :=
| NotEnoughBands (got : list string)              (* ValueError, "Not enough bands found" *)
| NotEnoughSamples (n_samples n_classes : nat)    (* ValueError, "Not enough valid training samples" *)
| KeyError (key : string)
| IndexError
| ZeroDivisionError
| OverflowError
| IntOfNaN                                         (* ValueError of int(nan) *)
| EmptySequence                                    (* ValueError of min([]) / max([]) *)
| ShapeMismatch                                    (* numpy broadcasting / indexing error *)
| LibraryError (msg : string).                     (* raised inside an external library *)

Inductive result (A : Type) : Type :=
| Ok (a : A)
| Err (e : error).
Arguments Ok {A} a.
Arguments Err {A} e.

(** What an external call does: it returns or it raises. *)
Inductive outcome (A : Type) : Type :=
| Returns (a : A)
| Raises (msg : string).
Arguments Returns {A} a.
Arguments Raises {A} msg.

Definition result_bind {A B} (r : result A) (k : A -> result B) : result B :=
  match r with
  | Ok a => k a
  | Err e => Err e
  end.

Notation "'let?' x ':=' r 'in' k" := (result_bind r (fun x => k))
  (at level 10, x pattern, r at level 100, k at level 200).

(** ** Floating point *)

Definition float := spec_float.

Record format := { prec : Z; emax : Z }.
Definition binary64 : format := {| prec := 53; emax := 1024 |}.
Definition binary32 : format := {| prec := 24; emax := 128 |}.

Definition fadd (f : format) := SFadd (prec f) (emax f).
Definition fsub (f : format) := SFsub (prec f) (emax f).
Definition fmul (f : format) := SFmul (prec f) (emax f).
Definition fdiv (f : format) := SFdiv (prec f) (emax f).

(** An integer as an unrounded significand with exponent 0. *)
Definition unrounded (z : Z) : float :=
  match z with
  | Z0 => S754_zero false
  | Zpos p => S754_finite false p 0
  | Zneg p => S754_finite true p 0
  end.

(** The float nearest to the integer [z]. *)
Definition float_of_Z (f : format) (z : Z) : float :=
  binary_normalize (prec f) (emax f) z 0 false.

(** The float nearest to the fraction [a / b]: the correctly rounded
    quotient (this is how a decimal literal such as [1e-10] and Python's
    [int / int] get their value). *)
Definition float_ratio (f : format) (a b : Z) : float :=
  fdiv f (unrounded a) (unrounded b).

(** Rounding a binary64 value into another format ([astype(np.float32)],
    a Python float operand of a float32 array). *)
Definition round_to (f : format) (x : float) : float :=
  match x with
  | S754_finite s m e => binary_round (prec f) (emax f) s m e
  | _ => x
  end.

Definition fzero : float := S754_zero false.

Definition is_zero (x : float) : bool :=
  match x with
  | S754_zero _ => true
  | _ => false
  end.

Definition is_nan (x : float) : bool :=
  match x with
  | S754_nan => true
  | _ => false
  end.

Definition is_finite (x : float) : bool :=
  match x with
  | S754_zero _ | S754_finite _ _ _ => true
  | _ => false
  end.

Definition sign_of (x : float) : bool :=
  match x with
  | S754_zero s | S754_infinity s | S754_finite s _ _ => s
  | S754_nan => false
  end.

(** Python [x / y] on two floats. *)
Definition float_truediv (x y : float) : result float :=
  if is_zero y then Err ZeroDivisionError else Ok (fdiv binary64 x y).

(** Python [a / b] on two ints: the correctly rounded quotient. *)
Definition int_truediv (a b : Z) : result float :=
  if b =? 0 then Err ZeroDivisionError
  else match float_ratio binary64 a b with
       | S754_infinity _ => Err OverflowError
       | q => Ok q
       end.

(** Python [float(n)] for an int operand of a float operation. *)
Definition int_to_float (n : Z) : result float :=
  match float_of_Z binary64 n with
  | S754_infinity _ => Err OverflowError
  | x => Ok x
  end.

(** Python [int(x)]: truncation towards zero. *)
Definition py_int (x : float) : result Z :=
  match x with
  | S754_zero _ => Ok 0
  | S754_finite s m e => Ok (cond_Zopp s (Z.shiftl (Zpos m) e))
  | S754_infinity _ => Err OverflowError
  | S754_nan => Err IntOfNaN
  end.

(** A value that is an int or a float, as [scale] is. *)
Inductive number : Type :=
| PyInt (n : Z)
| PyFloat (x : float).

(** Python [max(a, b, 1)] with floats [a], [b]: the first argument stays
    unless a later one is strictly greater. *)
Definition max_with_one (a b : float) : number :=
  let m := if SFltb a b then b else a in
  if SFltb m (float_of_Z binary64 1) then PyInt 1 else PyFloat m.

(** Python [n / s] for an int [n]. *)
Definition int_div_number (n : Z) (s : number) : result float :=
  match s with
  | PyInt d => int_truediv n d
  | PyFloat y => let? x := int_to_float n in float_truediv x y
  end.

(** Python two-argument [max] and [min] on floats. *)
Definition py_max2 (a b : float) : float := if SFltb a b then b else a.
Definition py_min2 (a b : float) : float := if SFltb b a then b else a.

(** Python [max] and [min] of a list. *)
Definition py_max_list (l : list float) : result float :=
  match l with
  | [] => Err EmptySequence
  | x :: r => Ok (fold_left py_max2 r x)
  end.

Definition py_min_list (l : list float) : result float :=
  match l with
  | [] => Err EmptySequence
  | x :: r => Ok (fold_left py_min2 r x)
  end.

(** The literals of the source. *)
Definition lit_1e_10 : float := float_ratio binary64 1 (10 ^ 10).
Definition lit_0_01 : float := float_ratio binary64 1 100.
Definition lit_0_5 : float := float_ratio binary64 1 2.
Definition lit_2_5 : float := float_ratio binary64 5 2.
Definition lit_7_5 : float := float_ratio binary64 15 2.

(** ** Dictionaries

    A Python [dict] with string keys: insertion ordered, one entry per key. *)
Module PyDict.
Section Dict.
Context {V : Type}.

Definition dict := list (string * V).

Definition empty : dict := [].

Fixpoint get (d : dict) (k : string) : option V :=
  match d with
  | [] => None
  | (k', v) :: r => if String.eqb k' k then Some v else get r k
  end.

Definition mem (d : dict) (k : string) : bool :=
  match get d k with
  | Some _ => true
  | None => false
  end.

Definition get_default (d : dict) (k : string) (dflt : V) : V :=
  match get d k with
  | Some v => v
  | None => dflt
  end.

Fixpoint set (d : dict) (k : string) (v : V) : dict :=
  match d with
  | [] => [(k, v)]
  | (k', v') :: r =>
      if String.eqb k' k then (k', v) :: r else (k', v') :: set r k v
  end.

Definition len (d : dict) : Z := Z.of_nat (List.length d).

Definition keys (d : dict) : list string := map fst d.

Definition items (d : dict) : list (string * V) := d.

(** [d[k]] *)
Definition subscript (d : dict) (k : string) : result V :=
  match get d k with
  | Some v => Ok v
  | None => Err (KeyError k)
  end.
End Dict.
Arguments dict V : clear implicits.
End PyDict.

(** ** Data model *)

(** An entry of a scene descriptor's asset map; ['href'] may be absent. *)
Record Asset : Type := { href : option string }.

(** A scene descriptor (STAC item).  Only ['assets'] is read; the number
    of other keys decides whether the object is truthy. *)
Record StacItem : Type := {
  item_assets : option (PyDict.dict Asset);
  item_other_keys : nat
}.

Record TrainingPoint : Type := {
  lat : float;
  lon : float;
  label : Z;
  class_name : option string
}.

(** The [config] dict: the three subscripted keys are present, the
    others are read with [config.get]. *)
Record Config : Type := {
  training_data : list TrainingPoint;
  stac_item_url : string;
  collection : option string;
  output_path : string;
  num_trees : option Z;
  include_indices : option bool
}.

Record Bounds : Type := {
  b_left : float;
  b_bottom : float;
  b_right : float;
  b_top : float
}.

Record Affine : Type := {
  af_a : float; af_b : float; af_c : float;
  af_d : float; af_e : float; af_f : float
}.

(** [rasterio.windows.Window]: [from_bounds] yields float fields, the
    clamped window of [classify_image] has int fields. *)
Record FloatWindow : Type := {
  f_col_off : float;
  f_row_off : float;
  f_width : float;
  f_height : float
}.

Record Window : Type := {
  col_off : Z;
  row_off : Z;
  width : Z;
  height : Z
}.

(** An opened raster.  [ds_read win h w] is [src.read(1, window=win,
    out_shape=(h, w))]; it returns the values by row and column. *)
Record Dataset : Type := {
  crs : string;
  transform : Affine;
  bounds : Bounds;
  src_width : Z;
  src_height : Z;
  ds_index : float -> float -> outcome (Z * Z);
  ds_read : Window -> Z -> Z -> outcome (Z -> Z -> float)
}.

(** A two-dimensional array: its shape (rows, columns) and its values. *)
Record ndarray : Type := {
  nd_rows : Z;
  nd_cols : Z;
  nd_at : Z -> Z -> float
}.

Definition shape (a : ndarray) : Z * Z := (nd_rows a, nd_cols a).

Definition matrix := list (list float).

(** The profile of the written GeoTIFF. *)
Record Profile : Type := {
  pr_driver : string;
  pr_dtype : string;
  pr_width : Z;
  pr_height : Z;
  pr_count : Z;
  pr_crs : string;
  pr_transform : option Affine;
  pr_compress : string;
  pr_nodata : Z
}.

(** The returned summary. *)
Record ClassificationResult : Type := {
  res_success : bool;
  res_output_path : string;
  res_width : Z;
  res_height : Z;
  res_training_accuracy : float;
  res_training_samples : nat;
  res_classes_in_output : list Z;
  res_classes_sampled : list Z;
  res_class_names : list (string * string);
  res_crs : string;
  res_bounds : list float
}.

(** ** Effects *)

(** The calls that the properties speak about. *)
Inductive event : Type :=
| EvUrlopen (url : string)
| EvRasterOpen (url : string)
| EvCatalogSearch (coll : string) (lon lat : float)
| EvScalerFit (X : matrix)
| EvForestFit (n_estimators : Z) (X : matrix) (y : list Z)
| EvPredict (n_rows : nat)
| EvRasterCreate (path : string) (p : Profile)
| EvRasterWrite (path : string) (rows cols : Z) (data : list Z).

(** A computation: the events it caused and how it ended. *)
Definition M (A : Type) : Type := (list event * result A)%type.

Definition ret {A} (a : A) : M A := ([], Ok a).

Definition bind {A B} (m : M A) (k : A -> M B) : M B :=
  match m with
  | (t, Ok a) => let '(t', r) := k a in (t ++ t', r)
  | (t, Err e) => (t, Err e)
  end.

Definition emit (e : event) : M unit := ([e], Ok tt).

Definition raise {A} (e : error) : M A := ([], Err e).

Definition lift {A} (r : result A) : M A := ([], r).

(** An external call: an exception of the library becomes [LibraryError]. *)
Definition call {A} (o : outcome A) : M A :=
  match o with
  | Returns a => ret a
  | Raises msg => raise (LibraryError msg)
  end.

(** [try: m except Exception: h] *)
Definition try_except {A} (m : M A) (h : error -> M A) : M A :=
  match m with
  | (t, Ok a) => (t, Ok a)
  | (t, Err e) => let '(t', r) := h e in (t ++ t', r)
  end.

Definition trace {A} (m : M A) : list event := fst m.
Definition outcome_of {A} (m : M A) : result A := snd m.

Notation "x <- m ;; k" := (bind m (fun x => k))
  (at level 61, m at next level, right associativity).
Notation "' p <- m ;; k" := (bind m (fun p => k))
  (at level 61, p pattern, m at next level, right associativity).
Notation "m ;;; k" := (bind m (fun _ => k))
  (at level 61, right associativity).

(** ** The outside world

    The library calls of [classify_image]: [urllib.request.urlopen] with
    [json.loads], [pc.sign], [rasterio.open], [rasterio.warp.transform],
    the POST of [search_stac_for_point], [rasterio.windows.from_bounds],
    the validators of the constructor [rasterio.windows.Window],
    [rasterio.transform.from_bounds], [StandardScaler],
    [RandomForestClassifier] and the GeoTIFF writer. *)

Record World : Type := {
  Scaler : Type;
  Forest : Type;
  urlopen_json : string -> outcome StacItem;
  pc_sign : string -> outcome string;
  rasterio_open : string -> outcome Dataset;
  transform_coords :
    string -> string -> list float -> list float -> outcome (list float * list float);
  catalog_post : string -> list float -> option string -> outcome (list StacItem);
  windows_from_bounds :
    float -> float -> float -> float -> Affine -> outcome FloatWindow;
  window_validate : Window -> outcome unit;
  transform_from_bounds :
    float -> float -> float -> float -> Z -> Z -> outcome Affine;
  scaler_fit_transform : matrix -> outcome (Scaler * matrix);
  scaler_transform : Scaler -> matrix -> outcome matrix;
  forest_fit : Z -> matrix -> list Z -> outcome Forest;
  forest_score : Forest -> matrix -> list Z -> outcome float;
  forest_predict : Forest -> matrix -> outcome (list Z);
  gtiff_create : string -> Profile -> outcome unit;
  gtiff_write : string -> Z -> Z -> list Z -> outcome unit;
  gtiff_write_colormap : string -> list (Z * (Z * Z * Z * Z)) -> outcome unit
}.

(** ** Scene Search: [search_stac_for_point] *)

Definition truthy_string (s : string) : bool := negb (String.eqb s "").

(** Truth value of a descriptor: a dict is false only when it is empty. *)
Definition truthy_item (it : StacItem) : bool :=
  match item_assets it, item_other_keys it with
  | None, O => false
  | _, _ => true
  end.

Definition search_stac_for_point (w : World) (coll : string) (lon lat : float)
    (datetime_range : option string) : M (option StacItem) :=
  let delta := lit_0_01 in
  let bbox := [fsub binary64 lon delta; fsub binary64 lat delta;
               fadd binary64 lon delta; fadd binary64 lat delta] in
  let datetime :=
    match datetime_range with
    | Some s => if truthy_string s then Some s else None
    | None => None
    end in
  emit (EvCatalogSearch coll lon lat) ;;;
  match catalog_post w coll bbox datetime with
  | Returns (first :: _) => ret (Some first)
  | Returns [] => ret None
  | Raises _ => ret None
  end.

(** ** Band Resolver *)

Definition band_keys : list (string * string) :=
  [("red", "red"); ("green", "green"); ("blue", "blue");
   ("nir", "nir"); ("swir16", "swir16"); ("swir22", "swir22")].

(** [pat in s] *)
Definition contains (pat s : string) : bool :=
  match String.index 0 pat s with
  | Some _ => true
  | None => false
  end.

(** The URL of an asset, signed when it points into Planetary Computer
    storage; a failure of the signing keeps the unsigned URL. *)
Definition resolve_url (w : World) (a : Asset) : string :=
  let url := match href a with Some u => u | None => "" end in
  if contains "blob.core.windows.net" url then
    match pc_sign w url with
    | Returns signed => signed
    | Raises _ => url
    end
  else url.

Definition resolve_band (w : World) (assets : PyDict.dict Asset)
    (urls : PyDict.dict string) (entry : string * string) : PyDict.dict string :=
  let '(band_name, asset_key) := entry in
  match PyDict.get assets asset_key with
  | Some a => PyDict.set urls band_name (resolve_url w a)
  | None => urls
  end.

Definition assets_of (it : StacItem) : PyDict.dict Asset :=
  match item_assets it with
  | Some a => a
  | None => PyDict.empty
  end.

Definition get_band_urls_for_item (w : World) (it : StacItem) : PyDict.dict string :=
  fold_left (resolve_band w (assets_of it)) band_keys PyDict.empty.

(** ** Point Sampler *)

Definition list_item {A} (l : list A) (i : nat) : result A :=
  match nth_error l i with
  | Some a => Ok a
  | None => Err IndexError
  end.

(** [src.read(1, window=win, out_shape=(rows, cols))] *)
Definition read_array (src : Dataset) (win : Window) (rows cols : Z) : M ndarray :=
  if (rows <? 0) || (cols <? 0)
  then raise (LibraryError "negative dimensions are not allowed")
  else
    f <- call (ds_read src win rows cols) ;;
    ret {| nd_rows := rows; nd_cols := cols; nd_at := f |}.

(** One iteration of the loop of [sample_point_from_urls]: the value of
    the band at the point, or nothing when the point is outside the
    raster or anything raised. *)
Definition sample_band (w : World) (url : string) (lon lat : float) : M (option float) :=
  try_except
    (emit (EvRasterOpen url) ;;;
     src <- call (rasterio_open w url) ;;
     ' (xs, ys) <- call (transform_coords w "EPSG:4326" (crs src) [lon] [lat]) ;;
     x0 <- lift (list_item xs 0) ;;
     if negb (SFleb (b_left (bounds src)) x0 && SFleb x0 (b_right (bounds src)))
     then ret None
     else
       y0 <- lift (list_item ys 0) ;;
       if negb (SFleb (b_bottom (bounds src)) y0 && SFleb y0 (b_top (bounds src)))
       then ret None
       else
         ' (row, col) <- call (ds_index src x0 y0) ;;
         if (0 <=? row) && (row <? src_height src) && (0 <=? col) && (col <? src_width src)
         then
           let window := {| col_off := col; row_off := row; width := 1; height := 1 |} in
           call (window_validate w window) ;;;
           data <- read_array src window 1 1 ;;
           ret (Some (nd_at data 0 0))
         else ret None)
    (fun _ => ret None).

Fixpoint sample_bands (w : World) (items : list (string * string)) (lon lat : float)
    (band_values : PyDict.dict float) : M (PyDict.dict float) :=
  match items with
  | [] => ret band_values
  | (band_name, url) :: rest =>
      v <- sample_band w url lon lat ;;
      sample_bands w rest lon lat
        (match v with
         | Some x => PyDict.set band_values band_name x
         | None => band_values
         end)
  end.

Definition sample_point_from_urls (w : World) (point_band_urls : PyDict.dict string)
    (lon lat : float) : M (PyDict.dict float) :=
  sample_bands w (PyDict.items point_band_urls) lon lat PyDict.empty.

(** ** Feature Builder, per point (Python floats) *)

Definition point_ndvi (nir red : float) : result float :=
  float_truediv (fsub binary64 nir red)
                (fadd binary64 (fadd binary64 nir red) lit_1e_10).

Definition point_ndwi (green nir : float) : result float :=
  float_truediv (fsub binary64 green nir)
                (fadd binary64 (fadd binary64 green nir) lit_1e_10).

Definition point_ndbi (swir nir : float) : result float :=
  float_truediv (fsub binary64 swir nir)
                (fadd binary64 (fadd binary64 swir nir) lit_1e_10).

Definition point_evi (nir red blue : float) : result float :=
  float_truediv
    (fmul binary64 lit_2_5 (fsub binary64 nir red))
    (fadd binary64
       (fsub binary64
          (fadd binary64 nir (fmul binary64 (float_of_Z binary64 6) red))
          (fmul binary64 lit_7_5 blue))
       (float_of_Z binary64 10000)).

(** Lines 191-213: the feature vector of a sampled point. *)
Definition build_features (incl : bool) (band_values : PyDict.dict float)
    : result (list float) :=
  let value k := PyDict.get_default band_values k fzero in
  let features := [value "red"; value "green"; value "blue";
                   value "nir"; value "swir16"; value "swir22"] in
  if incl then
    let nir := value "nir" in
    let red := value "red" in
    let green := value "green" in
    let blue := value "blue" in
    let swir := value "swir16" in
    let? ndvi := point_ndvi nir red in
    let? ndwi := point_ndwi green nir in
    let? ndbi := point_ndbi swir nir in
    let? evi := point_evi nir red blue in
    Ok (features ++ [ndvi; ndwi; ndbi; evi])
  else Ok features.

(** ** Sampling the training points (lines 171-224) *)

Record TrainingSet : Type := {
  feature_matrix : matrix;
  labels : list Z;
  sampled_classes : list Z
}.

Definition no_samples : TrainingSet :=
  {| feature_matrix := []; labels := []; sampled_classes := [] |}.

(** [s.add(x)] on a set kept as a duplicate-free list. *)
Definition set_add (x : Z) (s : list Z) : list Z :=
  if existsb (Z.eqb x) s then s else s ++ [x].

Definition add_sample (ts : TrainingSet) (features : list float) (lbl : Z) : TrainingSet :=
  {| feature_matrix := feature_matrix ts ++ [features];
     labels := labels ts ++ [lbl];
     sampled_classes := set_add lbl (sampled_classes ts) |}.

(** Lines 178-187: the primary scene first; on fewer than 4 bands one
    catalog search, and the fallback scene's samples if it has at least
    4 band URLs. *)
Definition sample_with_fallback (w : World) (coll : string)
    (band_urls : PyDict.dict string) (lon lat : float) : M (PyDict.dict float) :=
  band_values <- sample_point_from_urls w band_urls lon lat ;;
  if PyDict.len band_values <? 4 then
    item <- search_stac_for_point w coll lon lat None ;;
    match item with
    | Some it =>
        if truthy_item it then
          let alt_band_urls := get_band_urls_for_item w it in
          if 4 <=? PyDict.len alt_band_urls
          then sample_point_from_urls w alt_band_urls lon lat
          else ret band_values
        else ret band_values
    | None => ret band_values
    end
  else ret band_values.

(** The body of the loop over [training_data]. *)
Definition sample_training_point (w : World) (coll : string) (incl : bool)
    (band_urls : PyDict.dict string) (ts : TrainingSet) (point : TrainingPoint)
    : M TrainingSet :=
  try_except
    (band_values <- sample_with_fallback w coll band_urls (lon point) (lat point) ;;
     if 4 <=? PyDict.len band_values then
       features <- lift (build_features incl band_values) ;;
       ret (add_sample ts features (label point))
     else ret ts)
    (fun _ => ret ts).

Fixpoint sample_training_points (w : World) (coll : string) (incl : bool)
    (band_urls : PyDict.dict string) (points : list TrainingPoint) (ts : TrainingSet)
    : M TrainingSet :=
  match points with
  | [] => ret ts
  | point :: rest =>
      ts' <- sample_training_point w coll incl band_urls ts point ;;
      sample_training_points w coll incl band_urls rest ts'
  end.

(** ** Classifier Trainer (lines 234-251) *)

Definition train (w : World) (n_estimators : Z) (ts : TrainingSet)
    : M (Scaler w * Forest w * float) :=
  let X := feature_matrix ts in
  let y := labels ts in
  emit (EvScalerFit X) ;;;
  ' (scaler, X_scaled) <- call (scaler_fit_transform w X) ;;
  emit (EvForestFit n_estimators X_scaled y) ;;;
  clf <- call (forest_fit w n_estimators X_scaled y) ;;
  train_accuracy <- call (forest_score w clf X_scaled y) ;;
  ret (scaler, clf, train_accuracy).

(** ** Raster Inference Engine *)

(** Lines 259-274: the padded bounding box of the training points in the
    image CRS, clipped to the image bounds: (left, bottom, right, top). *)
Definition region_of_interest (w : World) (points : list TrainingPoint)
    (src_crs : string) (src_bounds : Bounds) : M (float * float * float * float) :=
  let lats := map lat points in
  let lons := map lon points in
  lo_lat <- lift (py_min_list lats) ;;
  hi_lat <- lift (py_max_list lats) ;;
  lo_lon <- lift (py_min_list lons) ;;
  hi_lon <- lift (py_max_list lons) ;;
  let min_lat := fsub binary64 lo_lat lit_0_5 in
  let max_lat := fadd binary64 hi_lat lit_0_5 in
  let min_lon := fsub binary64 lo_lon lit_0_5 in
  let max_lon := fadd binary64 hi_lon lit_0_5 in
  ' (xs, ys) <- call (transform_coords w "EPSG:4326" src_crs
                        [min_lon; max_lon] [min_lat; max_lat]) ;;
  min_xs <- lift (py_min_list xs) ;;
  max_xs <- lift (py_max_list xs) ;;
  min_ys <- lift (py_min_list ys) ;;
  max_ys <- lift (py_max_list ys) ;;
  let window_left := py_max2 (b_left src_bounds) min_xs in
  let window_right := py_min2 (b_right src_bounds) max_xs in
  let window_bottom := py_max2 (b_bottom src_bounds) min_ys in
  let window_top := py_min2 (b_top src_bounds) max_ys in
  ret (window_left, window_bottom, window_right, window_top).

Definition MAX_DIM : Z := 1000.

(** Lines 293-298: the fields of the clamped window, as ints.  Whether
    [Window] accepts them is the world's [window_validate]. *)
Definition clamp_window (fw : FloatWindow) (src : Dataset) : result Window :=
  let? c := py_int (f_col_off fw) in
  let? r := py_int (f_row_off fw) in
  let? wd := py_int (f_width fw) in
  let? ht := py_int (f_height fw) in
  Ok {| col_off := Z.max 0 c;
        row_off := Z.max 0 r;
        width := Z.min wd (src_width src - c);
        height := Z.min ht (src_height src - r) |}.

(** Lines 302-304: [scale], [out_width], [out_height]. *)
Definition output_size (win : Window) : result (Z * Z) :=
  let? a := int_truediv (width win) MAX_DIM in
  let? b := int_truediv (height win) MAX_DIM in
  let scale := max_with_one a b in
  let? qw := int_div_number (width win) scale in
  let? out_width := py_int qw in
  let? qh := int_div_number (height win) scale in
  let? out_height := py_int qh in
  Ok (out_width, out_height).

(** Line 302: [scale = max(window.width / MAX_DIM, window.height / MAX_DIM, 1)]. *)
Definition scale_of (win : Window) : result number :=
  let? a := int_truediv (width win) MAX_DIM in
  let? b := int_truediv (height win) MAX_DIM in
  Ok (max_with_one a b).

(** Lines 303 and 304: [int(n / scale)] for a side [n] of the window. *)
Definition out_side (n : Z) (scale : number) : result Z :=
  let? q := int_div_number n scale in
  py_int q.

(** [data.astype(np.float32)] *)
Definition astype_float32 (a : ndarray) : ndarray :=
  {| nd_rows := nd_rows a;
     nd_cols := nd_cols a;
     nd_at := fun r c => round_to binary32 (nd_at a r c) |}.

(** The variables of the reading loop: [band_data] and, once the first
    band has been seen, ([out_width], [out_height], [out_transform]). *)
Record ReadState : Type := {
  band_data : PyDict.dict ndarray;
  out_grid : option (Z * Z * Affine)
}.

Definition read_start : ReadState :=
  {| band_data := PyDict.empty; out_grid := None |}.

(** The body of the loop over [band_urls.items()] (lines 286-318). *)
Definition read_band (w : World) (window_left window_bottom window_right window_top : float)
    (st : ReadState) (entry : string * string) : M ReadState :=
  let '(band_name, url) := entry in
  emit (EvRasterOpen url) ;;;
  src <- call (rasterio_open w url) ;;
  fw <- call (windows_from_bounds w window_left window_bottom window_right window_top
                (transform src)) ;;
  win <- lift (clamp_window fw src) ;;
  call (window_validate w win) ;;;
  ' (out_width, out_height, out_transform) <-
      match out_grid st with
      | Some g => ret g
      | None =>
          ' (ow, oh) <- lift (output_size win) ;;
          tr <- call (transform_from_bounds w window_left window_bottom
                        window_right window_top ow oh) ;;
          ret (ow, oh, tr)
      end ;;
  data <- read_array src win out_height out_width ;;
  ret {| band_data := PyDict.set (band_data st) band_name (astype_float32 data);
         out_grid := Some (out_width, out_height, out_transform) |}.

Fixpoint read_bands (w : World) (window_left window_bottom window_right window_top : float)
    (entries : list (string * string)) (st : ReadState) : M ReadState :=
  match entries with
  | [] => ret st
  | entry :: rest =>
      st' <- read_band w window_left window_bottom window_right window_top st entry ;;
      read_bands w window_left window_bottom window_right window_top rest st'
  end.

(** *** Feature Builder, per pixel ([np.float32] columns) *)

Definition f32 (x : float) : float := round_to binary32 x.

Definition pixel_ndvi (nir red : float) : float :=
  fdiv binary32 (fsub binary32 nir red)
       (fadd binary32 (fadd binary32 nir red) (f32 lit_1e_10)).

Definition pixel_ndwi (green nir : float) : float :=
  fdiv binary32 (fsub binary32 green nir)
       (fadd binary32 (fadd binary32 green nir) (f32 lit_1e_10)).

Definition pixel_ndbi (swir nir : float) : float :=
  fdiv binary32 (fsub binary32 swir nir)
       (fadd binary32 (fadd binary32 swir nir) (f32 lit_1e_10)).

Definition pixel_evi (nir red blue : float) : float :=
  fdiv binary32
    (fmul binary32 (f32 lit_2_5) (fsub binary32 nir red))
    (fadd binary32
       (fsub binary32
          (fadd binary32 nir (fmul binary32 (float_of_Z binary32 6) red))
          (fmul binary32 (f32 lit_7_5) blue))
       (float_of_Z binary32 10000)).

Definition range (n : Z) : list Z := map Z.of_nat (seq 0 (Z.to_nat n)).

(** [a.flatten()], row by row. *)
Definition flatten (a : ndarray) : list float :=
  map (fun i => nd_at a (i / nd_cols a) (i mod nd_cols a)) (range (nd_rows a * nd_cols a)).

(** [np.zeros((rows, cols))] *)
Definition zeros (rows cols : Z) : ndarray :=
  {| nd_rows := rows; nd_cols := cols; nd_at := fun _ _ => fzero |}.

Definition zeros_matrix (n_rows n_cols : Z) : matrix :=
  repeat (repeat fzero (Z.to_nat n_cols)) (Z.to_nat n_rows).

Fixpoint list_update {A} (l : list A) (k : nat) (x : A) : list A :=
  match l, k with
  | [], _ => []
  | _ :: r, O => x :: r
  | y :: r, S k' => y :: list_update r k' x
  end.

Fixpoint zip_with {A B C} (f : A -> B -> C) (la : list A) (lb : list B) : list C :=
  match la, lb with
  | a :: la', b :: lb' => f a b :: zip_with f la' lb'
  | _, _ => []
  end.

(** [pixels[:, k]] *)
Definition column (pixels : matrix) (k : nat) : list float :=
  map (fun row => nth k row fzero) pixels.

(** [pixels[:, k] = v] *)
Definition assign_column (pixels : matrix) (k : nat) (v : list float) : result matrix :=
  if negb (Nat.eqb (List.length v) (List.length pixels)) then Err ShapeMismatch
  else if existsb (fun row => Nat.leb (List.length row) k) pixels then Err IndexError
  else Ok (zip_with (fun row x => list_update row k x) pixels v).

Definition n_features (incl : bool) : Z := 6 + (if incl then 4 else 0).

(** Lines 324-346: one row per pixel. *)
Definition build_pixels (incl : bool) (bands : PyDict.dict ndarray) (h w : Z)
    : result matrix :=
  let band k := flatten (PyDict.get_default bands k (zeros h w)) in
  let pixels := zeros_matrix (h * w) (n_features incl) in
  let? pixels := assign_column pixels 0 (band "red") in
  let? pixels := assign_column pixels 1 (band "green") in
  let? pixels := assign_column pixels 2 (band "blue") in
  let? pixels := assign_column pixels 3 (band "nir") in
  let? pixels := assign_column pixels 4 (band "swir16") in
  let? pixels := assign_column pixels 5 (band "swir22") in
  if incl then
    let nir := column pixels 3 in
    let red := column pixels 0 in
    let green := column pixels 1 in
    let blue := column pixels 2 in
    let swir := column pixels 4 in
    let? pixels := assign_column pixels 6 (zip_with pixel_ndvi nir red) in
    let? pixels := assign_column pixels 7 (zip_with pixel_ndwi green nir) in
    let? pixels := assign_column pixels 8 (zip_with pixel_ndbi swir nir) in
    let? pixels := assign_column pixels 9
                     (zip_with (fun nr b => pixel_evi (fst nr) (snd nr) b)
                               (combine nir red) blue) in
    Ok pixels
  else Ok pixels.

(** *** Classification of the valid pixels (lines 349-363) *)

(** The cast of an integer label into a [np.uint8] array. *)
Definition to_uint8 (z : Z) : Z := z mod 256.

(** [pixels[:, 3] > 0] *)
Definition valid_pixel (row : list float) : bool := SFltb fzero (nth 3 row fzero).

Definition count_true (mask : list bool) : nat := List.length (filter (fun b => b) mask).

(** [rows[mask]] *)
Fixpoint select {A} (rows : list A) (mask : list bool) : list A :=
  match rows, mask with
  | r :: rows', true :: mask' => r :: select rows' mask'
  | _ :: rows', false :: mask' => select rows' mask'
  | _, _ => []
  end.

Definition boolean_index {A} (rows : list A) (mask : list bool) : result (list A) :=
  if Nat.eqb (List.length rows) (List.length mask) then Ok (select rows mask)
  else Err IndexError.

(** The entries of [dst] under a true mask bit are replaced, in order, by
    the values. *)
Fixpoint scatter (dst : list Z) (mask : list bool) (vals : list Z) : list Z :=
  match dst, mask with
  | d :: dst', true :: mask' =>
      match vals with
      | v :: vals' => v :: scatter dst' mask' vals'
      | [] => d :: scatter dst' mask' []
      end
  | d :: dst', false :: mask' => d :: scatter dst' mask' vals
  | _, _ => dst
  end.

(** [dst[mask] = vals] on a [np.uint8] array: as many values as true
    bits, or a single value that is broadcast. *)
Definition masked_assign (dst : list Z) (mask : list bool) (vals : list Z)
    : result (list Z) :=
  let cast := map to_uint8 vals in
  if negb (Nat.eqb (List.length mask) (List.length dst)) then Err IndexError
  else if Nat.eqb (List.length vals) (count_true mask) then Ok (scatter dst mask cast)
  else match cast with
       | [v] => Ok (scatter dst mask (repeat v (count_true mask)))
       | _ => Err ShapeMismatch
       end.

Definition classify_pixels (w : World) (scaler : Scaler w) (clf : Forest w)
    (n_pixels : Z) (pixels : matrix) : M (list Z) :=
  let valid_mask := map valid_pixel pixels in
  pixels_scaled <- call (scaler_transform w scaler pixels) ;;
  let classification := repeat 0 (Z.to_nat n_pixels) in
  if existsb (fun b => b) valid_mask then
    rows <- lift (boolean_index pixels_scaled valid_mask) ;;
    emit (EvPredict (List.length rows)) ;;;
    predicted <- call (forest_predict w clf rows) ;;
    lift (masked_assign classification valid_mask predicted)
  else ret classification.

(** ** Product Writer (lines 368-425) *)

Definition colormap : list (Z * (Z * Z * Z * Z)) :=
  [(0, (0, 0, 0, 0));
   (1, (230, 25, 75, 255));
   (2, (60, 180, 75, 255));
   (3, (255, 225, 25, 255));
   (4, (67, 99, 216, 255));
   (5, (245, 130, 49, 255));
   (6, (145, 30, 180, 255));
   (7, (66, 212, 244, 255));
   (8, (240, 50, 230, 255));
   (9, (191, 239, 69, 255));
   (10, (250, 190, 212, 255))].

Definition write_product (w : World) (path : string) (src_crs : string)
    (out_transform : option Affine) (h wd : Z) (classification : list Z) : M unit :=
  let profile :=
    {| pr_driver := "GTiff"; pr_dtype := "uint8"; pr_width := wd; pr_height := h;
       pr_count := 1; pr_crs := src_crs; pr_transform := out_transform;
       pr_compress := "lzw"; pr_nodata := 0 |} in
  emit (EvRasterCreate path profile) ;;;
  call (gtiff_create w path profile) ;;;
  emit (EvRasterWrite path h wd classification) ;;;
  call (gtiff_write w path h wd classification) ;;;
  call (gtiff_write_colormap w path colormap).

(** [str(n)] *)
Definition str_of_int (n : Z) : string := NilZero.string_of_int (Z.to_int n).

Fixpoint insert_sorted (x : Z) (l : list Z) : list Z :=
  match l with
  | [] => [x]
  | y :: r => if x <=? y then x :: l else y :: insert_sorted x r
  end.

(** [sorted(l)] *)
Definition sorted (l : list Z) : list Z := fold_right insert_sorted [] l.

(** [np.unique(c[c > 0])] on [np.uint8] values. *)
Definition unique_classes (classification : list Z) : list Z :=
  filter (fun v => existsb (Z.eqb v) classification) (map Z.of_nat (seq 1 255)).

(** Lines 403-407, with the keys already as [str(label)]. *)
Definition class_info (points : list TrainingPoint) : PyDict.dict string :=
  fold_left
    (fun info point =>
       let key := str_of_int (label point) in
       if PyDict.mem info key then info
       else PyDict.set info key
              (match class_name point with
               | Some name => name
               | None => "class_" ++ key
               end)%string)
    points PyDict.empty.

(** ** [classify_image] *)

Definition config_collection (config : Config) : string :=
  match collection config with Some c => c | None => "sentinel-2-l2a" end.

Definition config_num_trees (config : Config) : Z :=
  match num_trees config with Some n => n | None => 50 end.

Definition config_include_indices (config : Config) : bool :=
  match include_indices config with Some b => b | None => true end.

(** Lines 226-425: from the assembled training set to the result. *)
Definition train_and_classify (w : World) (config : Config)
    (band_urls : PyDict.dict string) (src_crs : string) (src_bounds : Bounds)
    (ts : TrainingSet) : M ClassificationResult :=
  if Nat.ltb (List.length (feature_matrix ts)) 3 then
    raise (NotEnoughSamples (List.length (feature_matrix ts))
                            (List.length (sampled_classes ts)))
  else
    ' (scaler, clf, train_accuracy) <- train w (config_num_trees config) ts ;;
    ' (window_left, window_bottom, window_right, window_top) <-
        region_of_interest w (training_data config) src_crs src_bounds ;;
    st <- read_bands w window_left window_bottom window_right window_top
            (PyDict.items band_urls) read_start ;;
    nir <- lift (PyDict.subscript (band_data st) "nir") ;;
    let '(h, wd) := shape nir in
    pixels <- lift (build_pixels (config_include_indices config) (band_data st) h wd) ;;
    classification <- classify_pixels w scaler clf (h * wd) pixels ;;
    write_product w (output_path config) src_crs
      (option_map snd (out_grid st)) h wd classification ;;;
    ret {| res_success := true;
           res_output_path := output_path config;
           res_width := wd;
           res_height := h;
           res_training_accuracy := train_accuracy;
           res_training_samples := List.length (feature_matrix ts);
           res_classes_in_output := unique_classes classification;
           res_classes_sampled := sorted (sampled_classes ts);
           res_class_names := class_info (training_data config);
           res_crs := src_crs;
           res_bounds := [window_left; window_bottom; window_right; window_top] |}.

(** Lines 87-425: what [classify_image] does with the primary descriptor
    once it is fetched. *)
Definition classify_scene (w : World) (config : Config) (stac_item : StacItem)
    : M ClassificationResult :=
  let band_urls := get_band_urls_for_item w stac_item in
  if PyDict.len band_urls <? 4 then raise (NotEnoughBands (PyDict.keys band_urls))
  else
    nir_url <- lift (PyDict.subscript band_urls "nir") ;;
    emit (EvRasterOpen nir_url) ;;;
    src <- call (rasterio_open w nir_url) ;;
    ts <- sample_training_points w (config_collection config)
            (config_include_indices config) band_urls (training_data config)
            no_samples ;;
    train_and_classify w config band_urls (crs src) (bounds src) ts.

Definition classify_image (w : World) (config : Config) : M ClassificationResult :=
  emit (EvUrlopen (stac_item_url config)) ;;;
  stac_item <- call (urlopen_json w (stac_item_url config)) ;;
  classify_scene w config stac_item.

(** ** Reading traces *)

Definition is_fit (ev : event) : bool :=
  match ev with
  | EvScalerFit _ | EvForestFit _ _ _ => true
  | _ => false
  end.

Definition is_raster_output (ev : event) : bool :=
  match ev with
  | EvRasterCreate _ _ | EvRasterWrite _ _ _ _ => true
  | _ => false
  end.

Definition is_search (ev : event) : bool :=
  match ev with
  | EvCatalogSearch _ _ _ => true
  | _ => false
  end.

(** Opening a raster or searching the catalog: what sampling a training
    point does first. *)
Definition is_sampling (ev : event) : bool :=
  match ev with
  | EvRasterOpen _ | EvCatalogSearch _ _ _ => true
  | _ => false
  end.

Definition count_events (p : event -> bool) (t : list event) : nat :=
  List.length (filter p t).

Definition is_not_enough_samples {A} (r : result A) : bool :=
  match r with
  | Err (NotEnoughSamples _ _) => true
  | _ => false
  end.

Definition is_not_enough_bands {A} (r : result A) : bool :=
  match r with
  | Err (NotEnoughBands _) => true
  | _ => false
  end.

Definition is_ok {A} (r : result A) : bool :=
  match r with
  | Ok _ => true
  | Err _ => false
  end.

(** The two errors that [classify_image] raises itself. *)
Definition raised_by_guard (e : error) : bool :=
  match e with
  | NotEnoughBands _ | NotEnoughSamples _ _ => true
  | _ => false
  end.

(** A result that is not one of the two guard errors. *)
Definition unguarded {A} (r : result A) : Prop :=
  match r with
  | Err e => raised_by_guard e = false
  | Ok _ => True
  end.

Definition quiet {A} (m : M A) : Prop := unguarded (outcome_of m).

(** A computation none of whose events satisfies [p]. *)
Definition free_of (p : event -> bool) {A} (m : M A) : Prop :=
  filter p (trace m) = [].

(** A computation that returns, whatever the world answers. *)
Definition returns {A} (m : M A) : Prop := exists a, outcome_of m = Ok a.

(** The number of target bands that the asset map of a descriptor has. *)
Definition resolved_bands (it : StacItem) : Z :=
  Z.of_nat (List.length (filter (fun entry => PyDict.mem (assets_of it) (snd entry)) band_keys)).

(** The number of distinct labels of a training set. *)
Definition distinct_labels (ts : TrainingSet) : nat := List.length (nodup Z.eq_dec (labels ts)).

(** ** A small concrete world

    Rasters of 4 x 4 pixels over the square [0,4] x [0,4] in which
    coordinates are not reprojected, a scaler that leaves the features as
    they are and a classifier that answers with the first training label. *)
Module Demo.

Definition num (n : Z) : float := float_of_Z binary64 n.

Definition asset (url : string) : Asset := {| href := Some url |}.

Definition scene (prefix : string) (names : list string) : StacItem :=
  {| item_assets := Some (map (fun b => (b, asset (prefix ++ b)%string)) names);
     item_other_keys := 1 |}.

Definition all_bands : list string := ["red"; "green"; "blue"; "nir"; "swir16"; "swir22"].

Definition fetch (url : string) : outcome StacItem :=
  if String.eqb url "item/all" then Returns (scene "primary/" all_bands)
  else if String.eqb url "item/three" then Returns (scene "primary/" ["red"; "green"; "blue"])
  else if String.eqb url "item/no_nir"
       then Returns (scene "primary/" ["red"; "green"; "blue"; "swir16"; "swir22"])
  else if String.eqb url "item/partial" then Returns (scene "partial/" all_bands)
  else Raises "HTTP Error 404".

(** The band value of pixel (row, col): the first column has no data. *)
Definition pixel_value (base : Z) (row col : Z) : float :=
  if col =? 0 then fzero else num (base + 100 * row + 10 * col).

Definition raster (base : Z) : Dataset :=
  {| crs := "EPSG:32633";
     transform := {| af_a := num 1; af_b := fzero; af_c := fzero;
                     af_d := fzero; af_e := num (-1); af_f := num 4 |};
     bounds := {| b_left := fzero; b_bottom := fzero; b_right := num 4; b_top := num 4 |};
     src_width := 4;
     src_height := 4;
     ds_index := fun x y =>
       match py_int y, py_int x with
       | Ok r, Ok c => Returns (r, c)
       | _, _ => Raises "index"
       end;
     ds_read := fun win _ _ =>
       Returns (fun r c => pixel_value base (row_off win + r) (col_off win + c)) |}.

Definition readable : list (string * Z) :=
  [("primary/red", 1000); ("primary/green", 1100); ("primary/blue", 1200);
   ("primary/nir", 3000); ("primary/swir16", 2000); ("primary/swir22", 1500);
   ("partial/red", 1000); ("partial/green", 1100); ("partial/blue", 1200);
   ("fallback/nir", 3000); ("fallback/swir16", 2000); ("fallback/swir22", 1500)].

Definition open_raster (url : string) : outcome Dataset :=
  match PyDict.get readable url with
  | Some base => Returns (raster base)
  | None => Raises "RasterioIOError"
  end.

Definition search (coll : string) (bbox : list float) (datetime : option string)
    : outcome (list StacItem) :=
  if String.eqb coll "sentinel-2-l2a" then Returns [scene "fallback/" all_bands]
  else Returns [].

Definition world : World :=
  {| Scaler := unit;
     Forest := list Z;
     urlopen_json := fetch;
     pc_sign := fun url => Raises "not signed";
     rasterio_open := open_raster;
     transform_coords := fun _ _ xs ys => Returns (xs, ys);
     catalog_post := search;
     windows_from_bounds := fun _ _ _ _ _ =>
       Returns {| f_col_off := fzero; f_row_off := fzero;
                  f_width := num 4; f_height := num 4 |};
     window_validate := fun win =>
       if (width win <? 0) || (height win <? 0)
       then Raises "Number of columns or rows must be non-negative"
       else Returns tt;
     transform_from_bounds := fun l _ _ t _ _ =>
       Returns {| af_a := num 1; af_b := fzero; af_c := l;
                  af_d := fzero; af_e := num (-1); af_f := t |};
     scaler_fit_transform := fun X => Returns (tt, X);
     scaler_transform := fun _ X => Returns X;
     forest_fit := fun _ _ y => Returns y;
     forest_score := fun _ _ _ => Returns (num 1);
     forest_predict := fun clf rows => Returns (map (fun _ => hd 0 clf) rows);
     gtiff_create := fun _ _ => Returns tt;
     gtiff_write := fun _ _ _ _ => Returns tt;
     gtiff_write_colormap := fun _ _ => Returns tt |}.

Definition point (x y lbl : Z) : TrainingPoint :=
  {| lat := num y; lon := num x; label := lbl; class_name := None |}.

Definition config (url : string) (points : list TrainingPoint) : Config :=
  {| training_data := points;
     stac_item_url := url;
     collection := None;
     output_path := "out.tif";
     num_trees := None;
     include_indices := None |}.

(** Three points of one class. *)
Definition one_class : list TrainingPoint := [point 1 1 1; point 2 2 1; point 3 3 1].

(** Five points of two classes. *)
Definition two_classes : list TrainingPoint :=
  [point 1 1 1; point 2 2 1; point 3 3 2; point 1 3 2; point 3 1 1].

(** The band URLs of a scene of which only red, green and blue can be
    read, and a point inside the rasters. *)
Definition partial_urls : PyDict.dict string :=
  get_band_urls_for_item world (scene "partial/" all_bands).

Definition fallback_urls : PyDict.dict string :=
  get_band_urls_for_item world (scene "fallback/" all_bands).

Definition inner_point : TrainingPoint := point 1 1 1.

End Demo.

(** The number of distinct bands sampled in one or the other mapping. *)
Definition bands_covered (a b : PyDict.dict float) : nat :=
  List.length (nodup string_dec (PyDict.keys a ++ PyDict.keys b)).

(** The columns of the pixel matrix, in the terms of the source. *)
Record pixel_columns (incl : bool) (bands : PyDict.dict ndarray) (h w : Z)
    (pixels : matrix) : Prop := {
  pc_rows : List.length pixels = Z.to_nat (h * w);
  pc_width : Forall (fun row => Z.of_nat (List.length row) = n_features incl) pixels;
  pc_red : column pixels 0 = flatten (PyDict.get_default bands "red" (zeros h w));
  pc_green : column pixels 1 = flatten (PyDict.get_default bands "green" (zeros h w));
  pc_blue : column pixels 2 = flatten (PyDict.get_default bands "blue" (zeros h w));
  pc_nir : column pixels 3 = flatten (PyDict.get_default bands "nir" (zeros h w));
  pc_swir16 : column pixels 4 = flatten (PyDict.get_default bands "swir16" (zeros h w));
  pc_swir22 : column pixels 5 = flatten (PyDict.get_default bands "swir22" (zeros h w));
  pc_ndvi : incl = true ->
            column pixels 6 = zip_with pixel_ndvi (column pixels 3) (column pixels 0);
  pc_ndwi : incl = true ->
            column pixels 7 = zip_with pixel_ndwi (column pixels 1) (column pixels 3);
  pc_ndbi : incl = true ->
            column pixels 8 = zip_with pixel_ndbi (column pixels 4) (column pixels 3);
  pc_evi : incl = true ->
           column pixels 9
           = zip_with (fun nr b => pixel_evi (fst nr) (snd nr) b)
                      (combine (column pixels 3) (column pixels 0)) (column pixels 2)
}.

(** The feature vector of a sampled point, in the terms of the source. *)
Record point_features (incl : bool) (band_values : PyDict.dict float)
    (features : list float) : Prop := {
  pf_length : Z.of_nat (List.length features) = n_features incl;
  pf_bands :
    firstn 6 features
    = map (fun k => PyDict.get_default band_values k fzero)
          ["red"; "green"; "blue"; "nir"; "swir16"; "swir22"];
  pf_indices :
    incl = true ->
    let value k := PyDict.get_default band_values k fzero in
    exists ndvi ndwi ndbi evi,
      point_ndvi (value "nir") (value "red") = Ok ndvi
      /\ point_ndwi (value "green") (value "nir") = Ok ndwi
      /\ point_ndbi (value "swir16") (value "nir") = Ok ndbi
      /\ point_evi (value "nir") (value "red") (value "blue") = Ok evi
      /\ skipn 6 features = [ndvi; ndwi; ndbi; evi]
}.

(** The nir array that a run of [train_and_classify] reads for inference. *)
Definition inference_nir (w : World) (config : Config) (band_urls : PyDict.dict string)
    (src_crs : string) (src_bounds : Bounds) (nir : ndarray) : Prop :=
  exists wl wb wr wt st,
    outcome_of (region_of_interest w (training_data config) src_crs src_bounds)
      = Ok (wl, wb, wr, wt)
    /\ outcome_of (read_bands w wl wb wr wt (PyDict.items band_urls) read_start) = Ok st
    /\ PyDict.get (band_data st) "nir" = Some nir.

(** The training set that the concrete world gives for three points of
    one class, and for three points labelled 256. *)
Definition demo_training_set (points : list TrainingPoint) : TrainingSet :=
  match outcome_of (sample_training_points Demo.world "sentinel-2-l2a" true
                      (get_band_urls_for_item Demo.world
                         (Demo.scene "primary/" Demo.all_bands))
                      points no_samples) with
  | Ok ts => ts
  | Err _ => no_samples
  end.

Definition demo_run (points : list TrainingPoint) : M ClassificationResult :=
  train_and_classify Demo.world (Demo.config "item/all" points)
    (get_band_urls_for_item Demo.world (Demo.scene "primary/" Demo.all_bands))
    "EPSG:32633" (bounds (Demo.raster 3000)) (demo_training_set points).

(** The bands nir and red of the concrete world, read over the whole
    raster. *)
Definition demo_entries : list (string * string) :=
  [("nir", "primary/nir"); ("red", "primary/red")].

Definition demo_read_state : ReadState :=
  match outcome_of (read_bands Demo.world fzero fzero (Demo.num 4) (Demo.num 4)
                      demo_entries read_start) with
  | Ok st => st
  | Err _ => read_start
  end.

Definition label_256 : list TrainingPoint :=
  [Demo.point 1 1 256; Demo.point 2 2 256; Demo.point 3 3 256].

(** [pixels[:, 3] > 0] on the flattened nir array. *)
Definition nir_mask (nir : ndarray) : list bool := map (SFltb fzero) (flatten nir).

(** ** The command line: [main] (lines 428-449)

    [sys.argv] is a list of strings whose first entry is the script.
    [load_config path] is [open(path)] with [json.load] and the three
    subscripts of lines 71-74: it returns the configuration or raises,
    before anything else is done.  What is printed to standard output is
    kept as a value; [stderr] is not modelled. *)

Inductive Printed : Type :=
| PrintedUsage                               (* {'error': 'Config file path required'} *)
| PrintedError (e : error)                   (* {'error': str(e), 'traceback': ...} *)
| PrintedResult (r : ClassificationResult).  (* json.dumps(result) *)

Record Process : Type := {
  proc_stdout : list Printed;
  proc_events : list event;
  proc_exit : Z
}.

(** The body of the [try] block. *)
Definition load_and_classify (w : World) (load_config : string -> outcome Config)
    (config_path : string) : M ClassificationResult :=
  config <- call (load_config config_path) ;;
  classify_image w config.

Definition main (w : World) (load_config : string -> outcome Config)
    (argv : list string) : Process :=
  if Nat.ltb (List.length argv) 2 then
    {| proc_stdout := [PrintedUsage]; proc_events := []; proc_exit := 1 |}
  else
    let config_path := nth 1 argv "" in
    match load_and_classify w load_config config_path with
    | (t, Ok result) =>
        {| proc_stdout := [PrintedResult result]; proc_events := t; proc_exit := 0 |}
    | (t, Err e) =>
        {| proc_stdout := [PrintedError e]; proc_events := t; proc_exit := 1 |}
    end.

(** ** More readings of traces, errors and inputs *)

Definition is_urlopen (ev : event) : bool :=
  match ev with
  | EvUrlopen _ => true
  | _ => false
  end.

Definition is_predict (ev : event) : bool :=
  match ev with
  | EvPredict _ => true
  | _ => false
  end.

Definition is_zero_division (e : error) : bool :=
  match e with
  | ZeroDivisionError => true
  | _ => false
  end.

Definition is_empty_sequence (e : error) : bool :=
  match e with
  | EmptySequence => true
  | _ => false
  end.

(** A result that is not an error of the kind [bad]. *)
Definition avoids (bad : error -> bool) {A} (r : result A) : Prop :=
  match r with
  | Err e => bad e = false
  | Ok _ => True
  end.

(** The band names in the order of [band_keys]. *)
Definition band_names : list string := map fst band_keys.

(** The name that lines 404-407 give to the label of a training point. *)
Definition point_name (point : TrainingPoint) : string :=
  match class_name point with
  | Some name => name
  | None => "class_" ++ str_of_int (label point)
  end.

(** The first training point with a label. *)
Definition first_with_label (points : list TrainingPoint) (lbl : Z)
    : option TrainingPoint :=
  find (fun point => label point =? lbl) points.

(** A list of integers that increases strictly. *)
Fixpoint increasing (l : list Z) : Prop :=
  match l with
  | x :: ((y :: _) as r) => x < y /\ increasing r
  | _ => True
  end.

(** ** A world of rasters of one value

    The world of [Demo] with other rasters: every pixel of the raster at
    a URL has the value listed for the URL. *)
Module Flat.

Definition raster (v : Z) : Dataset :=
  {| crs := "EPSG:32633";
     transform := transform (Demo.raster 0);
     bounds := bounds (Demo.raster 0);
     src_width := 4;
     src_height := 4;
     ds_index := ds_index (Demo.raster 0);
     ds_read := fun _ _ _ => Returns (fun _ _ => Demo.num v) |}.

Definition open_raster (values : list (string * Z)) (url : string) : outcome Dataset :=
  match PyDict.get values url with
  | Some v => Returns (raster v)
  | None => Raises "RasterioIOError"
  end.

Definition world (values : list (string * Z)) : World :=
  {| Scaler := Scaler Demo.world;
     Forest := Forest Demo.world;
     urlopen_json := urlopen_json Demo.world;
     pc_sign := pc_sign Demo.world;
     rasterio_open := open_raster values;
     transform_coords := transform_coords Demo.world;
     catalog_post := fun _ _ _ => Returns [];
     windows_from_bounds := windows_from_bounds Demo.world;
     window_validate := window_validate Demo.world;
     transform_from_bounds := transform_from_bounds Demo.world;
     scaler_fit_transform := scaler_fit_transform Demo.world;
     scaler_transform := scaler_transform Demo.world;
     forest_fit := forest_fit Demo.world;
     forest_score := forest_score Demo.world;
     forest_predict := forest_predict Demo.world;
     gtiff_create := gtiff_create Demo.world;
     gtiff_write := gtiff_write Demo.world;
     gtiff_write_colormap := gtiff_write_colormap Demo.world |}.

(** Band values at which the denominator of EVI is
    5000 + 6 * 0 - 7.5 * 2000 + 10000 = 0. *)
Definition evi_zero : list (string * Z) :=
  [("primary/red", 0); ("primary/green", 1000); ("primary/blue", 2000);
   ("primary/nir", 5000); ("primary/swir16", 1000); ("primary/swir22", 1000)].

End Flat.

(** ** More of the model, for the further properties *)

(** A computation that does not end in an error of the kind [bad]. *)
Definition safe (bad : error -> bool) {A} (m : M A) : Prop := avoids bad (outcome_of m).

Definition is_raster_open (ev : event) : bool :=
  match ev with
  | EvRasterOpen _ => true
  | _ => false
  end.

(** A stretch of a trace: at most [budget] events, all of one kind. *)
Definition within (kind : event -> bool) (budget : nat) (t : list event) : Prop :=
  forallb kind t = true /\ (List.length t <= budget)%nat.

(** A trace that consists of consecutive stretches, one per stage, in the
    order of the stages; a stage that was not reached has an empty
    stretch. *)
Fixpoint staged (stages : list ((event -> bool) * nat)) (t : list event) : Prop :=
  match stages with
  | [] => t = []
  | (kind, budget) :: later =>
      exists t1 t2, t = t1 ++ t2 /\ within kind budget t1 /\ staged later t2
  end.

(** The stages of a run of [classify_image] on [n] training points: the
    descriptor is fetched; the nir raster is opened and the points are
    sampled, each with at most 6 + 6 opened rasters and one search; the
    scaler and the forest are fitted; the bands are read; the classifier
    predicts; the raster is created and written. *)
Definition run_stages (n : nat) : list ((event -> bool) * nat) :=
  [(is_urlopen, 1%nat); (is_sampling, (1 + 13 * n)%nat); (is_fit, 2%nat);
   (is_raster_open, 6%nat); (is_predict, 1%nat); (is_raster_output, 2%nat)].

(** The body of the loop of lines 404-407: the first point of a label
    names it. *)
Definition name_label (info : PyDict.dict string) (point : TrainingPoint)
    : PyDict.dict string :=
  let key := str_of_int (label point) in
  if PyDict.mem info key then info
  else PyDict.set info key
         (match class_name point with
          | Some name => name
          | None => "class_" ++ key
          end)%string.

(** The band URLs and the sampled values of the world [Flat.evi_zero]. *)
Definition evi_zero_urls : PyDict.dict string :=
  get_band_urls_for_item (Flat.world Flat.evi_zero) (Demo.scene "primary/" Demo.all_bands).

Definition evi_zero_sample : PyDict.dict float :=
  [("red", Demo.num 0); ("green", Demo.num 1000); ("blue", Demo.num 2000);
   ("nir", Demo.num 5000); ("swir16", Demo.num 1000); ("swir22", Demo.num 1000)].

(** The nir array of [demo_read_state]. *)
Definition demo_nir : ndarray :=
  PyDict.get_default (band_data demo_read_state) "nir" (zeros 0 0).

(** Whether two floats are the same datum. *)
Definition same_float (x y : float) : bool :=
  match x, y with
  | S754_zero s, S754_zero s' => Bool.eqb s s'
  | S754_infinity s, S754_infinity s' => Bool.eqb s s'
  | S754_nan, S754_nan => true
  | S754_finite s m e, S754_finite s' m' e' => Bool.eqb s s' && Pos.eqb m m' && Z.eqb e e'
  | _, _ => false
  end.

(** [int(n / 1)] and [int(n / 1.0)] are [n], and [n / 1000] is below 1
    or the float 1.0: what [output_size] relies on for a side [n] that
    needs no downscaling. *)
Definition keeps_side (n : Z) : bool :=
  let one := float_of_Z binary64 1 in
  match int_truediv n MAX_DIM, int_div_number n (PyInt 1), int_div_number n (PyFloat one) with
  | Ok a, Ok q1, Ok q2 =>
      (SFltb a one || same_float a one)
      && match py_int q1, py_int q2 with
         | Ok r1, Ok r2 => (r1 =? n) && (r2 =? n)
         | _, _ => false
         end
  | _, _, _ => false
  end.

(** [transform_coords] gives as many coordinates as it is given. *)
Definition keeps_lengths (w : World) : Prop :=
  forall src dst xs ys xs' ys',
    transform_coords w src dst xs ys = Returns (xs', ys') ->
    List.length xs' = List.length xs /\ List.length ys' = List.length ys.

(** What it takes for [sample_band] to give the value [v]: the point,
    in the raster's coordinates, lies inside the bounds and on a pixel
    of the raster, and [v] is that pixel. *)
Definition sampled_under_point (w : World) (url : string) (lon lat v : float) : Prop :=
  exists src xs ys x y row col data,
    rasterio_open w url = Returns src
    /\ transform_coords w "EPSG:4326" (crs src) [lon] [lat] = Returns (xs, ys)
    /\ nth_error xs 0 = Some x
    /\ nth_error ys 0 = Some y
    /\ SFleb (b_left (bounds src)) x = true
    /\ SFleb x (b_right (bounds src)) = true
    /\ SFleb (b_bottom (bounds src)) y = true
    /\ SFleb y (b_top (bounds src)) = true
    /\ ds_index src x y = Returns (row, col)
    /\ 0 <= row < src_height src
    /\ 0 <= col < src_width src
    /\ ds_read src {| col_off := col; row_off := row; width := 1; height := 1 |} 1 1
       = Returns data
    /\ v = data 0 0.

(** ** The real value of a float *)

(** The real [m * 2^e]. *)
Definition F2R (m e : Z) : R := (IZR m * powerRZ 2 e)%R.

(** [r] is the real [x >= 0], with the sign [s], rounded to within [u]:
    a zero when [x] is below [u], a canonical float in range within [u]
    of [x], or an infinity. *)
Definition rounded (prec emax : Z) (s : bool) (x u : R) (r : spec_float) : Prop :=
  match r with
  | S754_zero s' => s' = s /\ (x < u)%R
  | S754_infinity s' => s' = s
  | S754_nan => False
  | S754_finite s' m e =>
      s' = s
      /\ canonical_mantissa prec emax m e = true
      /\ e <= emax - prec
      /\ (F2R (Zpos m) e - u <= x < F2R (Zpos m) e + u)%R
  end.

(** The unit [u] of a rounding of [x]: relative to [x] in the normal
    range, the least positive float below it. *)
Definition unit_of (prec emax : Z) (x u : R) : Prop :=
  (0 < u)%R
  /\ ((u <= x * powerRZ 2 (1 - prec))%R \/ u = powerRZ 2 (emin prec emax)).

(** A float that [SFltb] compares by value: a zero or a canonical finite
    float of binary64. *)
Definition comparable (x : float) : Prop :=
  match x with
  | S754_zero _ => True
  | S754_finite _ m e => canonical_mantissa 53 1024 m e = true
  | _ => False
  end.

(** ** The downscale factor as a real number *)

(** The real number that a finite float stands for. *)
Definition float_value (x : float) : R :=
  match x with
  | S754_finite s m e => F2R (cond_Zopp s (Zpos m)) e
  | _ => 0%R
  end.



(** A float that is a zero or positive: what [n / MAX_DIM] is for a side
    [n] that is not negative. *)
Definition nonneg_float (x : float) : Prop :=
  x = S754_zero false
  \/ exists m e, x = S754_finite false m e /\ canonical_mantissa 53 1024 m e = true.

(** [scale] is the int 1 or a float that is not below 1. *)
Definition proper_scale (scale : number) : Prop :=
  scale = PyInt 1
  \/ exists m e, scale = PyFloat (S754_finite false m e)
                 /\ canonical_mantissa 53 1024 m e = true
                 /\ (1 <= F2R (Zpos m) e)%R.

(** * Properties *)

(** ** Computations and their traces *)

Section MonadFacts.
Context {A B : Type}.

Lemma bind_ok_inv (m : M A) (k : A -> M B) (b : B) :
  outcome_of (bind m k) = Ok b ->
  exists a, outcome_of m = Ok a /\ outcome_of (k a) = Ok b.
Proof.
  destruct m as [t [a | e]]; simpl.
  - destruct (k a) as [t' r] eqn:E. simpl. intros ->. exists a. rewrite E. auto.
  - discriminate.
Qed.

Lemma bind_after_ok (m : M A) (k : A -> M B) (a : A) :
  outcome_of m = Ok a ->
  bind m k = (trace m ++ trace (k a), outcome_of (k a)).
Proof.
  destruct m as [t r]; simpl. intros ->. now destruct (k a).
Qed.

Lemma bind_after_err (m : M A) (k : A -> M B) (e : error) :
  outcome_of m = Err e -> bind m k = (trace m, Err e).
Proof.
  destruct m as [t r]; simpl. now intros ->.
Qed.

Lemma quiet_bind (m : M A) (k : A -> M B) :
  quiet m -> (forall a, quiet (k a)) -> quiet (bind m k).
Proof.
  unfold quiet. destruct m as [t [a | e]]; simpl; intros Hm Hk; auto.
  specialize (Hk a). now destruct (k a).
Qed.

Lemma unguarded_bind (r : result A) (k : A -> result B) :
  unguarded r -> (forall a, unguarded (k a)) -> unguarded (result_bind r k).
Proof.
  destruct r; simpl; auto.
Qed.

Lemma quiet_try (m : M A) (h : error -> M A) :
  (forall e, quiet (h e)) -> quiet (try_except m h).
Proof.
  unfold quiet. destruct m as [t [a | e]]; simpl; intros Hh; auto.
  specialize (Hh e). now destruct (h e).
Qed.

Lemma quiet_ret (a : A) : quiet (ret a).
Proof. exact I. Qed.

Lemma quiet_call (o : outcome A) : quiet (call o).
Proof. now destruct o. Qed.

Lemma quiet_lift (r : result A) : unguarded r -> quiet (lift r).
Proof. auto. Qed.

End MonadFacts.

Lemma quiet_emit (ev : event) : quiet (emit ev).
Proof. exact I. Qed.

Create HintDb quiet.

#[local] Hint Resolve quiet_ret quiet_call quiet_emit quiet_lift : quiet.

(** One step through a computation that is to be shown free of guard
    errors. *)
Ltac quiet_step :=
  lazymatch goal with
  | |- quiet (ret _) => apply quiet_ret
  | |- quiet (emit _) => apply quiet_emit
  | |- quiet (call _) => apply quiet_call
  | |- quiet (lift _) => apply quiet_lift
  | |- quiet (bind _ _) => apply quiet_bind; [ | intros ? ]
  | |- quiet (try_except _ _) => apply quiet_try; intros ?
  | |- unguarded (result_bind _ _) => apply unguarded_bind; [ | intros ? ]
  | |- unguarded (Ok _) => exact I
  | |- unguarded (Err _) => reflexivity
  | |- quiet (raise _) => reflexivity
  | |- quiet (if ?x then _ else _) => destruct x
  | |- unguarded (if ?x then _ else _) => destruct x
  | |- quiet (match ?x with _ => _ end) => destruct x
  | |- unguarded (match ?x with _ => _ end) => destruct x
  end.

Ltac quiet_tac := repeat quiet_step; auto with quiet.

(** ** The pure operations raise neither guard error *)

Lemma unguarded_py_int (x : float) : unguarded (py_int x).
Proof. now destruct x. Qed.

Lemma unguarded_int_truediv (a b : Z) : unguarded (int_truediv a b).
Proof. unfold int_truediv. quiet_tac. Qed.

Lemma unguarded_float_truediv (x y : float) : unguarded (float_truediv x y).
Proof. unfold float_truediv. quiet_tac. Qed.

Lemma unguarded_int_to_float (n : Z) : unguarded (int_to_float n).
Proof. unfold int_to_float. quiet_tac. Qed.

#[local] Hint Resolve unguarded_py_int unguarded_int_truediv unguarded_float_truediv
  unguarded_int_to_float : quiet.

Lemma unguarded_int_div_number (n : Z) (s : number) : unguarded (int_div_number n s).
Proof. unfold int_div_number. quiet_tac. Qed.

Lemma unguarded_py_min_list (l : list float) : unguarded (py_min_list l).
Proof. now destruct l. Qed.

Lemma unguarded_py_max_list (l : list float) : unguarded (py_max_list l).
Proof. now destruct l. Qed.

Lemma unguarded_subscript {V} (d : PyDict.dict V) (k : string) :
  unguarded (PyDict.subscript d k).
Proof. unfold PyDict.subscript. quiet_tac. Qed.

Lemma unguarded_list_item {A} (l : list A) (i : nat) : unguarded (list_item l i).
Proof. unfold list_item. quiet_tac. Qed.

#[local] Hint Resolve unguarded_int_div_number unguarded_py_min_list unguarded_py_max_list
  unguarded_subscript unguarded_list_item : quiet.

Lemma unguarded_clamp_window (fw : FloatWindow) (src : Dataset) :
  unguarded (clamp_window fw src).
Proof. unfold clamp_window. quiet_tac. Qed.

Lemma unguarded_output_size (win : Window) : unguarded (output_size win).
Proof. unfold output_size. quiet_tac. Qed.

Lemma unguarded_assign_column (pixels : matrix) (k : nat) (v : list float) :
  unguarded (assign_column pixels k v).
Proof. unfold assign_column. quiet_tac. Qed.

#[local] Hint Resolve unguarded_clamp_window unguarded_output_size
  unguarded_assign_column : quiet.

Lemma unguarded_build_pixels (incl : bool) (bands : PyDict.dict ndarray) (h w : Z) :
  unguarded (build_pixels incl bands h w).
Proof. unfold build_pixels. quiet_tac. Qed.

Lemma unguarded_boolean_index {A} (rows : list A) (mask : list bool) :
  unguarded (boolean_index rows mask).
Proof. unfold boolean_index. quiet_tac. Qed.

Lemma unguarded_masked_assign (dst : list Z) (mask : list bool) (vals : list Z) :
  unguarded (masked_assign dst mask vals).
Proof.
  unfold masked_assign.
  destruct (negb _); [reflexivity|].
  destruct (Nat.eqb _ _); [exact I|].
  destruct (map to_uint8 vals) as [|v [|v' r]]; simpl; auto.
Qed.

#[local] Hint Resolve unguarded_build_pixels unguarded_boolean_index
  unguarded_masked_assign : quiet.

(** ** The stages after the guards raise neither guard error *)

Lemma quiet_read_array (src : Dataset) (win : Window) (rows cols : Z) :
  quiet (read_array src win rows cols).
Proof. unfold read_array. quiet_tac. Qed.

Lemma quiet_train (w : World) (n : Z) (ts : TrainingSet) : quiet (train w n ts).
Proof. unfold train. quiet_tac. Qed.

Lemma quiet_region_of_interest (w : World) (points : list TrainingPoint)
    (src_crs : string) (src_bounds : Bounds) :
  quiet (region_of_interest w points src_crs src_bounds).
Proof. unfold region_of_interest. quiet_tac. Qed.

#[local] Hint Resolve quiet_read_array quiet_train quiet_region_of_interest : quiet.

Lemma quiet_read_band (w : World) (wl wb wr wt : float) (st : ReadState)
    (entry : string * string) :
  quiet (read_band w wl wb wr wt st entry).
Proof. unfold read_band. destruct entry. quiet_tac. Qed.

Lemma quiet_read_bands (w : World) (wl wb wr wt : float) (entries : list (string * string)) :
  forall st, quiet (read_bands w wl wb wr wt entries st).
Proof.
  induction entries as [|entry rest IH]; intros st; simpl.
  - exact I.
  - apply quiet_bind; [apply quiet_read_band | intros st'; apply IH].
Qed.

Lemma quiet_classify_pixels (w : World) (scaler : Scaler w) (clf : Forest w)
    (n : Z) (pixels : matrix) :
  quiet (classify_pixels w scaler clf n pixels).
Proof. unfold classify_pixels. quiet_tac. Qed.

Lemma quiet_write_product (w : World) (path src_crs : string) (tr : option Affine)
    (h wd : Z) (classification : list Z) :
  quiet (write_product w path src_crs tr h wd classification).
Proof. unfold write_product. quiet_tac. Qed.

#[local] Hint Resolve quiet_read_band quiet_read_bands quiet_classify_pixels
  quiet_write_product : quiet.

Lemma quiet_sample_band (w : World) (url : string) (lon lat : float) :
  quiet (sample_band w url lon lat).
Proof. unfold sample_band. quiet_tac. Qed.

Lemma quiet_sample_training_point (w : World) (coll : string) (incl : bool)
    (band_urls : PyDict.dict string) (ts : TrainingSet) (point : TrainingPoint) :
  quiet (sample_training_point w coll incl band_urls ts point).
Proof. unfold sample_training_point. quiet_tac. Qed.

Lemma quiet_sample_training_points (w : World) (coll : string) (incl : bool)
    (band_urls : PyDict.dict string) (points : list TrainingPoint) :
  forall ts, quiet (sample_training_points w coll incl band_urls points ts).
Proof.
  induction points as [|point rest IH]; intros ts; simpl.
  - exact I.
  - apply quiet_bind; [apply quiet_sample_training_point | intros ts'; apply IH].
Qed.

(** With three or more sampled rows the rest of [classify_image] raises
    neither guard error. *)
Lemma quiet_with_three_rows (w : World) (config : Config)
    (band_urls : PyDict.dict string) (src_crs : string) (src_bounds : Bounds)
    (ts : TrainingSet) :
  Nat.ltb (List.length (feature_matrix ts)) 3 = false ->
  quiet (train_and_classify w config band_urls src_crs src_bounds ts).
Proof.
  intros Hlen. unfold train_and_classify. rewrite Hlen. unfold shape.
  quiet_tac.
Qed.

Lemma not_samples_of_unguarded {A} (r : result A) :
  unguarded r -> is_not_enough_samples r = false.
Proof. destruct r as [a | []]; simpl; intros H; auto; discriminate. Qed.

Lemma not_bands_of_unguarded {A} (r : result A) :
  unguarded r -> is_not_enough_bands r = false.
Proof. destruct r as [a | []]; simpl; intros H; auto; discriminate. Qed.

(** ** Band Resolver: how many bands resolve *)

Lemma len_band_urls (w : World) (it : StacItem) :
  PyDict.len (get_band_urls_for_item w it) = resolved_bands it.
Proof.
  unfold get_band_urls_for_item, resolved_bands, PyDict.mem, PyDict.len.
  cbn [band_keys fold_left filter snd resolve_band].
  destruct (PyDict.get (assets_of it) "red");
    destruct (PyDict.get (assets_of it) "green");
    destruct (PyDict.get (assets_of it) "blue");
    destruct (PyDict.get (assets_of it) "nir");
    destruct (PyDict.get (assets_of it) "swir16");
    destruct (PyDict.get (assets_of it) "swir22"); reflexivity.
Qed.

Lemma nir_url_of_asset (w : World) (it : StacItem) :
  PyDict.mem (get_band_urls_for_item w it) "nir" = PyDict.mem (assets_of it) "nir".
Proof.
  unfold get_band_urls_for_item, PyDict.mem.
  cbn [band_keys fold_left resolve_band].
  destruct (PyDict.get (assets_of it) "red");
    destruct (PyDict.get (assets_of it) "green");
    destruct (PyDict.get (assets_of it) "blue");
    destruct (PyDict.get (assets_of it) "nir");
    destruct (PyDict.get (assets_of it) "swir16");
    destruct (PyDict.get (assets_of it) "swir22"); reflexivity.
Qed.

(** ** The guard on the training set *)

(** C1, as the code has it: after sampling, [classify_image] fails with
    the not-enough-samples error exactly when the training set has fewer
    than 3 rows, and it then has fitted nothing and written no raster (it
    has caused no event at all).  The number of distinct labels is not
    looked at. *)
Theorem insufficient_samples_rule (w : World) (config : Config)
    (band_urls : PyDict.dict string) (src_crs : string) (src_bounds : Bounds)
    (ts : TrainingSet) :
  let run := train_and_classify w config band_urls src_crs src_bounds ts in
  (is_not_enough_samples (outcome_of run) = true
   <-> (List.length (feature_matrix ts) < 3)%nat)
  /\ ((List.length (feature_matrix ts) < 3)%nat ->
      run = ([], Err (NotEnoughSamples (List.length (feature_matrix ts))
                                       (List.length (sampled_classes ts))))).
Proof.
  intros run. subst run.
  destruct (Nat.ltb (List.length (feature_matrix ts)) 3) eqn:Hlen.
  - apply Nat.ltb_lt in Hlen as Hlt.
    unfold train_and_classify. rewrite Hlen. simpl. tauto.
  - apply Nat.ltb_ge in Hlen as Hge. split.
    + rewrite not_samples_of_unguarded by now apply quiet_with_three_rows.
      split; [discriminate | lia].
    + lia.
Qed.

(** C1 as stated fails: three sampled rows of a single class pass the
    guard; the scaler and the forest are fitted and the raster is written. *)
Lemma single_class_is_trained :
  let config := Demo.config "item/all" Demo.one_class in
  let run := classify_image Demo.world config in
  exists ts,
    outcome_of (sample_training_points Demo.world (config_collection config)
                  (config_include_indices config)
                  (get_band_urls_for_item Demo.world
                     (Demo.scene "primary/" Demo.all_bands))
                  (training_data config) no_samples) = Ok ts
    /\ List.length (feature_matrix ts) = 3%nat
    /\ distinct_labels ts = 1%nat
    /\ is_ok (outcome_of run) = true
    /\ is_not_enough_samples (outcome_of run) = false
    /\ count_events is_fit (trace run) = 2%nat
    /\ count_events is_raster_output (trace run) = 2%nat.
Proof.
  eexists. split; [vm_compute; reflexivity|].
  repeat split; vm_compute; reflexivity.
Qed.

(** ** The guard on the resolved bands *)

Lemma classify_image_fetched (w : World) (config : Config) (it : StacItem) :
  urlopen_json w (stac_item_url config) = Returns it ->
  classify_image w config
  = (EvUrlopen (stac_item_url config) :: trace (classify_scene w config it),
     outcome_of (classify_scene w config it)).
Proof.
  intros Hfetch. unfold classify_image. rewrite Hfetch.
  cbn [call emit bind ret]. now destruct (classify_scene w config it).
Qed.

Lemma not_bands_of_quiet {A} (m : M A) :
  quiet m -> is_not_enough_bands (outcome_of m) = false.
Proof. apply not_bands_of_unguarded. Qed.

Lemma bind_not_bands {A B} (m : M A) (k : A -> M B) :
  is_not_enough_bands (outcome_of m) = false ->
  (forall a, is_not_enough_bands (outcome_of (k a)) = false) ->
  is_not_enough_bands (outcome_of (bind m k)) = false.
Proof.
  destruct m as [t [a | e]]; simpl; intros Hm Hk; auto.
  specialize (Hk a). now destruct (k a).
Qed.

Lemma train_and_classify_not_bands (w : World) (config : Config)
    (band_urls : PyDict.dict string) (src_crs : string) (src_bounds : Bounds)
    (ts : TrainingSet) :
  is_not_enough_bands
    (outcome_of (train_and_classify w config band_urls src_crs src_bounds ts)) = false.
Proof.
  destruct (Nat.ltb (List.length (feature_matrix ts)) 3) eqn:Hlen.
  - unfold train_and_classify. now rewrite Hlen.
  - apply not_bands_of_unguarded. now apply quiet_with_three_rows.
Qed.

(** C5: when fewer than 4 of the 6 target bands are in the asset map of
    the primary descriptor, [classify_image] ends with the
    not-enough-bands error having only fetched the descriptor: no raster
    was opened and no catalog searched, so no training point was sampled.
    With 4 or more the error is not raised. *)
Theorem insufficient_bands_rule (w : World) (config : Config) (it : StacItem) :
  urlopen_json w (stac_item_url config) = Returns it ->
  let run := classify_image w config in
  (resolved_bands it < 4 ->
     run = ([EvUrlopen (stac_item_url config)],
            Err (NotEnoughBands (PyDict.keys (get_band_urls_for_item w it))))
     /\ count_events is_sampling (trace run) = 0%nat)
  /\ (4 <= resolved_bands it -> is_not_enough_bands (outcome_of run) = false).
Proof.
  intros Hfetch run. subst run.
  rewrite (classify_image_fetched _ _ _ Hfetch).
  unfold classify_scene. rewrite len_band_urls. split.
  - intros Hlt. apply Z.ltb_lt in Hlt. rewrite Hlt. simpl. auto.
  - intros Hge. apply Z.ltb_ge in Hge. rewrite Hge.
    cbn [outcome_of snd].
    repeat (apply bind_not_bands;
            [ apply not_bands_of_quiet;
              first [ apply quiet_sample_training_points | solve [quiet_tac] ]
            | intros ? ]).
    apply train_and_classify_not_bands.
Qed.

Lemma insufficient_bands_rule_witness :
  classify_image Demo.world (Demo.config "item/three" Demo.one_class)
  = ([EvUrlopen "item/three"], Err (NotEnoughBands ["red"; "green"; "blue"]))
  /\ is_not_enough_bands
       (outcome_of (classify_image Demo.world (Demo.config "item/all" Demo.two_classes)))
     = false.
Proof.
  split.
  - apply (insufficient_bands_rule Demo.world
             (Demo.config "item/three" Demo.one_class)
             (Demo.scene "primary/" ["red"; "green"; "blue"]));
      [reflexivity | vm_compute; reflexivity].
  - apply (insufficient_bands_rule Demo.world
             (Demo.config "item/all" Demo.two_classes)
             (Demo.scene "primary/" Demo.all_bands));
      [reflexivity | vm_compute; discriminate].
Defined.

(** C8: a primary descriptor that passes the 4-band check without a nir
    asset makes [classify_image] raise [KeyError] on [band_urls['nir']]
    right after the check: nothing was sampled, fitted or written. *)
Theorem missing_nir_is_fatal (w : World) (config : Config) (it : StacItem) :
  urlopen_json w (stac_item_url config) = Returns it ->
  4 <= resolved_bands it ->
  PyDict.mem (assets_of it) "nir" = false ->
  classify_image w config
  = ([EvUrlopen (stac_item_url config)], Err (KeyError "nir")).
Proof.
  intros Hfetch Hge Hnir.
  rewrite (classify_image_fetched _ _ _ Hfetch).
  unfold classify_scene. rewrite len_band_urls.
  apply Z.ltb_ge in Hge. rewrite Hge.
  rewrite <- (nir_url_of_asset w) in Hnir.
  unfold PyDict.subscript. unfold PyDict.mem in Hnir.
  destruct (PyDict.get (get_band_urls_for_item w it) "nir"); [discriminate|].
  reflexivity.
Qed.

Lemma missing_nir_is_fatal_witness :
  classify_image Demo.world (Demo.config "item/no_nir" Demo.two_classes)
  = ([EvUrlopen "item/no_nir"], Err (KeyError "nir")).
Proof.
  apply (missing_nir_is_fatal Demo.world (Demo.config "item/no_nir" Demo.two_classes)
           (Demo.scene "primary/" ["red"; "green"; "blue"; "swir16"; "swir22"])).
  - reflexivity.
  - vm_compute. discriminate.
  - reflexivity.
Defined.

(** ** Traces of composed computations *)

Section TraceFacts.
Context {A B : Type}.
Variable p : event -> bool.

Lemma trace_bind (m : M A) (k : A -> M B) :
  trace (bind m k)
  = trace m ++ match outcome_of m with
               | Ok a => trace (k a)
               | Err _ => []
               end.
Proof.
  destruct m as [t [a | e]]; simpl.
  - now destruct (k a).
  - now rewrite app_nil_r.
Qed.

Lemma trace_try (m : M A) (h : error -> M A) :
  trace (try_except m h)
  = trace m ++ match outcome_of m with
               | Ok _ => []
               | Err e => trace (h e)
               end.
Proof.
  destruct m as [t [a | e]]; simpl.
  - now rewrite app_nil_r.
  - now destruct (h e).
Qed.

Lemma free_bind (m : M A) (k : A -> M B) :
  free_of p m -> (forall a, free_of p (k a)) -> free_of p (bind m k).
Proof.
  unfold free_of. intros Hm Hk. rewrite trace_bind, filter_app, Hm.
  destruct (outcome_of m); simpl; auto.
Qed.

Lemma free_try (m : M A) (h : error -> M A) :
  free_of p m -> (forall e, free_of p (h e)) -> free_of p (try_except m h).
Proof.
  unfold free_of. intros Hm Hh. rewrite trace_try, filter_app, Hm.
  destruct (outcome_of m); simpl; auto.
Qed.

Lemma free_ret (a : A) : free_of p (ret a).
Proof. reflexivity. Qed.

Lemma free_call (o : outcome A) : free_of p (call o).
Proof. now destruct o. Qed.

Lemma free_lift (r : result A) : free_of p (lift r).
Proof. reflexivity. Qed.

Lemma free_raise (e : error) : free_of p (@raise A e).
Proof. reflexivity. Qed.

Lemma returns_try (m : M A) (h : error -> M A) :
  (forall e, returns (h e)) -> returns (try_except m h).
Proof.
  unfold returns. destruct m as [t [a | e]]; simpl; intros Hh.
  - now exists a.
  - destruct (Hh e) as [a Ha]. exists a. now destruct (h e).
Qed.

Lemma returns_bind (m : M A) (k : A -> M B) :
  returns m -> (forall a, returns (k a)) -> returns (bind m k).
Proof.
  unfold returns. intros [a Ha] Hk. destruct (Hk a) as [b Hb]. exists b.
  rewrite (bind_after_ok _ _ _ Ha). exact Hb.
Qed.

Lemma returns_ret (a : A) : returns (ret a).
Proof. now exists a. Qed.

End TraceFacts.

Lemma free_emit (p : event -> bool) (ev : event) : p ev = false -> free_of p (emit ev).
Proof. unfold free_of. simpl. now intros ->. Qed.

Ltac free_step :=
  lazymatch goal with
  | |- free_of _ (ret _) => apply free_ret
  | |- free_of _ (emit _) => apply free_emit; reflexivity
  | |- free_of _ (call _) => apply free_call
  | |- free_of _ (lift _) => apply free_lift
  | |- free_of _ (raise _) => apply free_raise
  | |- free_of _ (bind _ _) => apply free_bind; [ | intros ? ]
  | |- free_of _ (try_except _ _) => apply free_try; [ | intros ? ]
  | |- free_of _ (if ?x then _ else _) => destruct x
  | |- free_of _ (match ?x with _ => _ end) => destruct x
  end.

Ltac free_tac := repeat free_step; auto.

(** ** Point Sampler: it always returns, and it searches nothing *)

Lemma free_read_array (p : event -> bool) (src : Dataset) (win : Window) (rows cols : Z) :
  free_of p (read_array src win rows cols).
Proof. unfold read_array. free_tac. Qed.

Lemma sample_band_returns (w : World) (url : string) (lon lat : float) :
  returns (sample_band w url lon lat).
Proof. unfold sample_band. apply returns_try. intros e. apply returns_ret. Qed.

Lemma sample_band_no_search (w : World) (url : string) (lon lat : float) :
  free_of is_search (sample_band w url lon lat).
Proof. unfold sample_band. free_tac. apply free_read_array. Qed.

Lemma sample_bands_returns (w : World) (items : list (string * string)) (lon lat : float) :
  forall band_values, returns (sample_bands w items lon lat band_values).
Proof.
  induction items as [|[band_name url] rest IH]; intros band_values; simpl.
  - apply returns_ret.
  - apply returns_bind; [apply sample_band_returns | intros v; apply IH].
Qed.

Lemma sample_bands_no_search (w : World) (items : list (string * string)) (lon lat : float) :
  forall band_values, free_of is_search (sample_bands w items lon lat band_values).
Proof.
  induction items as [|[band_name url] rest IH]; intros band_values; simpl.
  - apply free_ret.
  - apply free_bind; [apply sample_band_no_search | intros v; apply IH].
Qed.

Lemma sample_point_returns (w : World) (urls : PyDict.dict string) (lon lat : float) :
  returns (sample_point_from_urls w urls lon lat).
Proof. apply sample_bands_returns. Qed.

Lemma sample_point_no_search (w : World) (urls : PyDict.dict string) (lon lat : float) :
  free_of is_search (sample_point_from_urls w urls lon lat).
Proof. apply sample_bands_no_search. Qed.

(** [search_stac_for_point] returns, and it is one catalog search. *)
Lemma search_returns (w : World) (coll : string) (lon lat : float) (dt : option string) :
  returns (search_stac_for_point w coll lon lat dt).
Proof.
  unfold search_stac_for_point, returns. cbn [emit bind].
  destruct (catalog_post _ _ _ _) as [[|first rest] | msg]; simpl; eauto.
Qed.

Lemma search_trace (w : World) (coll : string) (lon lat : float) (dt : option string) :
  trace (search_stac_for_point w coll lon lat dt) = [EvCatalogSearch coll lon lat].
Proof.
  unfold search_stac_for_point. cbn [emit bind].
  destruct (catalog_post _ _ _ _) as [[|first rest] | msg]; reflexivity.
Qed.

Lemma sample_with_fallback_returns (w : World) (coll : string)
    (band_urls : PyDict.dict string) (lon lat : float) :
  returns (sample_with_fallback w coll band_urls lon lat).
Proof.
  unfold sample_with_fallback.
  apply returns_bind; [apply sample_point_returns | intros band_values].
  destruct (PyDict.len band_values <? 4); [|apply returns_ret].
  apply returns_bind; [apply search_returns | intros [it|]; [|apply returns_ret]].
  destruct (truthy_item it); [|apply returns_ret].
  destruct (4 <=? _); [apply sample_point_returns | apply returns_ret].
Qed.

Lemma sample_training_point_returns (w : World) (coll : string) (incl : bool)
    (band_urls : PyDict.dict string) (ts : TrainingSet) (point : TrainingPoint) :
  returns (sample_training_point w coll incl band_urls ts point).
Proof.
  unfold sample_training_point. apply returns_try. intros e. apply returns_ret.
Qed.

Lemma sample_training_points_returns (w : World) (coll : string) (incl : bool)
    (band_urls : PyDict.dict string) (points : list TrainingPoint) :
  forall ts, returns (sample_training_points w coll incl band_urls points ts).
Proof.
  induction points as [|point rest IH]; intros ts; simpl.
  - apply returns_ret.
  - apply returns_bind; [apply sample_training_point_returns | intros ts'; apply IH].
Qed.

(** The searches of one point: one when the primary scene gave fewer than
    4 bands. *)
Lemma sample_with_fallback_searches (w : World) (coll : string)
    (band_urls : PyDict.dict string) (lon lat : float) (primary : PyDict.dict float) :
  outcome_of (sample_point_from_urls w band_urls lon lat) = Ok primary ->
  PyDict.len primary < 4 ->
  count_events is_search (trace (sample_with_fallback w coll band_urls lon lat)) = 1%nat.
Proof.
  intros Hprimary Hlt. unfold sample_with_fallback, count_events.
  rewrite trace_bind, filter_app, Hprimary.
  rewrite (sample_point_no_search w band_urls lon lat).
  apply Z.ltb_lt in Hlt. rewrite Hlt.
  rewrite trace_bind, filter_app, search_trace.
  destruct (search_returns w coll lon lat None) as [item Hitem]. rewrite Hitem.
  cbn [filter is_search app List.length].
  assert (Hfree : forall bv : PyDict.dict float, filter is_search (trace (ret bv)) = [])
    by reflexivity.
  destruct item as [it|]; [|now rewrite Hfree].
  destruct (truthy_item it); [|now rewrite Hfree].
  destruct (4 <=? _); [|now rewrite Hfree].
  now rewrite (sample_point_no_search w _ lon lat).
Qed.

Lemma sample_training_point_trace (w : World) (coll : string) (incl : bool)
    (band_urls : PyDict.dict string) (ts : TrainingSet) (point : TrainingPoint) :
  trace (sample_training_point w coll incl band_urls ts point)
  = trace (sample_with_fallback w coll band_urls (lon point) (lat point)).
Proof.
  unfold sample_training_point.
  destruct (sample_with_fallback_returns w coll band_urls (lon point) (lat point))
    as [bv Hbv].
  rewrite trace_try, trace_bind, Hbv.
  assert (Hend : forall r : result TrainingSet,
             match r with Ok _ => [] | Err e => trace (ret (A := TrainingSet) ts) end
             = @nil event) by (now intros []).
  rewrite Hend, app_nil_r.
  destruct (4 <=? PyDict.len bv).
  - destruct (build_features incl bv); simpl; now rewrite app_nil_r.
  - simpl. now rewrite app_nil_r.
Qed.

Lemma outcome_bind {A B} (m : M A) (k : A -> M B) :
  outcome_of (bind m k)
  = match outcome_of m with
    | Ok a => outcome_of (k a)
    | Err e => Err e
    end.
Proof. destruct m as [t [a | e]]; simpl; auto. now destruct (k a). Qed.

Lemma outcome_try {A} (m : M A) (h : error -> M A) :
  outcome_of (try_except m h)
  = match outcome_of m with
    | Ok a => Ok a
    | Err e => outcome_of (h e)
    end.
Proof. destruct m as [t [a | e]]; simpl; auto. now destruct (h e). Qed.

(** ** Under-sampled points *)

(** C6: a training point with fewer than 4 bands from the primary scene
    causes exactly one catalog search; if the samples are still fewer
    than 4 bands after the fallback, the training set is left as it was
    and the loop goes on with the remaining points.  The loop over the
    points never fails. *)
Theorem undersampled_point_is_dropped (w : World) (coll : string) (incl : bool)
    (band_urls : PyDict.dict string) (ts : TrainingSet) (point : TrainingPoint)
    (primary : PyDict.dict float) :
  outcome_of (sample_point_from_urls w band_urls (lon point) (lat point)) = Ok primary ->
  PyDict.len primary < 4 ->
  let step := sample_training_point w coll incl band_urls ts point in
  count_events is_search (trace step) = 1%nat
  /\ (forall final,
        outcome_of (sample_with_fallback w coll band_urls (lon point) (lat point))
          = Ok final ->
        PyDict.len final < 4 ->
        outcome_of step = Ok ts
        /\ forall rest,
             outcome_of (sample_training_points w coll incl band_urls (point :: rest) ts)
             = outcome_of (sample_training_points w coll incl band_urls rest ts))
  /\ (forall points ts0,
        returns (sample_training_points w coll incl band_urls points ts0)).
Proof.
  intros Hprimary Hlt step. subst step. split; [|split].
  - rewrite sample_training_point_trace.
    now apply sample_with_fallback_searches with (primary := primary).
  - intros final Hfinal Hfew.
    assert (Hstep : outcome_of (sample_training_point w coll incl band_urls ts point)
                    = Ok ts).
    { unfold sample_training_point. rewrite outcome_try, outcome_bind, Hfinal.
      apply Z.leb_gt in Hfew. now rewrite Hfew. }
    split; [exact Hstep|].
    intros rest. cbn [sample_training_points]. now rewrite outcome_bind, Hstep.
  - intros points ts0. apply sample_training_points_returns.
Qed.

Lemma undersampled_point_is_dropped_witness :
  count_events is_search
    (trace (sample_training_point Demo.world "sentinel-2-l2a" true Demo.partial_urls
              no_samples Demo.inner_point)) = 1%nat.
Proof.
  apply (undersampled_point_is_dropped Demo.world "sentinel-2-l2a" true
           Demo.partial_urls no_samples Demo.inner_point
           [("red", Demo.num 1110); ("green", Demo.num 1210); ("blue", Demo.num 1310)]).
  - vm_compute. reflexivity.
  - vm_compute. reflexivity.
Defined.

(** ** The fallback scene *)

(** C10: when the primary scene gave fewer than 4 bands and the scene
    found by the search has at least 4 band URLs, the band values are
    those sampled from the fallback scene alone, whatever the primary
    scene gave.  In the concrete world the primary scene gives red, green
    and blue, the fallback scene nir, swir16 and swir22: six bands
    together, and the point is dropped. *)
Theorem fallback_replaces_primary_samples :
  (forall (w : World) (coll : string) (band_urls : PyDict.dict string) (lon lat : float)
          (primary : PyDict.dict float) (it : StacItem),
      outcome_of (sample_point_from_urls w band_urls lon lat) = Ok primary ->
      PyDict.len primary < 4 ->
      outcome_of (search_stac_for_point w coll lon lat None) = Ok (Some it) ->
      truthy_item it = true ->
      4 <= PyDict.len (get_band_urls_for_item w it) ->
      outcome_of (sample_with_fallback w coll band_urls lon lat)
      = outcome_of (sample_point_from_urls w (get_band_urls_for_item w it) lon lat))
  /\ (exists primary fallback,
        let lon := lon Demo.inner_point in
        let lat := lat Demo.inner_point in
        outcome_of (sample_point_from_urls Demo.world Demo.partial_urls lon lat)
          = Ok primary
        /\ outcome_of (sample_point_from_urls Demo.world Demo.fallback_urls lon lat)
           = Ok fallback
        /\ PyDict.len primary = 3
        /\ PyDict.len fallback = 3
        /\ bands_covered primary fallback = 6%nat
        /\ outcome_of (sample_with_fallback Demo.world "sentinel-2-l2a"
                         Demo.partial_urls lon lat) = Ok fallback
        /\ outcome_of (sample_training_point Demo.world "sentinel-2-l2a" true
                         Demo.partial_urls no_samples Demo.inner_point)
           = Ok no_samples).
Proof.
  split.
  - intros w coll band_urls lon lat primary it Hprimary Hlt Hsearch Htruthy Halt.
    unfold sample_with_fallback.
    rewrite outcome_bind, Hprimary.
    apply Z.ltb_lt in Hlt. rewrite Hlt.
    rewrite outcome_bind, Hsearch, Htruthy.
    apply Z.leb_le in Halt. now rewrite Halt.
  - eexists. eexists. cbv zeta.
    split; [vm_compute; reflexivity|].
    split; [vm_compute; reflexivity|].
    repeat split; vm_compute; reflexivity.
Qed.

Lemma fallback_replaces_primary_samples_witness :
  outcome_of (sample_with_fallback Demo.world "sentinel-2-l2a" Demo.partial_urls
                (Demo.num 1) (Demo.num 1))
  = outcome_of (sample_point_from_urls Demo.world Demo.fallback_urls
                  (Demo.num 1) (Demo.num 1)).
Proof.
  apply (proj1 fallback_replaces_primary_samples Demo.world "sentinel-2-l2a"
           Demo.partial_urls (Demo.num 1) (Demo.num 1)
           [("red", Demo.num 1110); ("green", Demo.num 1210); ("blue", Demo.num 1310)]
           (Demo.scene "fallback/" Demo.all_bands)).
  - vm_compute. reflexivity.
  - vm_compute. reflexivity.
  - vm_compute. reflexivity.
  - reflexivity.
  - vm_compute. discriminate.
Defined.

(** ** Masked assignment *)

Lemma scatter_length (dst : list Z) :
  forall mask vals, List.length (scatter dst mask vals) = List.length dst.
Proof.
  induction dst as [|d dst IH]; intros [|[] mask] vals; simpl; auto.
  destruct vals; simpl; auto.
Qed.

(** Where the mask is false the destination keeps its value. *)
Lemma scatter_masked_out (dst : list Z) :
  forall mask vals i,
    nth_error mask i = Some false ->
    nth_error (scatter dst mask vals) i = nth_error dst i.
Proof.
  induction dst as [|d dst IH]; intros [|b mask] vals [|i] Hi;
    simpl in *; try discriminate; auto.
  - injection Hi as ->. reflexivity.
  - destruct b; [destruct vals|]; simpl; now apply IH.
Qed.

Lemma count_true_cons (b : bool) (mask : list bool) :
  count_true (b :: mask) = ((if b then 1 else 0) + count_true mask)%nat.
Proof. unfold count_true. now destruct b. Qed.

(** The rank of a true bit among the true bits. *)
Lemma rank_lt_count (mask : list bool) :
  forall i, nth_error mask i = Some true ->
            (count_true (firstn i mask) < count_true mask)%nat.
Proof.
  induction mask as [|b mask IH]; intros [|i] Hi; simpl in *; try discriminate.
  - injection Hi as ->. rewrite count_true_cons. unfold count_true. simpl. lia.
  - specialize (IH i Hi). rewrite !count_true_cons. lia.
Qed.

(** Where the mask is true the destination gets the value of that rank. *)
Lemma scatter_masked_in (dst : list Z) :
  forall mask vals i,
    List.length mask = List.length dst ->
    (count_true mask <= List.length vals)%nat ->
    nth_error mask i = Some true ->
    nth_error (scatter dst mask vals) i = nth_error vals (count_true (firstn i mask)).
Proof.
  induction dst as [|d dst IH]; intros [|b mask] vals [|i] Hlen Hvals Hi;
    simpl in *; try discriminate.
  - injection Hi as ->. rewrite count_true_cons in Hvals.
    destruct vals; simpl in *; [lia | reflexivity].
  - rewrite count_true_cons in *. destruct b.
    + destruct vals as [|v vals]; simpl in *; [lia|].
      apply IH; auto; lia.
    + apply IH; auto; lia.
Qed.

Lemma SFleb_zero_not_valid (x : float) :
  SFleb x fzero = true -> SFltb fzero x = false.
Proof. destruct x as [s | s | | s m e]; try destruct s; simpl; auto; discriminate. Qed.

Lemma nth_error_repeat {A} (a : A) (n i : nat) :
  (i < n)%nat -> nth_error (repeat a n) i = Some a.
Proof.
  revert i. induction n as [|n IH]; intros [|i] Hi; simpl; auto; try lia.
  apply IH. lia.
Qed.

(** What [classify_pixels] returns: zeros, or zeros with the predictions
    scattered over the valid pixels. *)
Lemma classify_pixels_ok (w : World) (scaler : Scaler w) (clf : Forest w)
    (n : Z) (pixels : matrix) (cls : list Z) :
  outcome_of (classify_pixels w scaler clf n pixels) = Ok cls ->
  let mask := map valid_pixel pixels in
  (cls = repeat 0 (Z.to_nat n) /\ existsb (fun b => b) mask = false)
  \/ exists scaled predicted vals,
       scaler_transform w scaler pixels = Returns scaled
       /\ forest_predict w clf (select scaled mask) = Returns predicted
       /\ List.length mask = Z.to_nat n
       /\ (count_true mask <= List.length vals)%nat
       /\ (forall k v, nth_error vals k = Some v ->
             exists L, In L predicted /\ v = to_uint8 L
                       /\ (List.length predicted = count_true mask ->
                           nth_error predicted k = Some L))
       /\ cls = scatter (repeat 0 (Z.to_nat n)) mask vals.
Proof.
  intros Hok mask. unfold classify_pixels in Hok. cbv zeta in Hok.
  change (map valid_pixel pixels) with mask in Hok.
  rewrite outcome_bind in Hok.
  destruct (scaler_transform w scaler pixels) as [scaled | msg] eqn:Hscaled;
    [|discriminate].
  cbn [call ret outcome_of snd] in Hok.
  destruct (existsb (fun b => b) mask) eqn:Hany.
  2:{ injection Hok as <-. left. now split. }
  right. rewrite outcome_bind in Hok.
  unfold boolean_index in Hok.
  destruct (Nat.eqb (List.length scaled) (List.length mask)) eqn:Hrows;
    [|discriminate].
  cbn [lift outcome_of snd] in Hok.
  rewrite outcome_bind in Hok. cbn [emit outcome_of snd] in Hok.
  rewrite outcome_bind in Hok.
  destruct (forest_predict w clf (select scaled mask)) as [predicted | msg] eqn:Hpred;
    [|discriminate].
  cbn [call ret lift outcome_of snd] in Hok.
  unfold masked_assign in Hok.
  destruct (Nat.eqb (List.length mask) (List.length (repeat 0 (Z.to_nat n)))) eqn:Hmask;
    [|discriminate].
  apply Nat.eqb_eq in Hmask. rewrite repeat_length in Hmask.
  cbn [negb] in Hok.
  destruct (Nat.eqb (List.length predicted) (count_true mask)) eqn:Hcount.
  - apply Nat.eqb_eq in Hcount. injection Hok as <-.
    exists scaled, predicted, (map to_uint8 predicted).
    repeat split; auto.
    + rewrite length_map. lia.
    + intros k v Hk. rewrite nth_error_map in Hk.
      destruct (nth_error predicted k) as [L|] eqn:HL; [|discriminate].
      injection Hk as <-. exists L. repeat split; auto.
      now apply nth_error_In in HL.
  - destruct predicted as [|L [|L' rest]]; try discriminate.
    cbn [map] in Hok. injection Hok as <-.
    exists scaled, [L], (repeat (to_uint8 L) (count_true mask)).
    repeat split; auto.
    + rewrite repeat_length. lia.
    + intros k v Hk. apply nth_error_In, repeat_spec in Hk. subst v.
      exists L. repeat split; [now left|].
      intros Hone. simpl in Hone. apply Nat.eqb_neq in Hcount. simpl in Hcount. lia.
Qed.

(** ** Column assignment *)

Lemma length_list_update {A} (l : list A) :
  forall k x, List.length (list_update l k x) = List.length l.
Proof. induction l as [|y l IH]; intros [|k] x; simpl; auto. Qed.

Lemma nth_list_update_same {A} (l : list A) :
  forall k x d, (k < List.length l)%nat -> nth k (list_update l k x) d = x.
Proof.
  induction l as [|y l IH]; intros [|k] x d Hk; simpl in *; try lia; auto.
  apply IH. lia.
Qed.

Lemma nth_list_update_other {A} (l : list A) :
  forall k k' x d, k' <> k -> nth k' (list_update l k x) d = nth k' l d.
Proof.
  induction l as [|y l IH]; intros [|k] [|k'] x d Hk; simpl; auto; try congruence.
Qed.

Lemma length_zip_with {A B C} (f : A -> B -> C) (la : list A) :
  forall lb, List.length lb = List.length la ->
             List.length (zip_with f la lb) = List.length la.
Proof.
  induction la as [|a la IH]; intros [|b lb] Hlen; simpl in *; auto; discriminate.
Qed.

Lemma assign_column_ok (pixels : matrix) (k : nat) (v : list float) (pixels' : matrix) :
  assign_column pixels k v = Ok pixels' ->
  List.length v = List.length pixels
  /\ Forall (fun row => (k < List.length row)%nat) pixels
  /\ pixels' = zip_with (fun row x => list_update row k x) pixels v.
Proof.
  unfold assign_column.
  destruct (Nat.eqb (List.length v) (List.length pixels)) eqn:Hlen; [|discriminate].
  destruct (existsb _ pixels) eqn:Hshort; [discriminate|].
  cbn [negb]. intros [= <-]. apply Nat.eqb_eq in Hlen.
  repeat split; auto.
  apply Forall_forall. intros row Hrow.
  destruct (Nat.leb (List.length row) k) eqn:Hle.
  - assert (existsb (fun row => Nat.leb (List.length row) k) pixels = true)
      by (apply existsb_exists; eauto).
    congruence.
  - apply Nat.leb_gt in Hle. exact Hle.
Qed.

Lemma column_zip_same (k : nat) (pixels : matrix) :
  forall v,
    List.length v = List.length pixels ->
    Forall (fun row => (k < List.length row)%nat) pixels ->
    column (zip_with (fun row x => list_update row k x) pixels v) k = v.
Proof.
  induction pixels as [|row pixels IH]; intros [|x v] Hlen Hk;
    simpl in *; try discriminate; auto.
  inversion Hk; subst. unfold column in *. simpl.
  rewrite nth_list_update_same by assumption. f_equal. apply IH; auto.
Qed.

Lemma column_zip_other (k k' : nat) (pixels : matrix) :
  forall v,
    List.length v = List.length pixels ->
    k' <> k ->
    column (zip_with (fun row x => list_update row k x) pixels v) k' = column pixels k'.
Proof.
  induction pixels as [|row pixels IH]; intros [|x v] Hlen Hk;
    simpl in *; try discriminate; auto.
  unfold column in *. simpl.
  rewrite nth_list_update_other by assumption. f_equal. apply IH; auto.
Qed.

Lemma widths_zip (k n : nat) (pixels : matrix) :
  forall v,
    Forall (fun row => List.length row = n) pixels ->
    Forall (fun row => List.length row = n)
           (zip_with (fun row x => list_update row k x) pixels v).
Proof.
  induction pixels as [|row pixels IH]; intros [|x v] Hn; simpl; auto.
  inversion Hn; subst. constructor; [apply length_list_update | now apply IH].
Qed.

(** What one column assignment does to a matrix of [n] columns. *)
Lemma assign_column_spec (pixels : matrix) (k n : nat) (v : list float) (pixels' : matrix) :
  assign_column pixels k v = Ok pixels' ->
  Forall (fun row => List.length row = n) pixels ->
  List.length pixels' = List.length pixels
  /\ Forall (fun row => List.length row = n) pixels'
  /\ column pixels' k = v
  /\ (forall k', k' <> k -> column pixels' k' = column pixels k').
Proof.
  intros Hassign Hn. apply assign_column_ok in Hassign as (Hlen & Hk & ->).
  repeat split.
  - now apply length_zip_with.
  - now apply widths_zip.
  - now apply column_zip_same.
  - intros k' Hk'. now apply column_zip_other.
Qed.

Lemma zeros_matrix_widths (n_rows n_cols : Z) :
  Forall (fun row => List.length row = Z.to_nat n_cols) (zeros_matrix n_rows n_cols).
Proof.
  unfold zeros_matrix. apply Forall_forall. intros row Hrow.
  apply repeat_spec in Hrow. subst. apply repeat_length.
Qed.

Ltac assign_next H :=
  match type of H with
  | result_bind (assign_column ?p ?k ?v) _ = Ok _ =>
      let p' := fresh "p" in
      let E := fresh "E" in
      destruct (assign_column p k v) as [p' | ?] eqn:E; [ | discriminate H ];
      cbn [result_bind] in H;
      match goal with
      | Hw : Forall (fun row => List.length row = ?n) p |- _ =>
          let Hl := fresh "Hl" in
          let Hw' := fresh "Hw" in
          let Hs := fresh "Hs" in
          let Ho := fresh "Ho" in
          destruct (assign_column_spec _ _ n _ _ E Hw) as (Hl & Hw' & Hs & Ho)
      end
  end.

Ltac trace_column :=
  repeat match goal with
         | Ho : forall k', k' <> ?k -> column ?p k' = column _ k'
           |- context [column ?p ?j] =>
             rewrite (Ho j) by (intro; discriminate)
         | Hs : column ?p ?k = _ |- context [column ?p ?k] => rewrite Hs
         end.

Lemma build_pixels_columns (incl : bool) (bands : PyDict.dict ndarray) (h w : Z)
    (pixels : matrix) :
  build_pixels incl bands h w = Ok pixels -> pixel_columns incl bands h w pixels.
Proof.
  unfold build_pixels. intros H.
  pose proof (zeros_matrix_widths (h * w) (n_features incl)) as Hw0.
  assert (Hl0 : List.length (zeros_matrix (h * w) (n_features incl)) = Z.to_nat (h * w))
    by apply repeat_length.
  do 6 assign_next H.
  destruct incl.
  - do 4 assign_next H. injection H as <-.
    constructor; try (intros _); trace_column; try reflexivity.
    + congruence.
    + eapply Forall_impl; [|eassumption]. intros row ->. reflexivity.
  - injection H as <-.
    constructor; try discriminate; trace_column; try reflexivity.
    + congruence.
    + eapply Forall_impl; [|eassumption]. intros row ->. reflexivity.
Qed.

(** ** Feature vectors *)

Lemma build_features_layout (incl : bool) (band_values : PyDict.dict float)
    (features : list float) :
  build_features incl band_values = Ok features ->
  point_features incl band_values features.
Proof.
  unfold build_features. destruct incl.
  - destruct (point_ndvi _ _) as [ndvi|] eqn:E1; [|discriminate].
    destruct (point_ndwi _ _) as [ndwi|] eqn:E2; [|discriminate].
    destruct (point_ndbi _ _) as [ndbi|] eqn:E3; [|discriminate].
    destruct (point_evi _ _ _) as [evi|] eqn:E4; [|discriminate].
    cbn [result_bind]. intros [= <-].
    constructor; try reflexivity.
    intros _ value. exists ndvi, ndwi, ndbi, evi. auto.
  - intros [= <-]. constructor; try reflexivity. discriminate.
Qed.

Lemma sample_training_point_rows (w : World) (coll : string) (incl : bool)
    (band_urls : PyDict.dict string) (ts ts' : TrainingSet) (point : TrainingPoint)
    (P : list float -> Prop) :
  (forall bv f, build_features incl bv = Ok f -> P f) ->
  Forall P (feature_matrix ts) ->
  outcome_of (sample_training_point w coll incl band_urls ts point) = Ok ts' ->
  Forall P (feature_matrix ts').
Proof.
  intros HP Hts. unfold sample_training_point.
  rewrite outcome_try, outcome_bind.
  destruct (outcome_of (sample_with_fallback _ _ _ _ _)) as [bv | e];
    [|now intros [= <-]].
  destruct (4 <=? PyDict.len bv); [|now intros [= <-]].
  rewrite outcome_bind. cbn [lift outcome_of snd].
  destruct (build_features incl bv) as [f | e] eqn:Hf; [|now intros [= <-]].
  intros [= <-]. cbn [add_sample feature_matrix].
  apply Forall_app. split; [assumption|]. constructor; [|constructor].
  now apply HP with (bv := bv).
Qed.

Lemma sample_training_points_rows (w : World) (coll : string) (incl : bool)
    (band_urls : PyDict.dict string) (P : list float -> Prop)
    (points : list TrainingPoint) :
  (forall bv f, build_features incl bv = Ok f -> P f) ->
  forall ts ts',
    Forall P (feature_matrix ts) ->
    outcome_of (sample_training_points w coll incl band_urls points ts) = Ok ts' ->
    Forall P (feature_matrix ts').
Proof.
  intros HP. induction points as [|point rest IH]; intros ts ts' Hts; simpl.
  - now intros [= <-].
  - rewrite outcome_bind.
    destruct (outcome_of (sample_training_point _ _ _ _ _ _)) as [ts1 | e] eqn:Hstep;
      [|discriminate].
    apply IH. eapply sample_training_point_rows; eauto.
Qed.

(** ** The written raster *)

Lemma in_trace_bind {A B} (m : M A) (k : A -> M B) (ev : event) :
  In ev (trace (bind m k)) ->
  In ev (trace m) \/ exists a, outcome_of m = Ok a /\ In ev (trace (k a)).
Proof.
  rewrite trace_bind. intros Hin. apply in_app_or in Hin as [Hin | Hin]; auto.
  destruct (outcome_of m) as [a | e]; [|contradiction].
  right. now exists a.
Qed.

Lemma free_of_not_in (p : event -> bool) {A} (m : M A) (ev : event) :
  free_of p m -> p ev = true -> ~ In ev (trace m).
Proof.
  unfold free_of. intros Hfree Hp Hin.
  assert (Hf : In ev (filter p (trace m))) by (apply filter_In; auto).
  rewrite Hfree in Hf. contradiction.
Qed.

Lemma train_writes_nothing (w : World) (n : Z) (ts : TrainingSet) :
  free_of is_raster_output (train w n ts).
Proof. unfold train. free_tac. Qed.

Lemma region_writes_nothing (w : World) (points : list TrainingPoint)
    (src_crs : string) (src_bounds : Bounds) :
  free_of is_raster_output (region_of_interest w points src_crs src_bounds).
Proof. unfold region_of_interest. free_tac. Qed.

Lemma read_band_writes_nothing (w : World) (wl wb wr wt : float) (st : ReadState)
    (entry : string * string) :
  free_of is_raster_output (read_band w wl wb wr wt st entry).
Proof. unfold read_band. destruct entry. free_tac; apply free_read_array. Qed.

Lemma read_bands_writes_nothing (w : World) (wl wb wr wt : float)
    (entries : list (string * string)) :
  forall st, free_of is_raster_output (read_bands w wl wb wr wt entries st).
Proof.
  induction entries as [|entry rest IH]; intros st; simpl.
  - apply free_ret.
  - apply free_bind; [apply read_band_writes_nothing | intros st'; apply IH].
Qed.

Lemma classify_pixels_writes_nothing (w : World) (scaler : Scaler w) (clf : Forest w)
    (n : Z) (pixels : matrix) :
  free_of is_raster_output (classify_pixels w scaler clf n pixels).
Proof. unfold classify_pixels. free_tac. Qed.

Lemma write_product_event (w : World) (path src_crs : string) (tr : option Affine)
    (h wd : Z) (classification : list Z) (path' : string) (h' wd' : Z) (data : list Z) :
  In (EvRasterWrite path' h' wd' data)
     (trace (write_product w path src_crs tr h wd classification)) ->
  path' = path /\ h' = h /\ wd' = wd /\ data = classification.
Proof.
  unfold write_product. cbn [emit bind].
  destruct (gtiff_create w path _) as [[] | msg]; cbn [call ret raise bind].
  - destruct (gtiff_write w path h wd classification) as [[] | msg];
      cbn [call ret raise bind app].
    + destruct (gtiff_write_colormap w path colormap) as [[] | msg];
        cbn [call ret raise app trace fst];
        intros [H | [H | []]]; try discriminate; injection H; auto.
    + cbn [trace fst]. intros [H | [H | []]]; try discriminate; injection H; auto.
  - cbn [trace fst app]. intros [H | []]. discriminate.
Qed.

(** The raster that a run writes is the classification of the pixel
    matrix built from the bands read for the inference window. *)
Lemma written_raster_inv (w : World) (config : Config) (band_urls : PyDict.dict string)
    (src_crs : string) (src_bounds : Bounds) (ts : TrainingSet)
    (path : string) (h wd : Z) (data : list Z) :
  In (EvRasterWrite path h wd data)
     (trace (train_and_classify w config band_urls src_crs src_bounds ts)) ->
  exists scaler clf wl wb wr wt st nir pixels,
    outcome_of (region_of_interest w (training_data config) src_crs src_bounds)
      = Ok (wl, wb, wr, wt)
    /\ outcome_of (read_bands w wl wb wr wt (PyDict.items band_urls) read_start) = Ok st
    /\ PyDict.get (band_data st) "nir" = Some nir
    /\ shape nir = (h, wd)
    /\ build_pixels (config_include_indices config) (band_data st) h wd = Ok pixels
    /\ outcome_of (classify_pixels w scaler clf (h * wd) pixels) = Ok data
    /\ path = output_path config.
Proof.
  unfold train_and_classify. intros Hin.
  destruct (Nat.ltb _ 3); [contradiction|].
  apply in_trace_bind in Hin as [Hin | ([[scaler clf] acc] & _ & Hin)].
  { now apply (free_of_not_in _ _ _ (train_writes_nothing _ _ _)) in Hin. }
  apply in_trace_bind in Hin as [Hin | ([[[wl wb] wr] wt] & Hroi & Hin)].
  { now apply (free_of_not_in _ _ _ (region_writes_nothing _ _ _ _)) in Hin. }
  apply in_trace_bind in Hin as [Hin | (st & Hread & Hin)].
  { now apply (free_of_not_in _ _ _ (read_bands_writes_nothing _ _ _ _ _ _ _)) in Hin. }
  apply in_trace_bind in Hin as [Hin | (nir & Hnir & Hin)]; [contradiction|].
  unfold PyDict.subscript in Hnir.
  destruct (PyDict.get (band_data st) "nir") as [nir'|] eqn:Hget; [|discriminate].
  injection Hnir as ->. unfold shape in Hin.
  apply in_trace_bind in Hin as [Hin | (pixels & Hpixels & Hin)]; [contradiction|].
  apply in_trace_bind in Hin as [Hin | (cls & Hcls & Hin)].
  { now apply (free_of_not_in _ _ _ (classify_pixels_writes_nothing _ _ _ _ _)) in Hin. }
  apply in_trace_bind in Hin as [Hin | (? & _ & [])].
  apply write_product_event in Hin as (-> & -> & -> & ->).
  exists scaler, clf, wl, wb, wr, wt, st, nir, pixels.
  repeat split; auto.
Qed.

Lemma nth_error_column (pixels : matrix) (k i : nat) (v : float) :
  nth_error (column pixels k) i = Some v ->
  exists row, nth_error pixels i = Some row /\ nth k row fzero = v.
Proof.
  unfold column. rewrite nth_error_map.
  destruct (nth_error pixels i) as [row|]; [|discriminate].
  intros [= <-]. now exists row.
Qed.

(** C3: in the raster that a run writes, every pixel whose nir value in
    the inference window is [<= 0] has the value 0, whatever the scaler
    and the classifier of the world answer. *)
Theorem nodata_pixels_are_zero (w : World) (config : Config)
    (band_urls : PyDict.dict string) (src_crs : string) (src_bounds : Bounds)
    (ts : TrainingSet) (path : string) (h wd : Z) (data : list Z) :
  In (EvRasterWrite path h wd data)
     (trace (train_and_classify w config band_urls src_crs src_bounds ts)) ->
  exists nir,
    inference_nir w config band_urls src_crs src_bounds nir
    /\ shape nir = (h, wd)
    /\ List.length data = Z.to_nat (h * wd)
    /\ forall i v,
         nth_error (flatten nir) i = Some v ->
         SFleb v fzero = true ->
         nth_error data i = Some 0.
Proof.
  intros Hin.
  apply written_raster_inv in Hin
    as (scaler & clf & wl & wb & wr & wt & st & nir & pixels
        & Hroi & Hread & Hnir & Hshape & Hpixels & Hcls & _).
  exists nir. split; [now exists wl, wb, wr, wt, st|]. split; [assumption|].
  apply build_pixels_columns in Hpixels as Hcols.
  destruct Hcols as [Hrows _ _ _ _ Hcol3 _ _ _ _ _ _].
  unfold PyDict.get_default in Hcol3. rewrite Hnir in Hcol3.
  apply classify_pixels_ok in Hcls. cbv zeta in Hcls.
  assert (Hzero : forall i, (i < Z.to_nat (h * wd))%nat ->
                            nth_error (repeat 0 (Z.to_nat (h * wd))) i = Some 0)
    by (intros; now apply nth_error_repeat).
  assert (Hinvalid : forall i v,
             nth_error (flatten nir) i = Some v -> SFleb v fzero = true ->
             nth_error (map valid_pixel pixels) i = Some false
             /\ (i < Z.to_nat (h * wd))%nat).
  { intros i v Hv Hle. rewrite <- Hcol3 in Hv.
    assert (Hi : (i < List.length (column pixels 3))%nat)
      by (apply nth_error_Some; congruence).
    apply nth_error_column in Hv as (row & Hrow & Hval).
    rewrite nth_error_map, Hrow. unfold valid_pixel. cbn [option_map].
    rewrite Hval, (SFleb_zero_not_valid v Hle).
    unfold column in Hi. rewrite length_map in Hi. split; [reflexivity | lia]. }
  destruct Hcls as [[-> _] | (scaled & predicted & vals & _ & _ & Hmask & _ & _ & ->)].
  - split; [apply repeat_length|].
    intros i v Hv Hle. apply Hzero. now apply (Hinvalid i v).
  - split; [now rewrite scatter_length, repeat_length|].
    intros i v Hv Hle. destruct (Hinvalid i v Hv Hle) as [Hfalse Hi].
    rewrite scatter_masked_out by assumption. now apply Hzero.
Qed.

Lemma nodata_pixels_are_zero_witness :
  exists nir,
    inference_nir Demo.world (Demo.config "item/all" Demo.one_class)
      (get_band_urls_for_item Demo.world (Demo.scene "primary/" Demo.all_bands))
      "EPSG:32633" (bounds (Demo.raster 3000)) nir
    /\ shape nir = (4, 4)
    /\ List.length [0; 1; 1; 1; 0; 1; 1; 1; 0; 1; 1; 1; 0; 1; 1; 1] = Z.to_nat (4 * 4)
    /\ forall i v,
         nth_error (flatten nir) i = Some v ->
         SFleb v fzero = true ->
         nth_error [0; 1; 1; 1; 0; 1; 1; 1; 0; 1; 1; 1; 0; 1; 1; 1] i = Some 0.
Proof.
  apply (nodata_pixels_are_zero Demo.world (Demo.config "item/all" Demo.one_class)
           (get_band_urls_for_item Demo.world (Demo.scene "primary/" Demo.all_bands))
           "EPSG:32633" (bounds (Demo.raster 3000)) (demo_training_set Demo.one_class)
           "out.tif").
  vm_compute. repeat (first [left; reflexivity | right]).
Defined.

(** ** Labels in the 8-bit raster *)

Lemma valid_mask_of_nir (pixels : matrix) :
  map valid_pixel pixels = map (SFltb fzero) (column pixels 3).
Proof. unfold column. now rewrite map_map. Qed.

(** C9: in the raster that a run writes, a pixel with nir [> 0] holds
    [L mod 256] where [L] is the label that the classifier predicted for
    it (the prediction of the pixel's rank among the valid pixels when
    the classifier answers with one label per row).  So label 256 is
    stored as 0, the nodata value: in the concrete world three points
    labelled 256 give a raster of zeros only. *)
Theorem labels_are_stored_modulo_256 :
  (forall (w : World) (config : Config) (band_urls : PyDict.dict string)
          (src_crs : string) (src_bounds : Bounds) (ts : TrainingSet)
          (path : string) (h wd : Z) (data : list Z),
      In (EvRasterWrite path h wd data)
         (trace (train_and_classify w config band_urls src_crs src_bounds ts)) ->
      exists nir clf rows predicted,
        inference_nir w config band_urls src_crs src_bounds nir
        /\ forall i,
             nth_error (nir_mask nir) i = Some true ->
             forest_predict w clf rows = Returns predicted
             /\ exists L,
                  In L predicted
                  /\ (List.length predicted = count_true (nir_mask nir) ->
                      nth_error predicted (count_true (firstn i (nir_mask nir))) = Some L)
                  /\ nth_error data i = Some (L mod 256))
  /\ to_uint8 256 = 0
  /\ exists path h wd data,
       In (EvRasterWrite path h wd data) (trace (demo_run label_256))
       /\ data = repeat 0 16.
Proof.
  split; [|split].
  - intros w config band_urls src_crs src_bounds ts path h wd data Hin.
    apply written_raster_inv in Hin
      as (scaler & clf & wl & wb & wr & wt & st & nir & pixels
          & Hroi & Hread & Hnir & Hshape & Hpixels & Hcls & _).
    apply build_pixels_columns in Hpixels as Hcols.
    destruct Hcols as [Hrows _ _ _ _ Hcol3 _ _ _ _ _ _].
    unfold PyDict.get_default in Hcol3. rewrite Hnir in Hcol3.
    apply classify_pixels_ok in Hcls. cbv zeta in Hcls.
    rewrite valid_mask_of_nir, Hcol3 in Hcls. fold (nir_mask nir) in Hcls.
    destruct Hcls as [[-> Hnone]
                     | (scaled & predicted & vals & _ & Hpred & Hmask & Hvals & Hlab & ->)].
    + exists nir, clf, [], []. split; [now exists wl, wb, wr, wt, st|].
      intros i Hi. apply nth_error_In in Hi.
      assert (existsb (fun b => b) (nir_mask nir) = true)
        by (apply existsb_exists; eauto).
      congruence.
    + exists nir, clf, (select scaled (nir_mask nir)), predicted.
      split; [now exists wl, wb, wr, wt, st|].
      intros i Hi. split; [exact Hpred|].
      pose proof (rank_lt_count _ _ Hi) as Hrank.
      destruct (nth_error vals (count_true (firstn i (nir_mask nir)))) as [v|] eqn:Hv.
      2:{ apply nth_error_None in Hv. lia. }
      destruct (Hlab _ _ Hv) as (L & HL & -> & Hexact).
      exists L. repeat split; auto.
      rewrite scatter_masked_in; auto.
      now rewrite repeat_length.
  - reflexivity.
  - exists "out.tif", 4, 4, (repeat 0 16). split; [|reflexivity].
    vm_compute. repeat (first [left; reflexivity | right]).
Qed.

Lemma labels_are_stored_modulo_256_witness :
  exists nir clf rows predicted,
    inference_nir Demo.world (Demo.config "item/all" Demo.two_classes)
      (get_band_urls_for_item Demo.world (Demo.scene "primary/" Demo.all_bands))
      "EPSG:32633" (bounds (Demo.raster 3000)) nir
    /\ forall i,
         nth_error (nir_mask nir) i = Some true ->
         forest_predict Demo.world clf rows = Returns predicted
         /\ exists L,
              In L predicted
              /\ (List.length predicted = count_true (nir_mask nir) ->
                  nth_error predicted (count_true (firstn i (nir_mask nir))) = Some L)
              /\ nth_error [0; 1; 1; 1; 0; 1; 1; 1; 0; 1; 1; 1; 0; 1; 1; 1] i
                 = Some (L mod 256).
Proof.
  apply (proj1 labels_are_stored_modulo_256 Demo.world
           (Demo.config "item/all" Demo.two_classes)
           (get_band_urls_for_item Demo.world (Demo.scene "primary/" Demo.all_bands))
           "EPSG:32633" (bounds (Demo.raster 3000)) (demo_training_set Demo.two_classes)
           "out.tif" 4 4).
  vm_compute. repeat (first [left; reflexivity | right]).
Defined.

(** ** Rounding to nearest

    What the operations of [SpecFloat] return, in terms of the real
    values of their arguments. *)

Lemma pow2_pos (e : Z) : (0 < powerRZ 2 e)%R.
Proof. apply powerRZ_lt. lra. Qed.

Lemma pow2_add (a b : Z) : powerRZ 2 (a + b) = (powerRZ 2 a * powerRZ 2 b)%R.
Proof. apply powerRZ_add. lra. Qed.

Lemma pow2_IZR (n : Z) : 0 <= n -> IZR (2 ^ n) = powerRZ 2 n.
Proof.
  intros Hn. rewrite <- (Z2Nat.id n Hn).
  now rewrite <- pow_IZR, pow_powerRZ.
Qed.

Lemma pow2_le (a b : Z) : a <= b -> (powerRZ 2 a <= powerRZ 2 b)%R.
Proof.
  intros Hab. replace b with (a + (b - a)) by lia.
  rewrite pow2_add, <- (pow2_IZR (b - a)) by lia.
  assert (H : 1 <= 2 ^ (b - a)) by (pose proof (Z.pow_pos_nonneg 2 (b - a)); lia).
  apply IZR_le in H. pose proof (pow2_pos a). nra.
Qed.

Lemma F2R_scale (m e n : Z) : 0 <= n -> F2R (m * 2 ^ n) e = F2R m (e + n).
Proof.
  intros Hn. unfold F2R. rewrite mult_IZR, pow2_IZR, pow2_add by assumption. ring.
Qed.

Lemma F2R_le (m1 m2 e : Z) : m1 <= m2 -> (F2R m1 e <= F2R m2 e)%R.
Proof.
  intros H. apply IZR_le in H. unfold F2R. pose proof (pow2_pos e). nra.
Qed.

Lemma F2R_lt (m1 m2 e : Z) : m1 < m2 -> (F2R m1 e < F2R m2 e)%R.
Proof.
  intros H. apply IZR_lt in H. unfold F2R. pose proof (pow2_pos e). nra.
Qed.

(** Dropping the [n] low bits of a significand. *)
Lemma F2R_div (m e n : Z) :
  0 <= n ->
  (F2R (m / 2 ^ n) (e + n) <= F2R m e < F2R (m / 2 ^ n + 1) (e + n))%R.
Proof.
  intros Hn. rewrite <- !F2R_scale by assumption.
  assert (Hp : 0 < 2 ^ n) by (apply Z.pow_pos_nonneg; lia).
  pose proof (Z.mul_div_le m (2 ^ n) Hp).
  pose proof (Z.mul_succ_div_gt m (2 ^ n) Hp).
  split; [apply F2R_le | apply F2R_lt]; lia.
Qed.

Lemma digits2_size (p : positive) : digits2_pos p = Pos.size p.
Proof. induction p; simpl; congruence. Qed.

Lemma digits2_bounds (p : positive) :
  2 ^ (Zpos (digits2_pos p) - 1) <= Zpos p < 2 ^ Zpos (digits2_pos p).
Proof.
  rewrite digits2_size. split.
  - pose proof (Pos.size_le p) as H.
    assert (H2 : 2 ^ Zpos (Pos.size p) <= 2 * Zpos p).
    { change (2 * Zpos p) with (Zpos p~0). rewrite <- Pos2Z.inj_pow. 
      apply Pos2Z.pos_le_pos. exact H. }
    replace (Zpos (Pos.size p)) with (1 + (Zpos (Pos.size p) - 1)) in H2 by lia.
    rewrite Z.pow_add_r in H2 by lia. lia.
  - pose proof (Pos.size_gt p) as H.
    rewrite <- Pos2Z.inj_pow. apply Pos2Z.pos_lt_pos. exact H.
Qed.

Lemma Zdigits2_bounds (m : Z) :
  0 < m -> 2 ^ (Zdigits2 m - 1) <= m < 2 ^ Zdigits2 m.
Proof. destruct m; try lia. intros _. apply digits2_bounds. Qed.

Lemma Zdigits2_nonneg (m : Z) : 0 <= Zdigits2 m.
Proof. destruct m; simpl; lia. Qed.

(** A bound on a number bounds its number of digits. *)
Lemma Zdigits2_le (m k : Z) : 0 <= k -> 0 <= m < 2 ^ k -> Zdigits2 m <= k.
Proof.
  intros Hk [H0 Hm]. destruct (Z.eq_dec m 0) as [-> | Hne]; [simpl; lia|].
  destruct (Zdigits2_bounds m ltac:(lia)) as [Hlo _].
  destruct (Z_le_gt_dec (Zdigits2 m) k) as [|Hgt]; auto.
  assert (2 ^ k <= 2 ^ (Zdigits2 m - 1)) by (apply Z.pow_le_mono_r; lia).
  lia.
Qed.

Lemma Zdigits2_ge (m k : Z) : 0 <= k -> 2 ^ k <= m -> k < Zdigits2 m.
Proof.
  intros Hk Hm. assert (0 < m) by (pose proof (Z.pow_pos_nonneg 2 k); lia).
  destruct (Zdigits2_bounds m H) as [_ Hhi].
  destruct (Z_lt_ge_dec k (Zdigits2 m)) as [|Hge]; auto.
  assert (2 ^ Zdigits2 m <= 2 ^ k) by (apply Z.pow_le_mono_r; lia).
  lia.
Qed.

(** ** Shifting right *)

Lemma shr_1_m (mrs : shr_record) :
  0 <= shr_m mrs -> shr_m (shr_1 mrs) = shr_m mrs / 2.
Proof.
  destruct mrs as [m r s]. cbn [shr_m]. intros Hm.
  rewrite <- Z.div2_div.
  destruct m as [|[p|p|]|p]; try reflexivity. lia.
Qed.

Lemma shr_1_nonneg (mrs : shr_record) : 0 <= shr_m mrs -> 0 <= shr_m (shr_1 mrs).
Proof. intros H. rewrite shr_1_m by assumption. apply Z.div_pos; lia. Qed.

Lemma iter_shr_m (p : positive) :
  forall mrs, 0 <= shr_m mrs ->
    shr_m (iter_pos shr_1 p mrs) = shr_m mrs / 2 ^ Zpos p
    /\ 0 <= shr_m (iter_pos shr_1 p mrs).
Proof.
  induction p as [p IH | p IH |]; intros mrs Hm; cbn [iter_pos].
  - pose proof (shr_1_nonneg mrs Hm) as H1.
    destruct (IH _ H1) as [E2 H2]. destruct (IH _ H2) as [E3 H3].
    split; [|assumption].
    rewrite E3, E2, shr_1_m by assumption.
    rewrite !Z.div_div by (try apply Z.pow_pos_nonneg; lia).
    f_equal. change (Zpos p~1) with (1 + 2 * Zpos p).
    replace (1 + 2 * Zpos p) with (1 + Zpos p + Zpos p) by lia.
    rewrite !Z.pow_add_r by lia. lia.
  - destruct (IH _ Hm) as [E2 H2]. destruct (IH _ H2) as [E3 H3].
    split; [|assumption].
    rewrite E3, E2.
    rewrite !Z.div_div by (try apply Z.pow_pos_nonneg; lia).
    f_equal. change (Zpos p~0) with (2 * Zpos p).
    replace (2 * Zpos p) with (Zpos p + Zpos p) by lia.
    rewrite !Z.pow_add_r by lia. lia.
  - split; [now rewrite shr_1_m | now apply shr_1_nonneg].
Qed.

Section Rounding.
Variables prec emax : Z.
Hypothesis prec_pos : 0 < prec.

Local Notation "'fexp'" := (SpecFloat.fexp prec emax).
Local Notation "'emin'" := (SpecFloat.emin prec emax).

Lemma fexp_mono (a b : Z) : a <= b -> fexp a <= fexp b.
Proof. unfold SpecFloat.fexp. lia. Qed.

Lemma fexp_ge_emin (a : Z) : emin <= fexp a.
Proof. unfold SpecFloat.fexp. lia. Qed.

Lemma shr_record_of_loc_m (m : Z) (l : location) : shr_m (shr_record_of_loc m l) = m.
Proof. destruct l as [|[]]; reflexivity. Qed.

Lemma shr_fexp_spec (m e : Z) (l : location) :
  0 <= m ->
  let n := Z.max 0 (fexp (Zdigits2 m + e) - e) in
  shr_m (fst (shr_fexp prec emax m e l)) = m / 2 ^ n
  /\ snd (shr_fexp prec emax m e l) = e + n.
Proof.
  intros Hm n. subst n. unfold shr_fexp, shr.
  destruct (fexp (Zdigits2 m + e) - e) as [|p|p] eqn:En; cbn [fst snd].
  - rewrite shr_record_of_loc_m. change (Z.max 0 0) with 0.
    rewrite Z.pow_0_r, Z.div_1_r. lia.
  - replace (Z.max 0 (Zpos p)) with (Zpos p) by lia.
    destruct (iter_shr_m p (shr_record_of_loc m l)) as [E _].
    + now rewrite shr_record_of_loc_m.
    + rewrite E, shr_record_of_loc_m. auto.
  - replace (Z.max 0 (Zneg p)) with 0 by lia.
    rewrite shr_record_of_loc_m, Z.pow_0_r, Z.div_1_r. lia.
Qed.

Lemma round_nearest_even_bounds (m : Z) (l : location) :
  m <= round_nearest_even m l <= m + 1.
Proof. destruct l as [|[]]; simpl; try lia. destruct (Z.even m); lia. Qed.

(** What [binary_round_aux] returns for a real [x] that lies between the
    significand [mx] and its successor at exponent [ex]: a float within
    one unit of the target exponent of [x]. *)
Lemma binary_round_aux_spec (s : bool) (mx ex : Z) (lx : location) (x : R) :
  0 <= mx ->
  ex <= fexp (Zdigits2 mx + ex) ->
  (F2R mx ex <= x < F2R (mx + 1) ex)%R ->
  let E := fexp (Zdigits2 mx + ex) in
  match binary_round_aux prec emax s mx ex lx with
  | S754_zero s' => s' = s /\ (x < powerRZ 2 E)%R
  | S754_infinity s' => s' = s
  | S754_nan => False
  | S754_finite s' m e =>
      s' = s
      /\ canonical_mantissa prec emax m e = true
      /\ e <= emax - prec
      /\ (F2R (Zpos m) e - powerRZ 2 E <= x < F2R (Zpos m) e + powerRZ 2 E)%R
  end.
Proof.
  intros Hmx Hex Hx E.
  unfold binary_round_aux.
  destruct (shr_fexp_spec mx ex lx Hmx) as [Hm1 He1].
  destruct (shr_fexp prec emax mx ex lx) as [mrs1 e1]. cbn [fst snd] in Hm1, He1.
  fold E in Hm1, He1.
  replace (Z.max 0 (E - ex)) with (E - ex) in Hm1, He1 by lia.
  replace (ex + (E - ex)) with E in He1 by lia. subst e1.
  set (n1 := E - ex) in *.
  set (m1 := shr_m mrs1) in *.
  set (m2 := round_nearest_even m1 (loc_of_shr_record mrs1)).
  pose proof (round_nearest_even_bounds m1 (loc_of_shr_record mrs1)) as Hm2.
  fold m2 in Hm2.
  assert (Hn1 : 0 <= n1) by (unfold n1; lia).
  assert (Hp1 : 0 < 2 ^ n1) by (apply Z.pow_pos_nonneg; lia).
  assert (Hm1lo : m1 * 2 ^ n1 <= mx)
    by (rewrite Hm1, Z.mul_comm; now apply Z.mul_div_le).
  assert (Hm1hi : mx < (m1 + 1) * 2 ^ n1).
  { rewrite Hm1, Z.mul_comm. pose proof (Z.mul_succ_div_gt mx (2 ^ n1) Hp1). lia. }
  assert (Hm1nn : 0 <= m1) by (rewrite Hm1; apply Z.div_pos; lia).
  (* the real lies between m1 and m1 + 1 at exponent E *)
  assert (Hx1 : (F2R m1 E <= x < F2R (m1 + 1) E)%R).
  { replace E with (ex + n1) by (unfold n1; lia).
    rewrite <- !F2R_scale by assumption. split.
    - apply Rle_trans with (F2R mx ex); [apply F2R_le; lia | tauto].
    - apply Rlt_le_trans with (F2R (mx + 1) ex); [tauto | apply F2R_le; lia]. }
  (* m1 has at most prec digits *)
  assert (Hm1p : m1 < 2 ^ prec).
  { destruct (Z.eq_dec mx 0) as [-> | Hne].
    - rewrite Z.div_0_l in Hm1 by lia. rewrite Hm1. apply Z.pow_pos_nonneg; lia.
    - destruct (Zdigits2_bounds mx ltac:(lia)) as [_ Hhi].
      assert (Zdigits2 mx <= prec + n1) by (unfold n1, E, SpecFloat.fexp; lia).
      assert (2 ^ Zdigits2 mx <= 2 ^ (prec + n1))
        by (apply Z.pow_le_mono_r; lia).
      rewrite Z.pow_add_r in H0 by lia. nia. }
  destruct (shr_fexp_spec m2 E loc_Exact ltac:(lia)) as [Hm3 He3].
  destruct (shr_fexp prec emax m2 E loc_Exact) as [mrs3 e3]. cbn [fst snd] in Hm3, He3.
  set (m3 := shr_m mrs3) in *.
  assert (HE : emin <= E) by apply fexp_ge_emin.
  (* the second shift is exact *)
  assert (Hsame : F2R m3 e3 = F2R m2 E /\ fexp (Zdigits2 m3 + e3) = e3 /\ (m3 = 0 -> m2 = 0)
                  \/ m2 = 0 /\ m3 = 0).
  { destruct (Z.eq_dec m2 0) as [Hz | Hnz].
    { right. split; [assumption|]. rewrite Hm3, Hz. apply Z.div_0_l.
      apply Z.pow_nonzero; lia. }
    left.
    destruct (Z_lt_ge_dec m2 (2 ^ prec)) as [Hlt | Hge].
    - assert (Hd2 : Zdigits2 m2 <= prec) by (apply Zdigits2_le; lia).
      assert (Hf2 : fexp (Zdigits2 m2 + E) <= E) by (unfold SpecFloat.fexp; lia).
      replace (Z.max 0 (fexp (Zdigits2 m2 + E) - E)) with 0 in Hm3, He3 by lia.
      rewrite Z.pow_0_r, Z.div_1_r in Hm3. rewrite Z.add_0_r in He3.
      rewrite Hm3, He3. split; [reflexivity|]. split; [|auto].
      apply Z.le_antisymm; [assumption|].
      apply fexp_mono.
      destruct (Z_lt_ge_dec (Zdigits2 mx) (n1 + 1)) as [Hsmall | Hbig].
      + pose proof (Zdigits2_ge m2 0 ltac:(lia) ltac:(simpl; lia)). unfold n1 in *. lia.
      + assert (0 < mx) by (destruct mx; simpl in Hbig; lia).
        destruct (Zdigits2_bounds mx H) as [Hlo _].
        assert (Hpow : 2 ^ (Zdigits2 mx - 1) = 2 ^ (Zdigits2 mx - 1 - n1) * 2 ^ n1)
          by (rewrite <- Z.pow_add_r by lia; f_equal; lia).
        assert (Hq : 2 ^ (Zdigits2 mx - 1 - n1) <= m1).
        { assert (0 < 2 ^ (Zdigits2 mx - 1 - n1)) by (apply Z.pow_pos_nonneg; lia).
          nia. }
        pose proof (Zdigits2_ge m2 (Zdigits2 mx - 1 - n1) ltac:(lia) ltac:(lia)).
        unfold n1 in *. lia.
    - assert (Heq : m2 = 2 ^ prec) by lia.
      assert (Hd2 : Zdigits2 m2 = prec + 1).
      { apply Z.le_antisymm.
        - apply Zdigits2_le; [lia|]. rewrite Heq, Z.pow_add_r by lia. lia.
        - pose proof (Zdigits2_ge m2 prec ltac:(lia) ltac:(lia)). lia. }
      assert (Hf2 : fexp (Zdigits2 m2 + E) = E + 1)
        by (rewrite Hd2; unfold SpecFloat.fexp; lia).
      replace (Z.max 0 (fexp (Zdigits2 m2 + E) - E)) with 1 in Hm3, He3 by lia.
      assert (Hhalf : m3 = 2 ^ (prec - 1)).
      { rewrite Hm3, Heq. change (2 ^ 1) with 2.
        replace prec with (1 + (prec - 1)) at 1 by lia.
        rewrite Z.pow_add_r by lia. change (2 ^ 1) with 2.
        rewrite Z.mul_comm, Z.div_mul by lia. reflexivity. }
      split; [|split].
      + rewrite He3, <- F2R_scale by lia. f_equal. rewrite Hhalf, Heq.
        replace prec with ((prec - 1) + 1) at 2 by lia.
        now rewrite Z.pow_add_r by lia.
      + assert (Hd3 : Zdigits2 m3 = prec).
        { apply Z.le_antisymm.
          - apply Zdigits2_le; [lia|]. rewrite Hhalf. split.
            + apply Z.pow_nonneg; lia.
            + apply Z.pow_lt_mono_r; lia.
          - pose proof (Zdigits2_ge m3 (prec - 1) ltac:(lia) ltac:(lia)). lia. }
        rewrite Hd3, He3. unfold SpecFloat.fexp. lia.
      + intros H0. rewrite Hhalf in H0.
        pose proof (Z.pow_pos_nonneg 2 (prec - 1)). lia. }
  assert (Hm3nn : 0 <= m3) by (rewrite Hm3; apply Z.div_pos; [lia | apply Z.pow_pos_nonneg; lia]).
  destruct m3 as [|m|m] eqn:Em3; [| |lia].
  - split; [reflexivity|].
    assert (m2 = 0) by (destruct Hsame as [(_ & _ & H) | [H _]]; auto).
    assert (m1 = 0) by lia. subst m1. rewrite H0 in Hx1.
    unfold F2R in Hx1. simpl in Hx1. lra.
  - destruct Hsame as [(Hval & Hcan & _) | [_ H]]; [|discriminate].
    destruct (Z.leb e3 (emax - prec)) eqn:Hle; [|reflexivity].
    apply Z.leb_le in Hle.
    split; [reflexivity|]. split.
    { unfold canonical_mantissa. apply Z.eqb_eq. exact Hcan. }
    split; [assumption|].
    rewrite Hval. destruct Hx1 as [Hlo Hhi].
    assert (Hstep : forall k, F2R (k + 1) E = (F2R k E + powerRZ 2 E)%R)
      by (intros k; unfold F2R; rewrite plus_IZR; ring).
    rewrite Hstep in Hhi.
    assert (Hcases : m2 = m1 \/ m2 = m1 + 1) by lia.
    pose proof (pow2_pos E).
    destruct Hcases as [-> | ->]; [|rewrite Hstep]; lra.
Qed.

End Rounding.

Section Operations.
Variables prec emax : Z.
Hypothesis prec_pos : 0 < prec.

Local Notation "'fexp'" := (SpecFloat.fexp prec emax).
Local Notation "'emin'" := (SpecFloat.emin prec emax).

Lemma binary_round_aux_rounded (s : bool) (mx ex : Z) (lx : location) (x : R) :
  0 <= mx ->
  ex <= fexp (Zdigits2 mx + ex) ->
  (F2R mx ex <= x < F2R (mx + 1) ex)%R ->
  exists u, unit_of prec emax x u
            /\ rounded prec emax s x u (binary_round_aux prec emax s mx ex lx).
Proof.
  intros Hmx Hex Hx.
  exists (powerRZ 2 (fexp (Zdigits2 mx + ex))). split.
  - split; [apply pow2_pos|].
    destruct (Z.eq_dec (fexp (Zdigits2 mx + ex)) emin) as [-> | Hne]; [now right|].
    left.
    assert (Hfe : fexp (Zdigits2 mx + ex) = Zdigits2 mx + ex - prec)
      by (unfold SpecFloat.fexp in *; lia).
    assert (Hpos : 0 < mx).
    { destruct (Z.eq_dec mx 0) as [-> | ?]; [|lia].
      simpl in *. unfold SpecFloat.fexp in *. lia. }
    destruct (Zdigits2_bounds mx Hpos) as [Hlo _].
    rewrite Hfe.
    replace (Zdigits2 mx + ex - prec) with ((Zdigits2 mx - 1) + ex + (1 - prec)) by lia.
    rewrite !pow2_add.
    apply Rmult_le_compat_r; [apply Rlt_le, pow2_pos|].
    apply Rle_trans with (F2R mx ex); [|tauto].
    unfold F2R. apply Rmult_le_compat_r; [apply Rlt_le, pow2_pos|].
    assert (Hd1 : 1 <= Zdigits2 mx) by (destruct mx; simpl; lia).
    rewrite <- pow2_IZR by lia.
    now apply IZR_le.
  - pose proof (binary_round_aux_spec prec emax prec_pos s mx ex lx x Hmx Hex Hx) as H.
    cbv zeta in H. unfold rounded.
    destruct (binary_round_aux prec emax s mx ex lx); auto.
Qed.

(** *** Division *)

Lemma SFdiv_core_spec (m1 m2 : positive) (e1 e2 : Z) :
  let '(q, e', l) := SFdiv_core_binary prec emax (Zpos m1) e1 (Zpos m2) e2 in
  let x := (F2R (Zpos m1) e1 / F2R (Zpos m2) e2)%R in
  0 <= q
  /\ e' <= fexp (Zdigits2 q + e')
  /\ (F2R q e' <= x < F2R (q + 1) e')%R.
Proof.
  unfold SFdiv_core_binary.
  set (d1 := Zdigits2 (Zpos m1)). set (d2 := Zdigits2 (Zpos m2)).
  set (e' := Z.min (fexp (d1 + e1 - (d2 + e2))) (e1 - e2)).
  set (s := e1 - e2 - e').
  assert (Hs : 0 <= s) by (unfold s, e'; lia).
  set (m' := match s with Zpos _ => Z.shiftl (Zpos m1) s | Z0 => Zpos m1 | Zneg _ => 0 end).
  assert (Hm' : m' = Zpos m1 * 2 ^ s).
  { unfold m'. destruct s eqn:Es; try lia.
    rewrite Z.shiftl_mul_pow2 by lia. reflexivity. }
  pose proof (Z_div_mod m' (Zpos m2) ltac:(lia)) as Hdiv.
  destruct (Z.div_eucl m' (Zpos m2)) as [q r]. destruct Hdiv as [Hq Hr].
  assert (Hp : 0 < 2 ^ s) by (apply Z.pow_pos_nonneg; lia).
  assert (Hqnn : 0 <= q) by nia.
  split; [assumption|]. split.
  - (* enough digits *)
    apply Z.le_trans with (fexp (d1 + e1 - (d2 + e2))); [unfold e'; lia|].
    apply fexp_mono.
    destruct (digits2_bounds m1) as [Hlo1 _]. destruct (digits2_bounds m2) as [_ Hhi2].
    change (Zpos (digits2_pos m1)) with d1 in Hlo1.
    change (Zpos (digits2_pos m2)) with d2 in Hhi2.
    assert (Hd1 : 0 < d1) by (unfold d1; simpl; lia).
    assert (Hd2 : 0 < d2) by (unfold d2; simpl; lia).
    destruct (Z_lt_ge_dec (d1 - 1 + s - d2) 0) as [Hk | Hk].
    + pose proof (Zdigits2_nonneg q). unfold s in *. lia.
    + assert (H2 : 2 ^ (d1 - 1 + s) = 2 ^ (d1 - 1 + s - d2) * 2 ^ d2)
        by (rewrite <- Z.pow_add_r by lia; f_equal; lia).
      assert (H3 : 2 ^ (d1 - 1 + s) = 2 ^ (d1 - 1) * 2 ^ s)
        by (rewrite <- Z.pow_add_r by lia; reflexivity).
      assert (Hk2 : 0 < 2 ^ (d1 - 1 + s - d2)) by (apply Z.pow_pos_nonneg; lia).
      assert (Hqk : 2 ^ (d1 - 1 + s - d2) <= q) by nia.
      pose proof (Zdigits2_ge q (d1 - 1 + s - d2) ltac:(lia) Hqk). unfold s in *. lia.
  - (* the quotient lies between q and q + 1 *)
    assert (Hx : (F2R (Zpos m1) e1 / F2R (Zpos m2) e2
                  = IZR m' / IZR (Zpos m2) * powerRZ 2 e')%R).
    { unfold F2R. rewrite Hm', mult_IZR, pow2_IZR by assumption.
      replace e1 with (s + e' + e2) at 1 by (unfold s; lia).
      rewrite !pow2_add.
      pose proof (pow2_pos e2). assert (0 < IZR (Zpos m2))%R by (apply IZR_lt; lia).
      field. split; lra. }
    rewrite Hx. unfold F2R.
    assert (H2 : (0 < IZR (Zpos m2))%R) by (apply IZR_lt; lia).
    pose proof (pow2_pos e') as Hpe.
    assert (Hlo : (IZR q <= IZR m' / IZR (Zpos m2))%R).
    { apply Rmult_le_reg_r with (IZR (Zpos m2)); [assumption|].
      unfold Rdiv. rewrite Rmult_assoc, Rinv_l, Rmult_1_r by lra.
      rewrite <- mult_IZR. apply IZR_le. lia. }
    assert (Hhi : (IZR m' / IZR (Zpos m2) < IZR (q + 1))%R).
    { apply Rmult_lt_reg_r with (IZR (Zpos m2)); [assumption|].
      unfold Rdiv. rewrite Rmult_assoc, Rinv_l, Rmult_1_r by lra.
      rewrite <- mult_IZR. apply IZR_lt. lia. }
    split; [apply Rmult_le_compat_r | apply Rmult_lt_compat_r]; lra.
Qed.

Lemma SFdiv_rounded (s1 s2 : bool) (m1 m2 : positive) (e1 e2 : Z) :
  let x := (F2R (Zpos m1) e1 / F2R (Zpos m2) e2)%R in
  exists u, unit_of prec emax x u
            /\ rounded prec emax (xorb s1 s2) x u
                 (SFdiv prec emax (S754_finite s1 m1 e1) (S754_finite s2 m2 e2)).
Proof.
  intros x. cbn [SFdiv].
  pose proof (SFdiv_core_spec m1 m2 e1 e2) as H.
  destruct (SFdiv_core_binary prec emax (Zpos m1) e1 (Zpos m2) e2) as [[q e'] l].
  destruct H as (Hq & He & Hx).
  now apply binary_round_aux_rounded.
Qed.

(** *** Conversion of an integer *)

Lemma iter_xO (m : positive) (d : positive) :
  Zpos (Pos.iter xO m d) = Zpos m * 2 ^ Zpos d.
Proof.
  revert m. induction d as [|d IH] using Pos.peano_ind; intros m.
  - cbn [Pos.iter]. change (2 ^ 1) with 2. lia.
  - rewrite Pos.iter_succ, Pos2Z.inj_succ, Z.pow_succ_r by lia.
    rewrite Pos2Z.inj_xO, IH. lia.
Qed.

Lemma shl_align_spec (m : positive) (e e' : Z) :
  let '(m', e'') := shl_align m e e' in
  F2R (Zpos m') e'' = F2R (Zpos m) e
  /\ (e' <= e -> e'' = e' /\ Zpos m' = Zpos m * 2 ^ (e - e'))
  /\ (e < e' -> e'' = e /\ m' = m).
Proof.
  unfold shl_align. destruct (e' - e) as [|d|d] eqn:Ed.
  - split; [reflexivity|]. split; [|lia]. intros _. split; [lia|].
    replace (e - e') with 0 by lia. lia.
  - split; [reflexivity|]. split; [lia | auto].
  - split; [|split; [|lia]].
    + rewrite iter_xO. replace e with (e' + Zpos d) by lia.
      apply F2R_scale. lia.
    + intros _. split; [reflexivity|]. rewrite iter_xO. f_equal. f_equal. lia.
Qed.

Lemma Zdigits2_scale (m : positive) (n : Z) :
  0 <= n -> Zdigits2 (Zpos m * 2 ^ n) = Zdigits2 (Zpos m) + n.
Proof.
  intros Hn. destruct (digits2_bounds m) as [Hlo Hhi].
  change (Zdigits2 (Zpos m)) with (Zpos (digits2_pos m)).
  assert (Hp : 0 < 2 ^ n) by (apply Z.pow_pos_nonneg; lia).
  apply Z.le_antisymm.
  - apply Zdigits2_le; [lia|]. split; [lia|].
    rewrite Z.pow_add_r by lia. nia.
  - assert (H : 2 ^ (Zpos (digits2_pos m) - 1 + n) <= Zpos m * 2 ^ n)
      by (rewrite Z.pow_add_r by lia; nia).
    pose proof (Zdigits2_ge _ (Zpos (digits2_pos m) - 1 + n) ltac:(lia) H). lia.
Qed.

Lemma binary_round_rounded (s : bool) (m : positive) (e : Z) :
  exists u, unit_of prec emax (F2R (Zpos m) e) u
            /\ rounded prec emax s (F2R (Zpos m) e) u (binary_round prec emax s m e).
Proof.
  unfold binary_round.
  pose proof (shl_align_spec m e (fexp (Zpos (digits2_pos m) + e))) as H.
  destruct (shl_align m e (fexp (Zpos (digits2_pos m) + e))) as [mz ez].
  destruct H as (Hval & Hshift & Hkeep).
  rewrite <- Hval. apply binary_round_aux_rounded; [lia| |].
  - destruct (Z_le_gt_dec (fexp (Zpos (digits2_pos m) + e)) e) as [Hle | Hgt].
    + destruct (Hshift Hle) as [-> Hm]. rewrite Hm, Zdigits2_scale by lia.
      change (Zdigits2 (Zpos m)) with (Zpos (digits2_pos m)).
      set (e' := fexp (Zpos (digits2_pos m) + e)).
      replace (Zpos (digits2_pos m) + (e - e') + e') with (Zpos (digits2_pos m) + e) by lia.
      fold e'. lia.
    + destruct (Hkeep ltac:(lia)) as [-> ->].
      change (Zdigits2 (Zpos m)) with (Zpos (digits2_pos m)). lia.
  - split; [lra|]. apply F2R_lt. lia.
Qed.

(** *** Comparison of canonical floats *)

Lemma canonical_digits (m : positive) (e : Z) :
  canonical_mantissa prec emax m e = true ->
  Zpos m < 2 ^ prec /\ (emin < e -> 2 ^ (prec - 1) <= Zpos m) /\ emin <= e.
Proof.
  unfold canonical_mantissa. intros H. apply Z.eqb_eq in H.
  destruct (digits2_bounds m) as [Hlo Hhi].
  assert (Hd : Zpos (digits2_pos m) <= prec) by (unfold SpecFloat.fexp in H; lia).
  split; [|split].
  - apply Z.lt_le_trans with (2 ^ Zpos (digits2_pos m)); [assumption|].
    apply Z.pow_le_mono_r; lia.
  - intros He. assert (Zpos (digits2_pos m) = prec) by (unfold SpecFloat.fexp in H; lia).
    rewrite <- H0. assumption.
  - unfold SpecFloat.fexp in H. lia.
Qed.

Lemma canonical_lt_exp (m1 m2 : positive) (e1 e2 : Z) :
  canonical_mantissa prec emax m1 e1 = true ->
  canonical_mantissa prec emax m2 e2 = true ->
  e1 < e2 ->
  (F2R (Zpos m1) e1 < F2R (Zpos m2) e2)%R.
Proof.
  intros H1 H2 He.
  destruct (canonical_digits _ _ H1) as (Hhi1 & _ & Hmin1).
  destruct (canonical_digits _ _ H2) as (_ & Hlo2 & _).
  specialize (Hlo2 ltac:(lia)).
  apply Rlt_le_trans with (F2R (2 ^ prec) e1); [apply F2R_lt; assumption|].
  apply Rle_trans with (F2R (2 ^ (prec - 1)) e2); [|apply F2R_le; assumption].
  replace e2 with (e1 + 1 + (e2 - e1 - 1)) by lia.
  rewrite <- F2R_scale by lia. rewrite <- F2R_scale by lia.
  apply F2R_le.
  replace prec with ((prec - 1) + 1) at 1 by lia.
  rewrite Z.pow_add_r by lia.
  assert (0 < 2 ^ (prec - 1)) by (apply Z.pow_pos_nonneg; lia).
  assert (1 <= 2 ^ (e2 - e1 - 1)) by (pose proof (Z.pow_pos_nonneg 2 (e2 - e1 - 1)); lia).
  nia.
Qed.

Lemma SFltb_true_pos (m1 m2 : positive) (e1 e2 : Z) :
  canonical_mantissa prec emax m1 e1 = true ->
  canonical_mantissa prec emax m2 e2 = true ->
  SFltb (S754_finite false m1 e1) (S754_finite false m2 e2) = true ->
  (F2R (Zpos m1) e1 < F2R (Zpos m2) e2)%R.
Proof.
  intros H1 H2. unfold SFltb, SFcompare.
  destruct (Z.compare_spec e1 e2) as [-> | Hlt | Hgt]; try discriminate.
  - rewrite Pos.compare_cont_spec. cbn [Pos.switch_Eq].
    destruct (Pos.compare_spec m1 m2); try discriminate.
    intros _. apply F2R_lt. lia.
  - intros _. now apply canonical_lt_exp.
Qed.

Lemma SFltb_false_pos (m1 m2 : positive) (e1 e2 : Z) :
  canonical_mantissa prec emax m1 e1 = true ->
  canonical_mantissa prec emax m2 e2 = true ->
  SFltb (S754_finite false m1 e1) (S754_finite false m2 e2) = false ->
  (F2R (Zpos m2) e2 <= F2R (Zpos m1) e1)%R.
Proof.
  intros H1 H2. unfold SFltb, SFcompare.
  destruct (Z.compare_spec e1 e2) as [-> | Hlt | Hgt]; try discriminate.
  - rewrite Pos.compare_cont_spec. cbn [Pos.switch_Eq].
    destruct (Pos.compare_spec m1 m2); try discriminate; intros _.
    + subst. lra.
    + apply F2R_le. lia.
  - intros _. apply Rlt_le. now apply canonical_lt_exp.
Qed.

End Operations.

(** ** binary64 *)

Lemma F2R_int (n : Z) : F2R n 0 = IZR n.
Proof. unfold F2R. simpl. ring. Qed.

Lemma half_ulp_small : (powerRZ 2 (1 - 53) <= / 1000000)%R.
Proof.
  assert (H : (powerRZ 2 (1 - 53) * IZR (2 ^ 52) = 1)%R).
  { rewrite pow2_IZR by lia. rewrite <- pow2_add. reflexivity. }
  change (2 ^ 52) with 4503599627370496 in H.
  pose proof (pow2_pos (1 - 53)). lra.
Qed.

Lemma least_float_small : (powerRZ 2 (emin 53 1024) <= / 1000000000)%R.
Proof.
  apply Rle_trans with (powerRZ 2 (-62)); [apply pow2_le; unfold emin; lia|].
  assert (H : (powerRZ 2 (-62) * IZR (2 ^ 62) = 1)%R).
  { rewrite pow2_IZR by lia. rewrite <- pow2_add. reflexivity. }
  change (2 ^ 62) with 4611686018427387904 in H.
  pose proof (pow2_pos (-62)). lra.
Qed.

(** The unit of a rounding in binary64, coarsely. *)
Lemma unit_of_small (x u : R) :
  unit_of 53 1024 x u -> (0 <= x)%R -> (0 < u <= x / 1000000 + / 1000000000)%R.
Proof.
  intros [Hpos [Hrel | ->]] Hx.
  - pose proof half_ulp_small. split; [assumption|].
    assert (x * powerRZ 2 (1 - 53) <= x * / 1000000)%R
      by (apply Rmult_le_compat_l; assumption).
    lra.
  - pose proof least_float_small. pose proof (pow2_pos (emin 53 1024)). lra.
Qed.

(** *** Integers *)

Lemma int_truediv_comparable (n d : Z) (a : float) :
  int_truediv n d = Ok a -> comparable a.
Proof.
  unfold int_truediv, float_ratio, fdiv. cbn [prec emax binary64].
  destruct (d =? 0) eqn:Hd; [discriminate|]. apply Z.eqb_neq in Hd.
  destruct n as [|n|n], d as [|d|d]; try lia; cbn [unrounded].
  1-2: cbn; intros [= <-]; exact I.
  all: match goal with
       | |- context [SFdiv 53 1024 (S754_finite ?s1 ?m1 0) (S754_finite ?s2 ?m2 0)] =>
           destruct (SFdiv_rounded 53 1024 ltac:(lia) s1 s2 m1 m2 0 0) as (u & _ & Hr);
           destruct (SFdiv 53 1024 (S754_finite s1 m1 0) (S754_finite s2 m2 0))
       end;
    try discriminate; intros [= <-]; cbn in Hr |- *; tauto.
Qed.

(** The quotient of two positive integers. *)
Lemma int_truediv_pos (n d : Z) (a : float) :
  0 < n -> 0 < d ->
  int_truediv n d = Ok a ->
  exists u, unit_of 53 1024 (IZR n / IZR d) u
            /\ rounded 53 1024 false (IZR n / IZR d) u a.
Proof.
  intros Hn Hd. unfold int_truediv, float_ratio, fdiv. cbn [prec emax binary64].
  destruct (d =? 0) eqn:Hd0; [apply Z.eqb_eq in Hd0; lia|].
  destruct n as [|n|n], d as [|d|d]; try lia. cbn [unrounded].
  destruct (SFdiv_rounded 53 1024 ltac:(lia) false false n d 0 0) as (u & Hu & Hr).
  cbv zeta in Hu, Hr. rewrite !F2R_int in Hu, Hr.
  destruct (SFdiv 53 1024 (S754_finite false n 0) (S754_finite false d 0));
    try discriminate; intros [= <-]; now exists u.
Qed.

(** The quotient of a non-positive integer by a positive one. *)
Lemma int_truediv_nonpos (n d : Z) (a : float) :
  n <= 0 -> 0 < d ->
  int_truediv n d = Ok a ->
  a = S754_zero false \/ a = S754_zero true \/ exists m e, a = S754_finite true m e.
Proof.
  intros Hn Hd. unfold int_truediv, float_ratio, fdiv. cbn [prec emax binary64].
  destruct (d =? 0) eqn:Hd0; [apply Z.eqb_eq in Hd0; lia|].
  destruct n as [|n|n], d as [|d|d]; try lia; cbn [unrounded].
  - cbn. intros [= <-]. now left.
  - destruct (SFdiv_rounded 53 1024 ltac:(lia) true false n d 0 0) as (u & _ & Hr).
    destruct (SFdiv 53 1024 (S754_finite true n 0) (S754_finite false d 0));
      try discriminate; intros [= <-]; cbn in Hr; try contradiction.
    + destruct Hr as [-> _]. auto.
    + destruct Hr as [-> _]. right. right. eauto.
Qed.

Lemma int_to_float_pos (n : Z) (x : float) :
  0 < n ->
  int_to_float n = Ok x ->
  exists u, unit_of 53 1024 (IZR n) u /\ rounded 53 1024 false (IZR n) u x.
Proof.
  intros Hn. unfold int_to_float, float_of_Z. cbn [prec emax binary64].
  destruct n as [|n|n]; try lia. cbn [binary_normalize].
  destruct (binary_round_rounded 53 1024 ltac:(lia) false n 0) as (u & Hu & Hr).
  rewrite F2R_int in Hu, Hr.
  destruct (binary_round 53 1024 false n 0); try discriminate; intros [= <-]; now exists u.
Qed.

Lemma int_to_float_nonpos (n : Z) (x : float) :
  n <= 0 ->
  int_to_float n = Ok x ->
  x = S754_zero false \/ x = S754_zero true \/ exists m e, x = S754_finite true m e.
Proof.
  intros Hn. unfold int_to_float, float_of_Z. cbn [prec emax binary64].
  destruct n as [|n|n]; try lia; cbn [binary_normalize].
  - intros [= <-]. now left.
  - destruct (binary_round_rounded 53 1024 ltac:(lia) true n 0) as (u & _ & Hr).
    destruct (binary_round 53 1024 true n 0); try discriminate; intros [= <-]; cbn in Hr;
      try contradiction.
    + destruct Hr as [-> _]. auto.
    + destruct Hr as [-> _]. right. right. eauto.
Qed.

(** [int] of a float that is not positive is not positive; [int] of a
    positive float is at most its value. *)
Lemma py_int_nonpos (x : float) (r : Z) :
  x = S754_zero false \/ x = S754_zero true \/ (exists m e, x = S754_finite true m e) ->
  py_int x = Ok r -> r <= 0.
Proof.
  intros [-> | [-> | (m & e & ->)]]; cbn [py_int cond_Zopp]; intros [= <-]; try lia.
  assert (0 <= Z.shiftl (Zpos m) e) by (apply Z.shiftl_nonneg; lia). lia.
Qed.

Lemma py_int_pos (m : positive) (e r : Z) :
  py_int (S754_finite false m e) = Ok r -> (IZR r <= F2R (Zpos m) e)%R.
Proof.
  cbn [py_int cond_Zopp]. intros [= <-]. destruct (Z_le_gt_dec 0 e) as [He | He].
  - rewrite Z.shiftl_mul_pow2 by assumption.
    rewrite <- F2R_int, F2R_scale by assumption. apply Req_le. reflexivity.
  - rewrite Z.shiftl_div_pow2 by lia.
    rewrite <- F2R_int. replace 0 with (e + - e) at 1 by lia.
    apply F2R_div. lia.
Qed.

Lemma one_is : float_of_Z binary64 1 = S754_finite false 4503599627370496 (-52).
Proof. reflexivity. Qed.

Lemma one_value : F2R 4503599627370496 (-52) = 1%R.
Proof.
  change 4503599627370496 with (2 ^ 52). unfold F2R.
  rewrite pow2_IZR by lia. rewrite <- pow2_add. reflexivity.
Qed.

(** The larger of two comparable floats, one of them positive. *)
Lemma larger_of (a b : float) (mf : positive) (ef : Z) :
  comparable a -> comparable b ->
  a = S754_finite false mf ef \/ b = S754_finite false mf ef ->
  exists mm em,
    (if SFltb a b then b else a) = S754_finite false mm em
    /\ canonical_mantissa 53 1024 mm em = true
    /\ (F2R (Zpos mf) ef <= F2R (Zpos mm) em)%R.
Proof.
  intros Ha Hb [-> | ->].
  - destruct (SFltb (S754_finite false mf ef) b) eqn:Hlt.
    + destruct b as [sb | sb | | [] mb eb]; try contradiction; try discriminate.
      exists mb, eb. repeat split; auto.
      apply Rlt_le. now apply (SFltb_true_pos 53 1024).
    + exists mf, ef. repeat split; auto. lra.
  - destruct (SFltb a (S754_finite false mf ef)) eqn:Hlt.
    + exists mf, ef. repeat split; auto. lra.
    + destruct a as [sa | sa | | [] ma ea]; try contradiction; try discriminate.
      exists ma, ea. repeat split; auto.
      now apply (SFltb_false_pos 53 1024).
Qed.

Lemma Rdiv_le_of_mul (x y c : R) : (0 < y)%R -> (x <= c * y)%R -> (x / y <= c)%R.
Proof.
  intros Hy H. apply Rmult_le_reg_r with y; [assumption|].
  unfold Rdiv. rewrite Rmult_assoc, Rinv_l, Rmult_1_r by lra. assumption.
Qed.

(** One dimension of the output: [int(n / scale)] is at most [MAX_DIM]
    when [scale] is [max] of 1 and two quotients, one of them
    [n / MAX_DIM]. *)
Lemma out_dim_le (n : Z) (a b fn q : float) (r : Z) :
  int_truediv n MAX_DIM = Ok fn ->
  comparable a -> comparable b ->
  fn = a \/ fn = b ->
  int_div_number n (max_with_one a b) = Ok q ->
  py_int q = Ok r ->
  r <= MAX_DIM.
Proof.
  intros Hfn Ha Hb Hwhich Hq Hr. unfold MAX_DIM in *.
  unfold max_with_one in Hq. rewrite one_is in Hq.
  set (m := if SFltb a b then b else a) in *.
  assert (Hm : comparable m) by (unfold m; destruct (SFltb a b); assumption).
  destruct (Z_le_gt_dec n 0) as [Hn | Hn].
  - (* a non-positive dimension stays non-positive *)
    enough (r <= 0) by lia.
    destruct (SFltb m (S754_finite false 4503599627370496 (-52))) eqn:Hone;
      cbn [int_div_number] in Hq.
    + apply (py_int_nonpos q); [|assumption].
      now apply (int_truediv_nonpos n 1).
    + destruct (int_to_float n) as [x|] eqn:Hx; [|discriminate].
      cbn [result_bind] in Hq. unfold float_truediv in Hq.
      destruct (is_zero m) eqn:Hz; [discriminate|]. injection Hq as <-.
      apply int_to_float_nonpos in Hx; [|assumption].
      destruct m as [sm | sm | | [] mm em]; try contradiction; try discriminate.
      unfold fdiv in Hr. cbn [prec emax binary64] in Hr.
      destruct Hx as [-> | [-> | (mx & ex & ->)]].
      * cbn in Hr. injection Hr as <-. lia.
      * cbn in Hr. injection Hr as <-. lia.
      * destruct (SFdiv_rounded 53 1024 ltac:(lia) true false mx mm ex em)
          as (u & _ & Hrd).
        refine (py_int_nonpos _ r _ Hr).
        destruct (SFdiv 53 1024 (S754_finite true mx ex) (S754_finite false mm em));
          cbn in Hrd; try contradiction.
        -- destruct Hrd as [-> _]. auto.
        -- discriminate.
        -- destruct Hrd as [-> _]. right. right. eauto.
  - (* a positive dimension *)
    assert (HN : (1 <= IZR n)%R) by (apply IZR_le; lia).
    destruct (int_truediv_pos n 1000 fn ltac:(lia) ltac:(lia) Hfn) as (u & Hu & Hrd).
    assert (Hx0 : (0 <= IZR n / 1000)%R) by lra.
    apply unit_of_small in Hu; [|assumption].
    pose proof (int_truediv_comparable _ _ _ Hfn) as Hcf.
    destruct fn as [sf | sf | | sf mf ef]; try contradiction; cbn in Hrd.
    { destruct Hrd as [_ Hrd]. lra. }
    destruct Hrd as (-> & Hcan & _ & Hvf).
    assert (Hwhich' : a = S754_finite false mf ef \/ b = S754_finite false mf ef)
      by (destruct Hwhich; auto).
    destruct (larger_of a b mf ef Ha Hb Hwhich') as (mm & em & Em & Hcm & Hvm).
    fold m in Em. rewrite Em in Hq.
    set (vf := F2R (Zpos mf) ef) in *. set (vm := F2R (Zpos mm) em) in *.
    assert (Hvm_lo : (IZR n * (999998 / 1000000000) <= vm)%R) by lra.
    enough (Hlt : (IZR r < 1001)%R) by (apply lt_IZR in Hlt; lia).
    destruct (SFltb (S754_finite false mm em) (S754_finite false 4503599627370496 (-52)))
      eqn:Hone; cbn [int_div_number] in Hq.
    + (* scale is the int 1 *)
      apply (SFltb_true_pos 53 1024 ltac:(lia) mm 4503599627370496 em (-52) Hcm eq_refl)
        in Hone.
      rewrite one_value in Hone. fold vm in Hone.
      destruct (int_truediv_pos n 1 q ltac:(lia) ltac:(lia) Hq) as (u1 & Hu1 & Hrd1).
      replace (IZR n / 1)%R with (IZR n) in Hu1, Hrd1 by field.
      apply unit_of_small in Hu1; [|lra].
      destruct q as [sq | sq | | sq mq eq]; cbn in Hrd1; try contradiction.
      * cbn in Hr. injection Hr as <-. lra.
      * discriminate.
      * destruct Hrd1 as (-> & _ & _ & Hvq).
        apply py_int_pos in Hr. lra.
    + (* scale is a float *)
      destruct (int_to_float n) as [x|] eqn:Hx; [|discriminate].
      cbn [result_bind] in Hq. unfold float_truediv in Hq. cbn [is_zero] in Hq.
      injection Hq as <-.
      destruct (int_to_float_pos n x ltac:(lia) Hx) as (u2 & Hu2 & Hrd2).
      apply unit_of_small in Hu2; [|lra].
      destruct x as [sx | sx | | sx mx ex]; cbn in Hrd2; try contradiction.
      * cbn in Hr. injection Hr as <-. lra.
      * cbn in Hr. discriminate.
      * destruct Hrd2 as (-> & _ & _ & Hvx).
        unfold fdiv in Hr. cbn [prec emax binary64] in Hr.
        destruct (SFdiv_rounded 53 1024 ltac:(lia) false false mx mm ex em)
          as (u3 & Hu3 & Hrd3).
        cbv zeta in Hu3, Hrd3. fold vm in Hu3, Hrd3.
        set (vx := F2R (Zpos mx) ex) in *.
        assert (Hvm_pos : (0 < vm)%R) by lra.
        assert (HX : (vx / vm <= 100001 / 100)%R).
        { apply Rdiv_le_of_mul; [assumption|]. lra. }
        assert (HX0 : (0 <= vx / vm)%R).
        { apply Rmult_le_pos; [|apply Rlt_le, Rinv_0_lt_compat; assumption].
          unfold vx, F2R. apply Rmult_le_pos; [apply IZR_le; lia|].
          apply Rlt_le, pow2_pos. }
        apply unit_of_small in Hu3; [|assumption].
        destruct (SFdiv 53 1024 (S754_finite false mx ex) (S754_finite false mm em))
          as [sq | sq | | sq mq eq]; cbn in Hrd3; try contradiction.
        -- cbn in Hr. injection Hr as <-. lra.
        -- discriminate.
        -- destruct Hrd3 as (-> & _ & _ & Hvq).
           apply py_int_pos in Hr. lra.
Qed.

(** The output size never exceeds [MAX_DIM] on either axis. *)
Lemma output_size_le (win : Window) (out_width out_height : Z) :
  output_size win = Ok (out_width, out_height) ->
  out_width <= MAX_DIM /\ out_height <= MAX_DIM.
Proof.
  unfold output_size.
  destruct (int_truediv (width win) MAX_DIM) as [a|] eqn:Ha; [|discriminate].
  destruct (int_truediv (height win) MAX_DIM) as [b|] eqn:Hb; [|discriminate].
  cbn [result_bind].
  destruct (int_div_number (width win) (max_with_one a b)) as [qw|] eqn:Hqw; [|discriminate].
  cbn [result_bind].
  destruct (py_int qw) as [ow|] eqn:How; [|discriminate].
  cbn [result_bind].
  destruct (int_div_number (height win) (max_with_one a b)) as [qh|] eqn:Hqh; [|discriminate].
  cbn [result_bind].
  destruct (py_int qh) as [oh|] eqn:Hoh; [|discriminate].
  cbn [result_bind]. intros [= <- <-].
  pose proof (int_truediv_comparable _ _ _ Ha) as Hca.
  pose proof (int_truediv_comparable _ _ _ Hb) as Hcb.
  split.
  - apply (out_dim_le (width win) a b a qw); auto.
  - apply (out_dim_le (height win) a b b qh); auto.
Qed.

(** ** The output grid *)

Lemma get_set {V} (d : PyDict.dict V) (k k' : string) (v : V) :
  PyDict.get (PyDict.set d k v) k'
  = if String.eqb k k' then Some v else PyDict.get d k'.
Proof.
  induction d as [|[k0 v0] d IH]; simpl.
  - reflexivity.
  - destruct (String.eqb k0 k) eqn:E0; simpl.
    + apply String.eqb_eq in E0. subst k0. now destruct (String.eqb k k').
    + destruct (String.eqb k0 k') eqn:E1; [|exact IH].
      apply String.eqb_eq in E1. subst k0. now rewrite String.eqb_sym, E0.
Qed.

(** What one successful iteration of the reading loop does: the grid is
    kept when there is one and computed from this band's window when
    there is none; the band's array has the shape of the grid. *)
Lemma read_band_ok (w : World) (wl wb wr wt : float) (st st' : ReadState)
    (band_name url : string) :
  outcome_of (read_band w wl wb wr wt st (band_name, url)) = Ok st' ->
  exists src fw win out_width out_height tr data,
    rasterio_open w url = Returns src
    /\ windows_from_bounds w wl wb wr wt (transform src) = Returns fw
    /\ clamp_window fw src = Ok win
    /\ match out_grid st with
       | Some g => g = (out_width, out_height, tr)
       | None => output_size win = Ok (out_width, out_height)
       end
    /\ out_grid st' = Some (out_width, out_height, tr)
    /\ shape data = (out_height, out_width)
    /\ band_data st' = PyDict.set (band_data st) band_name data.
Proof.
  unfold read_band. rewrite outcome_bind. cbn [emit outcome_of snd].
  rewrite outcome_bind.
  destruct (rasterio_open w url) as [src | msg] eqn:Hsrc; [|discriminate].
  cbn [call ret raise outcome_of snd]. rewrite outcome_bind.
  destruct (windows_from_bounds w wl wb wr wt (transform src)) as [fw | msg] eqn:Hfw;
    [|discriminate].
  cbn [call ret raise outcome_of snd]. rewrite outcome_bind.
  destruct (clamp_window fw src) as [win | e] eqn:Hwin; [|discriminate].
  cbn [lift outcome_of snd]. rewrite outcome_bind.
  destruct (window_validate w win) as [[] | msg]; [|discriminate].
  cbn [call ret outcome_of snd]. rewrite outcome_bind.
  destruct (out_grid st) as [[[ow oh] tr] | ] eqn:Hgrid.
  - cbn [ret outcome_of snd]. rewrite outcome_bind. unfold read_array.
    destruct ((oh <? 0) || (ow <? 0)); [discriminate|].
    rewrite outcome_bind.
    destruct (ds_read src win oh ow) as [f | msg]; [|discriminate].
    cbn [call ret outcome_of snd]. intros [= <-].
    now exists src, fw, win, ow, oh, tr,
      (astype_float32 {| nd_rows := oh; nd_cols := ow; nd_at := f |}).
  - rewrite outcome_bind.
    destruct (output_size win) as [[ow oh] | e] eqn:Hsize; [|discriminate].
    cbn [lift outcome_of snd]. rewrite outcome_bind.
    destruct (transform_from_bounds w wl wb wr wt ow oh) as [tr | msg]; [|discriminate].
    cbn [call ret outcome_of snd]. rewrite outcome_bind. unfold read_array.
    destruct ((oh <? 0) || (ow <? 0)); [discriminate|].
    rewrite outcome_bind.
    destruct (ds_read src win oh ow) as [f | msg]; [|discriminate].
    cbn [call ret outcome_of snd]. intros [= <-].
    now exists src, fw, win, ow, oh, tr,
      (astype_float32 {| nd_rows := oh; nd_cols := ow; nd_at := f |}).
Qed.

(** Once the grid is there, the rest of the loop keeps it and gives its
    shape to every array it adds. *)
Lemma read_bands_keep_grid (w : World) (wl wb wr wt : float)
    (entries : list (string * string)) :
  forall st st' out_width out_height tr,
    out_grid st = Some (out_width, out_height, tr) ->
    (forall k a, PyDict.get (band_data st) k = Some a ->
                 shape a = (out_height, out_width)) ->
    outcome_of (read_bands w wl wb wr wt entries st) = Ok st' ->
    out_grid st' = Some (out_width, out_height, tr)
    /\ (forall k a, PyDict.get (band_data st') k = Some a ->
                    shape a = (out_height, out_width)).
Proof.
  induction entries as [|[band_name url] rest IH];
    intros st st' ow oh tr Hgrid Hshapes; cbn [read_bands].
  - intros [= <-]. auto.
  - rewrite outcome_bind.
    destruct (outcome_of (read_band w wl wb wr wt st (band_name, url)))
      as [st1 | e] eqn:Hstep; [|discriminate].
    apply read_band_ok in Hstep
      as (src & fw & win & ow1 & oh1 & tr1 & data & _ & _ & _ & Hg & Hg1 & Hshape & Hdata).
    rewrite Hgrid in Hg. injection Hg as <- <- <-.
    apply IH; [assumption|].
    intros k a. rewrite Hdata, get_set.
    destruct (String.eqb band_name k); [|apply Hshapes].
    now intros [= <-].
Qed.

(** ** Spectral indices *)

Lemma pow2_lt (a b : Z) : a < b -> (powerRZ 2 a < powerRZ 2 b)%R.
Proof.
  intros Hab. replace b with (a + (b - a)) by lia.
  rewrite pow2_add, <- (pow2_IZR (b - a)) by lia.
  assert (H : 2 <= 2 ^ (b - a)).
  { replace (b - a) with (1 + (b - a - 1)) by lia. rewrite Z.pow_add_r by lia.
    pose proof (Z.pow_pos_nonneg 2 (b - a - 1)). lia. }
  apply IZR_le in H. pose proof (pow2_pos a). nra.
Qed.

Section SumAndDifference.
Variables prec emax : Z.
Hypothesis prec_gt_1 : 1 < prec.

(** A finite float minus itself is [+0]. *)
Lemma SFsub_same (x : float) :
  is_finite x = true -> SFsub prec emax x x = S754_zero false.
Proof.
  destruct x as [[] | | | s m e]; try discriminate; try reflexivity.
  intros _. cbn [SFsub]. rewrite Z.min_id. unfold shl_align.
  rewrite Z.sub_diag. cbn [fst]. reflexivity.
Qed.

(** The sum of two positive floats. *)
Lemma SFadd_pos_rounded (m1 m2 : positive) (e1 e2 : Z) :
  exists u,
    unit_of prec emax (F2R (Zpos m1) e1 + F2R (Zpos m2) e2)%R u
    /\ rounded prec emax false (F2R (Zpos m1) e1 + F2R (Zpos m2) e2)%R u
         (SFadd prec emax (S754_finite false m1 e1) (S754_finite false m2 e2)).
Proof.
  cbn [SFadd cond_Zopp].
  pose proof (shl_align_spec m1 e1 (Z.min e1 e2)) as H1.
  pose proof (shl_align_spec m2 e2 (Z.min e1 e2)) as H2.
  destruct (shl_align m1 e1 (Z.min e1 e2)) as [a ea].
  destruct (shl_align m2 e2 (Z.min e1 e2)) as [b eb].
  destruct H1 as (Hva & Hea & _). destruct H2 as (Hvb & Heb & _).
  destruct (Hea ltac:(lia)) as [-> _]. destruct (Heb ltac:(lia)) as [-> _].
  cbn [fst]. change (Zpos a + Zpos b) with (Zpos (a + b)). cbn [binary_normalize].
  replace (F2R (Zpos m1) e1 + F2R (Zpos m2) e2)%R with (F2R (Zpos (a + b)) (Z.min e1 e2)).
  - apply binary_round_rounded. lia.
  - rewrite <- Hva, <- Hvb. unfold F2R. rewrite Pos2Z.inj_add, plus_IZR. ring.
Qed.

(** The quotient of [x - x] by [x + x + eps] for a finite [x] that is not
    negative and a positive [eps] above the least positive float: the
    denominator is not zero and the quotient is [+0]. *)
Lemma ratio_of_equal (x : float) (me : positive) (ee : Z) :
  is_finite x = true -> sign_of x = false ->
  (powerRZ 2 (emin prec emax) < F2R (Zpos me) ee)%R ->
  let d := SFadd prec emax (SFadd prec emax x x) (S754_finite false me ee) in
  is_zero d = false
  /\ SFdiv prec emax (SFsub prec emax x x) d = S754_zero false.
Proof.
  intros Hfin Hsign Heps d. rewrite (SFsub_same x Hfin).
  enough (Hd : exists m e, d = S754_finite false m e \/ d = S754_infinity false).
  { destruct Hd as (m & e & [-> | ->]); now split. }
  subst d. destruct x as [s | | | s m e]; try discriminate; cbn in Hsign; subst s.
  - exists me, ee. now left.
  - assert (Hlast : forall my ey,
               exists m' e',
                 SFadd prec emax (S754_finite false my ey) (S754_finite false me ee)
                 = S754_finite false m' e'
                 \/ SFadd prec emax (S754_finite false my ey) (S754_finite false me ee)
                    = S754_infinity false).
    { intros my ey.
      destruct (SFadd_pos_rounded my me ey ee) as (u & [Hu Hunit] & Hr).
      assert (Hy : (0 < F2R (Zpos my) ey)%R).
      { unfold F2R. apply Rmult_lt_0_compat; [apply IZR_lt; lia | apply pow2_pos]. }
      destruct (SFadd prec emax (S754_finite false my ey) (S754_finite false me ee))
        as [s' | s' | | s' m' e']; cbn in Hr; try contradiction.
      - exfalso. destruct Hr as [_ Hlt]. destruct Hunit as [Hrel | ->]; [|lra].
        assert (powerRZ 2 (1 - prec) < 1)%R.
        { change 1%R with (powerRZ 2 0). apply pow2_lt. lia. }
        pose proof (pow2_pos (1 - prec)).
        assert ((F2R (Zpos my) ey + F2R (Zpos me) ee) * powerRZ 2 (1 - prec)
                < F2R (Zpos my) ey + F2R (Zpos me) ee)%R by nra.
        lra.
      - subst s'. exists me, ee. now right.
      - destruct Hr as [-> _]. exists m', e'. now left. }
    destruct (SFadd_pos_rounded m m e e) as (u & _ & Hr).
    destruct (SFadd prec emax (S754_finite false m e) (S754_finite false m e))
      as [s' | s' | | s' my ey]; cbn in Hr; try contradiction.
    + exists me, ee. now left.
    + subst s'. exists me, ee. now right.
    + destruct Hr as [-> _]. apply Hlast.
Qed.

End SumAndDifference.

Lemma lit_1e_10_is : lit_1e_10 = S754_finite false 7737125245533627 (-86).
Proof. reflexivity. Qed.

Lemma f32_lit_1e_10_is : f32 lit_1e_10 = S754_finite false 14411519 (-57).
Proof. reflexivity. Qed.

Lemma above_least (prec emax : Z) (m : positive) (e : Z) :
  emin prec emax < e -> (powerRZ 2 (emin prec emax) < F2R (Zpos m) e)%R.
Proof.
  intros He. apply Rlt_le_trans with (powerRZ 2 e); [now apply pow2_lt|].
  unfold F2R. pose proof (pow2_pos e).
  assert (1 <= IZR (Zpos m))%R by (apply IZR_le; lia). nra.
Qed.

(** NDVI of equal finite bands that are not negative is [+0], per point
    and per pixel. *)
Lemma ndvi_of_equal (x : float) :
  is_finite x = true -> sign_of x = false ->
  point_ndvi x x = Ok fzero /\ pixel_ndvi x x = fzero.
Proof.
  intros Hfin Hsign. split.
  - unfold point_ndvi, float_truediv, fadd, fsub, fdiv. cbn [prec emax binary64].
    rewrite lit_1e_10_is.
    destruct (ratio_of_equal 53 1024 ltac:(lia) x 7737125245533627 (-86) Hfin Hsign)
      as [Hnz Hq].
    + apply above_least. unfold emin. lia.
    + cbv zeta in Hnz, Hq. now rewrite Hnz, Hq.
  - unfold pixel_ndvi, fadd, fsub, fdiv. cbn [prec emax binary32].
    rewrite f32_lit_1e_10_is.
    destruct (ratio_of_equal 24 128 ltac:(lia) x 14411519 (-57) Hfin Hsign)
      as [Hnz Hq].
    + apply above_least. unfold emin. lia.
    + exact Hq.
Qed.

(** *** Equal bands of either sign *)

Section Doubling.
Variables prec emax : Z.
Hypothesis prec_gt_1 : 1 < prec.

(** A float plus itself: the same mantissa one exponent up, the doubled
    mantissa of a subnormal, or an infinity. *)
Lemma SFadd_same (s : bool) (m : positive) (e : Z) :
  canonical_mantissa prec emax m e = true ->
  let d := SFadd prec emax (S754_finite s m e) (S754_finite s m e) in
  (d = S754_finite s m (e + 1) /\ canonical_mantissa prec emax m (e + 1) = true)
  \/ (d = S754_finite s m~0 e /\ canonical_mantissa prec emax m~0 e = true)
  \/ d = S754_infinity s.
Proof.
  intros Hcan d. subst d. unfold canonical_mantissa in *.
  apply Z.eqb_eq in Hcan. unfold SpecFloat.fexp in Hcan.
  cbn [SFadd]. rewrite Z.min_id. unfold shl_align. rewrite Z.sub_diag. cbn [fst].
  assert (Hsum : cond_Zopp s (Zpos m) + cond_Zopp s (Zpos m) = cond_Zopp s (Zpos m~0))
    by (destruct s; cbn; now rewrite Pos.add_diag).
  rewrite Hsum.
  assert (Hnorm : binary_normalize prec emax (cond_Zopp s (Zpos m~0)) e false
                  = binary_round prec emax s m~0 e) by now destruct s.
  rewrite Hnorm. unfold binary_round, shl_align.
  change (digits2_pos m~0) with (Pos.succ (digits2_pos m)).
  set (D := Zpos (digits2_pos m)) in *.
  replace (Zpos (Pos.succ (digits2_pos m))) with (D + 1) by (unfold D; lia).
  unfold SpecFloat.fexp.
  destruct (Z.eq_dec (Z.max (D + 1 + e - prec) (emin prec emax)) e) as [Hsub | Hnor].
  - (* the double of a subnormal *)
    rewrite Hsub, Z.sub_diag. unfold binary_round_aux, shr_fexp, SpecFloat.fexp.
    cbn [Zdigits2 digits2_pos]. fold D.
    replace (Zpos (Pos.succ (digits2_pos m))) with (D + 1) by (unfold D; lia).
    rewrite Hsub, Z.sub_diag. cbn [shr shr_record_of_loc shr_m loc_of_shr_record
                                    round_nearest_even Zdigits2 digits2_pos].
    replace (Zpos (Pos.succ (digits2_pos m))) with (D + 1) by (unfold D; lia).
    rewrite Hsub, Z.sub_diag. cbn [shr shr_m].
    destruct (Z.leb e (emax - prec)); auto.
    right. left. split; [reflexivity|]. now apply Z.eqb_eq.
  - (* a normal float *)
    assert (Hup : Z.max (D + 1 + e - prec) (emin prec emax) = e + 1) by lia.
    rewrite Hup. replace (e + 1 - e) with 1 by lia.
    unfold binary_round_aux, shr_fexp, SpecFloat.fexp.
    cbn [Zdigits2 digits2_pos].
    replace (Zpos (Pos.succ (digits2_pos m))) with (D + 1) by (unfold D; lia).
    rewrite Hup. replace (e + 1 - e) with 1 by lia.
    cbn [shr shr_record_of_loc iter_pos shr_1 shr_m shr_r shr_s orb loc_of_shr_record
         round_nearest_even Zdigits2].
    fold D. replace (Z.max (D + (e + 1) - prec) (emin prec emax)) with (e + 1) by lia.
    rewrite Z.sub_diag. cbn [shr shr_m].
    destruct (Z.leb (e + 1) (emax - prec)); auto.
    left. split; [reflexivity|]. apply Z.eqb_eq. lia.
Qed.

(** Canonical mantissas of the same value are the same. *)
Lemma canonical_unique (m1 m2 : positive) (e1 e2 : Z) :
  canonical_mantissa prec emax m1 e1 = true ->
  canonical_mantissa prec emax m2 e2 = true ->
  F2R (Zpos m1) e1 = F2R (Zpos m2) e2 ->
  m1 = m2 /\ e1 = e2.
Proof.
  intros H1 H2 Hv.
  assert (He : e1 = e2).
  { destruct (Z.lt_trichotomy e1 e2) as [Hlt | [Heq | Hgt]]; [|assumption|].
    - pose proof (canonical_lt_exp prec emax ltac:(lia) m1 m2 e1 e2 H1 H2 Hlt). lra.
    - pose proof (canonical_lt_exp prec emax ltac:(lia) m2 m1 e2 e1 H2 H1 ltac:(lia)). lra. }
  split; [|assumption]. subst e2. unfold F2R in Hv.
  pose proof (pow2_pos e1).
  assert (Hm : IZR (Zpos m1) = IZR (Zpos m2)) by nra.
  apply eq_IZR in Hm. congruence.
Qed.

(** Rounding a significand at an exponent of the format gives neither a
    zero nor a NaN. *)
Lemma binary_round_nonzero (s : bool) (m : positive) (e : Z) :
  emin prec emax <= e ->
  is_zero (binary_round prec emax s m e) = false
  /\ is_nan (binary_round prec emax s m e) = false.
Proof.
  intros He.
  destruct (binary_round_rounded prec emax ltac:(lia) s m e) as (u & [Hu Hunit] & Hr).
  assert (Hx : (powerRZ 2 (emin prec emax) <= F2R (Zpos m) e)%R).
  { apply Rle_trans with (powerRZ 2 e); [now apply pow2_le|].
    unfold F2R. pose proof (pow2_pos e).
    assert (1 <= IZR (Zpos m))%R by (apply IZR_le; lia). nra. }
  pose proof (pow2_pos (emin prec emax)).
  destruct (binary_round prec emax s m e) as [s' | s' | | s' m' e'];
    cbn in Hr; cbn [is_zero is_nan]; try contradiction; auto.
  exfalso. destruct Hr as [_ Hlt]. destruct Hunit as [Hrel | ->]; [|lra].
  assert (powerRZ 2 (1 - prec) < 1)%R.
  { change 1%R with (powerRZ 2 0). apply pow2_lt. lia. }
  pose proof (pow2_pos (1 - prec)). nra.
Qed.

(** The sum of two floats of one sign is neither a zero nor a NaN. *)
Lemma SFadd_same_sign (s : bool) (m1 m2 : positive) (e1 e2 : Z) :
  canonical_mantissa prec emax m1 e1 = true ->
  canonical_mantissa prec emax m2 e2 = true ->
  let r := SFadd prec emax (S754_finite s m1 e1) (S754_finite s m2 e2) in
  is_zero r = false /\ is_nan r = false.
Proof.
  intros H1 H2 r. subst r. cbn [SFadd].
  destruct (canonical_digits prec emax _ _ H1) as (_ & _ & Hmin1).
  destruct (canonical_digits prec emax _ _ H2) as (_ & _ & Hmin2).
  destruct s; cbn [cond_Zopp Z.opp Z.add binary_normalize];
    apply binary_round_nonzero; lia.
Qed.

(** The sum of a negative and a positive float is never a NaN, and it is
    a zero only when the two have the same magnitude. *)
Lemma SFadd_opposite (m1 m2 : positive) (e1 e2 : Z) :
  canonical_mantissa prec emax m1 e1 = true ->
  canonical_mantissa prec emax m2 e2 = true ->
  let r := SFadd prec emax (S754_finite true m1 e1) (S754_finite false m2 e2) in
  is_nan r = false /\ (is_zero r = true -> m1 = m2 /\ e1 = e2).
Proof.
  intros H1 H2 r. subst r. cbn [SFadd cond_Zopp].
  pose proof (shl_align_spec m1 e1 (Z.min e1 e2)) as Ha.
  pose proof (shl_align_spec m2 e2 (Z.min e1 e2)) as Hb.
  destruct (shl_align m1 e1 (Z.min e1 e2)) as [a ea].
  destruct (shl_align m2 e2 (Z.min e1 e2)) as [b eb].
  destruct Ha as (Hva & Hea & _). destruct Hb as (Hvb & Heb & _).
  destruct (Hea ltac:(lia)) as [-> _]. destruct (Heb ltac:(lia)) as [-> _].
  cbn [fst].
  destruct (canonical_digits prec emax _ _ H1) as (_ & _ & Hmin1).
  destruct (canonical_digits prec emax _ _ H2) as (_ & _ & Hmin2).
  destruct (- Zpos a + Zpos b) as [|p|p] eqn:Hsum; cbn [binary_normalize].
  - split; [reflexivity|]. intros _.
    assert (Hab : a = b) by lia. subst b.
    apply canonical_unique; [assumption | assumption | congruence].
  - destruct (binary_round_nonzero false p (Z.min e1 e2) ltac:(lia)) as (Hz & Hn).
    split; [assumption|]. rewrite Hz. discriminate.
  - destruct (binary_round_nonzero true p (Z.min e1 e2) ltac:(lia)) as (Hz & Hn).
    split; [assumption|]. rewrite Hz. discriminate.
Qed.

(** The quotient of [x - x] by [x + x + eps] for a float [x] of the
    format and a positive [eps] with an odd significand: unless [x] is
    [- eps / 2] the denominator is neither a zero nor a NaN, and the
    quotient is a zero with the sign of the denominator. *)
Lemma ratio_of_equal_finite (x : float) (me : positive) (ee : Z) :
  is_finite x = true ->
  valid_binary prec emax x = true ->
  canonical_mantissa prec emax me~1 ee = true ->
  x <> S754_finite true me~1 (ee - 1) ->
  let d := SFadd prec emax (SFadd prec emax x x) (S754_finite false me~1 ee) in
  is_zero d = false
  /\ is_nan d = false
  /\ SFdiv prec emax (SFsub prec emax x x) d = S754_zero (sign_of d).
Proof.
  intros Hfin Hvalid Heps Hx d. rewrite (SFsub_same prec emax x Hfin).
  enough (Hd : is_zero d = false /\ is_nan d = false).
  { destruct Hd as [Hz Hn]. split; [assumption|]. split; [assumption|].
    destruct d as [s | s | | s m e]; try discriminate; reflexivity. }
  subst d. destruct x as [s | | | s m e]; try discriminate.
  - destruct s; split; reflexivity.
  - cbn [valid_binary] in Hvalid. unfold bounded in Hvalid.
    apply andb_prop in Hvalid as [Hcan Hbound].
    assert (Hlast : forall md ed,
               canonical_mantissa prec emax md ed = true ->
               (s = true -> (md, ed) <> (me~1, ee)%positive) ->
               is_zero (SFadd prec emax (S754_finite s md ed)
                          (S754_finite false me~1 ee)) = false
               /\ is_nan (SFadd prec emax (S754_finite s md ed)
                            (S754_finite false me~1 ee)) = false).
    { intros md ed Hd Hne. destruct s.
      - destruct (SFadd_opposite md me~1 ed ee Hd Heps) as [Hn Hz].
        split; [|assumption].
        destruct (is_zero (SFadd prec emax (S754_finite true md ed)
                             (S754_finite false me~1 ee))); [|reflexivity].
        destruct (Hz eq_refl) as [-> ->]. now contradiction (Hne eq_refl).
      - now apply SFadd_same_sign. }
    destruct (SFadd_same s m e Hcan) as [[Hd Hc] | [[Hd Hc] | Hd]];
      cbv zeta in Hd; rewrite Hd.
    + apply Hlast; [exact Hc|].
      intros -> [= -> He]. apply Hx. f_equal. lia.
    + apply Hlast; [exact Hc|]. intros _. discriminate.
    + split; reflexivity.
Qed.

End Doubling.

(** NDVI of equal bands, per point: a zero with the sign of the
    denominator for every finite binary64 value but [- eps / 2], and a
    NaN for a band that is not finite. *)
Lemma point_ndvi_of_equal (x : float) :
  let d := fadd binary64 (fadd binary64 x x) lit_1e_10 in
  (is_finite x = true -> valid_binary 53 1024 x = true ->
   x <> S754_finite true 7737125245533627 (-87) ->
   is_zero d = false /\ is_nan d = false
   /\ point_ndvi x x = Ok (S754_zero (sign_of d)))
  /\ (is_finite x = false -> point_ndvi x x = Ok S754_nan).
Proof.
  intros d. split.
  - intros Hfin Hvalid Hx.
    destruct (ratio_of_equal_finite 53 1024 ltac:(lia) x 3868562622766813 (-86)
                Hfin Hvalid eq_refl Hx) as (Hz & Hn & Hq).
    cbv zeta in Hz, Hn, Hq.
    unfold point_ndvi, float_truediv. subst d. unfold fadd, fsub, fdiv.
    cbn [prec emax binary64]. rewrite lit_1e_10_is.
    change (3868562622766813~1)%positive with 7737125245533627%positive in *.
    rewrite Hz, Hq. auto.
  - destruct x as [s | [] | | s m e]; try discriminate; reflexivity.
Qed.

(** NDVI of equal bands, per pixel. *)
Lemma pixel_ndvi_of_equal (x : float) :
  let d := fadd binary32 (fadd binary32 x x) (f32 lit_1e_10) in
  (is_finite x = true -> valid_binary 24 128 x = true ->
   x <> S754_finite true 14411519 (-58) ->
   is_zero d = false /\ is_nan d = false
   /\ pixel_ndvi x x = S754_zero (sign_of d))
  /\ (is_finite x = false -> pixel_ndvi x x = S754_nan).
Proof.
  intros d. split.
  - intros Hfin Hvalid Hx.
    destruct (ratio_of_equal_finite 24 128 ltac:(lia) x 7205759 (-57)
                Hfin Hvalid eq_refl Hx) as (Hz & Hn & Hq).
    cbv zeta in Hz, Hn, Hq.
    unfold pixel_ndvi. subst d. unfold fadd, fsub, fdiv.
    cbn [prec emax binary32]. rewrite f32_lit_1e_10_is.
    change (7205759~1)%positive with 14411519%positive in *.
    auto.
  - destruct x as [s | [] | | s m e]; try discriminate; reflexivity.
Qed.

Lemma zip_with_rows (f : float -> float -> float) (k i j : nat) (pixels : matrix) :
  column pixels k = zip_with f (column pixels i) (column pixels j) ->
  forall row, In row pixels -> nth k row fzero = f (nth i row fzero) (nth j row fzero).
Proof.
  unfold column. induction pixels as [|r pixels IH]; cbn [map zip_with].
  - contradiction.
  - intros [= Hhead Htail] row [<- | Hin]; auto.
Qed.

Lemma zip_with_rows3 (f : float -> float -> float -> float) (k i j l : nat)
    (pixels : matrix) :
  column pixels k
  = zip_with (fun ab c => f (fst ab) (snd ab) c)
             (combine (column pixels i) (column pixels j)) (column pixels l) ->
  forall row, In row pixels ->
    nth k row fzero = f (nth i row fzero) (nth j row fzero) (nth l row fzero).
Proof.
  unfold column. induction pixels as [|r pixels IH]; cbn [map zip_with combine].
  - contradiction.
  - intros [= Hhead Htail] row [<- | Hin]; auto.
Qed.

(** C7, as the code has it: the four indices of a feature vector are the
    functions [point_ndvi], [point_ndwi], [point_ndbi] and [point_evi]
    (per pixel: [pixel_ndvi] and the others) of its band values, which
    evaluate the formulas in floating point with the double nearest to
    1e-10.  For equal finite nir and red NDVI is a zero, with the sign
    of the denominator nir + red + eps, on both paths: [+0] for bands
    that are not negative, and so for nir = 0 and red = 0, where nothing
    is divided by zero.  The one exception is nir = red = -eps/2, where
    the denominator is zero; for equal bands that are not finite NDVI
    is NaN. *)
Theorem spectral_indices_of_bands :
  (forall band_values features,
      build_features true band_values = Ok features ->
      let v i := nth i features fzero in
      point_ndvi (v 3%nat) (v 0%nat) = Ok (v 6%nat)
      /\ point_ndwi (v 1%nat) (v 3%nat) = Ok (v 7%nat)
      /\ point_ndbi (v 4%nat) (v 3%nat) = Ok (v 8%nat)
      /\ point_evi (v 3%nat) (v 0%nat) (v 2%nat) = Ok (v 9%nat))
  /\ (forall bands h w pixels row,
        build_pixels true bands h w = Ok pixels ->
        In row pixels ->
        let v i := nth i row fzero in
        v 6%nat = pixel_ndvi (v 3%nat) (v 0%nat)
        /\ v 7%nat = pixel_ndwi (v 1%nat) (v 3%nat)
        /\ v 8%nat = pixel_ndbi (v 4%nat) (v 3%nat)
        /\ v 9%nat = pixel_evi (v 3%nat) (v 0%nat) (v 2%nat))
  /\ (forall a b c,
        let eps := S754_finite false 7737125245533627 (-86) in
        let add := fadd binary64 in
        let sub := fsub binary64 in
        let mul := fmul binary64 in
        let int n := float_of_Z binary64 n in
        point_ndvi a b = float_truediv (sub a b) (add (add a b) eps)
        /\ point_ndwi a b = float_truediv (sub a b) (add (add a b) eps)
        /\ point_ndbi a b = float_truediv (sub a b) (add (add a b) eps)
        /\ point_evi a b c
           = float_truediv (mul lit_2_5 (sub a b))
               (add (sub (add a (mul (int 6) b)) (mul lit_7_5 c)) (int 10000)))
  /\ (forall a b c,
        let eps := S754_finite false 14411519 (-57) in
        let add := fadd binary32 in
        let sub := fsub binary32 in
        let mul := fmul binary32 in
        let div := fdiv binary32 in
        let int n := float_of_Z binary32 n in
        pixel_ndvi a b = div (sub a b) (add (add a b) eps)
        /\ pixel_ndwi a b = div (sub a b) (add (add a b) eps)
        /\ pixel_ndbi a b = div (sub a b) (add (add a b) eps)
        /\ pixel_evi a b c
           = div (mul (f32 lit_2_5) (sub a b))
               (add (sub (add a (mul (int 6) b)) (mul (f32 lit_7_5) c)) (int 10000)))
  /\ (forall x,
        is_finite x = true -> sign_of x = false ->
        point_ndvi x x = Ok fzero /\ pixel_ndvi x x = fzero)
  /\ point_ndvi fzero fzero = Ok fzero
  /\ pixel_ndvi fzero fzero = fzero
  /\ (forall x,
        is_finite x = true ->
        valid_binary 53 1024 x = true ->
        x <> S754_finite true 7737125245533627 (-87) ->
        let d := fadd binary64 (fadd binary64 x x) lit_1e_10 in
        is_zero d = false
        /\ is_nan d = false
        /\ point_ndvi x x = Ok (S754_zero (sign_of d)))
  /\ (forall x,
        is_finite x = true ->
        valid_binary 24 128 x = true ->
        x <> S754_finite true 14411519 (-58) ->
        let d := fadd binary32 (fadd binary32 x x) (f32 lit_1e_10) in
        is_zero d = false
        /\ is_nan d = false
        /\ pixel_ndvi x x = S754_zero (sign_of d))
  /\ (forall x,
        is_finite x = false ->
        point_ndvi x x = Ok S754_nan /\ pixel_ndvi x x = S754_nan).
Proof.
  split; [|split; [|split; [|split; [|split; [|split; [|split; [|split; [|split]]]]]]]].
  - intros band_values features Hf v.
    apply build_features_layout in Hf as [_ Hbands Hind].
    destruct (Hind eq_refl) as (ndvi & ndwi & ndbi & evi & H1 & H2 & H3 & H4 & Hrest).
    assert (Hfeat : features = firstn 6 features ++ skipn 6 features)
      by (symmetry; apply firstn_skipn).
    rewrite Hbands, Hrest in Hfeat. subst v. rewrite Hfeat. cbn [map app nth].
    auto.
  - intros bands h w pixels row Hp Hrow v.
    apply build_pixels_columns in Hp as [_ _ _ _ _ _ _ _ H6 H7 H8 H9].
    subst v. repeat split.
    + now apply (zip_with_rows pixel_ndvi 6 3 0 pixels (H6 eq_refl)).
    + now apply (zip_with_rows pixel_ndwi 7 1 3 pixels (H7 eq_refl)).
    + now apply (zip_with_rows pixel_ndbi 8 4 3 pixels (H8 eq_refl)).
    + now apply (zip_with_rows3 pixel_evi 9 3 0 2 pixels (H9 eq_refl)).
  - intros a b c. cbv zeta.
    unfold point_ndvi, point_ndwi, point_ndbi, point_evi.
    now rewrite lit_1e_10_is.
  - intros a b c. cbv zeta.
    unfold pixel_ndvi, pixel_ndwi, pixel_ndbi, pixel_evi.
    now rewrite f32_lit_1e_10_is.
  - apply ndvi_of_equal.
  - reflexivity.
  - reflexivity.
  - intros x. apply (proj1 (point_ndvi_of_equal x)).
  - intros x. apply (proj1 (pixel_ndvi_of_equal x)).
  - intros x Hx. split.
    + now apply (proj2 (point_ndvi_of_equal x)).
    + now apply (proj2 (pixel_ndvi_of_equal x)).
Qed.

Lemma spectral_indices_of_bands_witness :
  (point_ndvi (Demo.num 3110) (Demo.num 3110) = Ok fzero
   /\ pixel_ndvi (Demo.num 3110) (Demo.num 3110) = fzero)
  /\ point_ndvi (Demo.num (-1)) (Demo.num (-1)) = Ok (S754_zero true)
  /\ pixel_ndvi (f32 (Demo.num (-1))) (f32 (Demo.num (-1))) = S754_zero true
  /\ point_ndvi (S754_zero true) (S754_zero true) = Ok fzero.
Proof.
  split; [|split; [|split]].
  - apply (proj1 (proj2 (proj2 (proj2 (proj2 spectral_indices_of_bands))))
             (Demo.num 3110));
      reflexivity.
  - apply (proj1 (proj2 (proj2 (proj2 (proj2 (proj2 (proj2
             (proj2 spectral_indices_of_bands)))))))
             (Demo.num (-1)));
      [reflexivity | reflexivity | discriminate].
  - apply (proj1 (proj2 (proj2 (proj2 (proj2 (proj2 (proj2 (proj2
             (proj2 spectral_indices_of_bands))))))))
             (f32 (Demo.num (-1))));
      [reflexivity | reflexivity | discriminate].
  - apply (proj1 (proj2 (proj2 (proj2 (proj2 (proj2 (proj2
             (proj2 spectral_indices_of_bands)))))))
             (S754_zero true));
      [reflexivity | reflexivity | discriminate].
Defined.

(** C7 as stated fails for equal bands in general: for nir = red = -eps/2
    (a binary64 value) the denominator nir + red + eps is zero and the
    point path raises [ZeroDivisionError]; the same happens per pixel in
    binary32, where the quotient is NaN; and equal infinite bands give
    NaN. *)
Lemma ndvi_of_equal_negative_bands :
  let x := S754_finite true 7737125245533627 (-87) in
  let y := S754_finite true 14411519 (-58) in
  valid_binary 53 1024 x = true
  /\ point_ndvi x x = Err ZeroDivisionError
  /\ valid_binary 24 128 y = true
  /\ pixel_ndvi y y = S754_nan
  /\ point_ndvi (S754_infinity false) (S754_infinity false) = Ok S754_nan.
Proof. repeat split; reflexivity. Qed.

(** ** The arithmetic on concrete values *)

Example third_of_one : int_truediv 1 3 = Ok (S754_finite false 6004799503160661 (-54)).
Proof. reflexivity. Qed.

Example output_size_2500_1200 :
  output_size {| col_off := 0; row_off := 0; width := 2500; height := 1200 |}
  = Ok (1000, 480).
Proof. reflexivity. Qed.

(** Rounding can make the longer side one pixel shorter than [MAX_DIM]:
    1070 / 1000 rounds up, and 1070 divided by it falls below 1000. *)
Example output_size_1070_500 :
  output_size {| col_off := 0; row_off := 0; width := 1070; height := 500 |}
  = Ok (999, 467).
Proof. reflexivity. Qed.

Example output_size_small :
  output_size {| col_off := 0; row_off := 0; width := 600; height := 400 |}
  = Ok (600, 400).
Proof. reflexivity. Qed.

(** The denominator of EVI has no guard term: at nir = 5000, red = 0 and
    blue = 2000 it is 5000 + 0 - 15000 + 10000 = 0, and the division of
    the sampling path raises. *)
Example evi_zero_denominator :
  point_evi (Demo.num 5000) fzero (Demo.num 2000) = Err ZeroDivisionError.
Proof. vm_compute. reflexivity. Qed.

(** * Further properties of the pipeline *)

(** ** The sampling loop *)

(** What one iteration of the loop does to the training set. *)
Lemma sample_training_point_step (w : World) (coll : string) (incl : bool)
    (band_urls : PyDict.dict string) (ts : TrainingSet) (point : TrainingPoint) :
  exists band_values,
    outcome_of (sample_with_fallback w coll band_urls (lon point) (lat point))
      = Ok band_values
    /\ outcome_of (sample_training_point w coll incl band_urls ts point)
       = Ok (if 4 <=? PyDict.len band_values then
               match build_features incl band_values with
               | Ok features => add_sample ts features (label point)
               | Err _ => ts
               end
             else ts).
Proof.
  destruct (sample_with_fallback_returns w coll band_urls (lon point) (lat point))
    as [bv Hbv].
  exists bv. split; [assumption|].
  unfold sample_training_point. rewrite outcome_try, outcome_bind, Hbv.
  destruct (4 <=? PyDict.len bv); [|reflexivity].
  rewrite outcome_bind. unfold lift, outcome_of at 2. cbn [snd].
  destruct (build_features incl bv); reflexivity.
Qed.

Lemma sample_training_points_cons (w : World) (coll : string) (incl : bool)
    (band_urls : PyDict.dict string) (ts ts1 : TrainingSet) (point : TrainingPoint)
    (rest : list TrainingPoint) :
  outcome_of (sample_training_point w coll incl band_urls ts point) = Ok ts1 ->
  outcome_of (sample_training_points w coll incl band_urls (point :: rest) ts)
  = outcome_of (sample_training_points w coll incl band_urls rest ts1).
Proof.
  intros H. cbn [sample_training_points]. now rewrite outcome_bind, H.
Qed.

Lemma sampling_invariant (w : World) (coll : string) (incl : bool)
    (band_urls : PyDict.dict string) (points : list TrainingPoint) :
  forall ts0,
    exists ts kept,
      outcome_of (sample_training_points w coll incl band_urls points ts0) = Ok ts
      /\ List.length kept = List.length points
      /\ labels ts = labels ts0 ++ select (map label points) kept
      /\ List.length (feature_matrix ts)
         = (List.length (feature_matrix ts0) + count_true kept)%nat.
Proof.
  induction points as [|point rest IH]; intros ts0.
  - exists ts0, []. cbn. rewrite app_nil_r. repeat split; lia.
  - destruct (sample_training_point_step w coll incl band_urls ts0 point)
      as (bv & _ & Hstep).
    rewrite (sample_training_points_cons _ _ _ _ _ _ _ _ Hstep).
    match type of Hstep with _ = Ok ?t => set (ts1 := t) in * end.
    destruct (IH ts1) as (ts & kept & Hrun & Hlen & Hlabels & Hrows).
    assert (Hcase : (labels ts1 = labels ts0
                     /\ feature_matrix ts1 = feature_matrix ts0)
                    \/ exists f, ts1 = add_sample ts0 f (label point)).
    { unfold ts1. destruct (4 <=? PyDict.len bv); [|now left].
      destruct (build_features incl bv) as [f|]; [right; now exists f | now left]. }
    destruct Hcase as [[Hl Hf] | [f Hadd]].
    + exists ts, (false :: kept). rewrite Hrun, Hlabels, Hrows, Hl, Hf.
      cbn [List.length map select]. rewrite count_true_cons. repeat split; lia.
    + exists ts, (true :: kept). rewrite Hrun, Hlabels, Hrows, Hadd.
      cbn [List.length map select add_sample labels feature_matrix].
      rewrite count_true_cons, <- app_assoc, length_app. cbn [List.length app].
      repeat split; lia.
Qed.

Lemma length_select {A} (rows : list A) :
  forall mask, List.length rows = List.length mask ->
               List.length (select rows mask) = count_true mask.
Proof.
  induction rows as [|r rows IH]; intros [|[] mask]; cbn [select List.length];
    try discriminate; intros H; rewrite ?count_true_cons; auto.
Qed.

Lemma count_true_le (mask : list bool) : (count_true mask <= List.length mask)%nat.
Proof. unfold count_true. apply filter_length_le. Qed.

(** The loop is a filter over the training points: each point is sampled
    on its own, and its row and label are appended when the sample has
    at least 4 bands and the feature vector could be built. *)
Lemma sampling_is_a_filter (w : World) (coll : string) (incl : bool)
    (band_urls : PyDict.dict string) (points : list TrainingPoint) :
  let row point :=
    match outcome_of (sample_with_fallback w coll band_urls (lon point) (lat point)) with
    | Ok band_values =>
        if 4 <=? PyDict.len band_values then
          match build_features incl band_values with
          | Ok features => Some features
          | Err _ => None
          end
        else None
    | Err _ => None
    end in
  forall ts0 ts,
    outcome_of (sample_training_points w coll incl band_urls points ts0) = Ok ts ->
    feature_matrix ts
    = feature_matrix ts0
      ++ flat_map (fun point => match row point with
                                | Some features => [features]
                                | None => []
                                end) points
    /\ labels ts
       = labels ts0
         ++ flat_map (fun point => match row point with
                                   | Some _ => [label point]
                                   | None => []
                                   end) points.
Proof.
  intros row. subst row. induction points as [|point rest IH]; intros ts0 ts.
  - cbn. intros [= <-]. now rewrite !app_nil_r.
  - destruct (sample_training_point_step w coll incl band_urls ts0 point)
      as (bv & Hbv & Hstep).
    rewrite (sample_training_points_cons _ _ _ _ _ _ _ _ Hstep).
    intros Hrest. apply IH in Hrest as [Hrows Hlabels].
    rewrite Hrows, Hlabels. cbn [flat_map]. rewrite Hbv.
    destruct (4 <=? PyDict.len bv); [|now rewrite !app_nil_l].
    destruct (build_features incl bv) as [f|]; [|now rewrite !app_nil_l].
    cbn [add_sample feature_matrix labels]. now rewrite <- !app_assoc.
Qed.

(** X1: when the sampling loop has gone through the training points, its
    feature matrix holds, in the order of the points, the feature
    vector of every point whose sample had at least 4 bands and whose
    vector could be built, and its labels are the labels of these
    points: the labels of the kept points in their order, one row per
    kept label, never more rows than training points. *)
Theorem sampled_rows_follow_the_training_points (w : World) (coll : string)
    (incl : bool) (band_urls : PyDict.dict string) (points : list TrainingPoint)
    (ts : TrainingSet) :
  outcome_of (sample_training_points w coll incl band_urls points no_samples) = Ok ts ->
  let row point :=
    match outcome_of (sample_with_fallback w coll band_urls (lon point) (lat point)) with
    | Ok band_values =>
        if 4 <=? PyDict.len band_values then
          match build_features incl band_values with
          | Ok features => Some features
          | Err _ => None
          end
        else None
    | Err _ => None
    end in
  feature_matrix ts
  = flat_map (fun point => match row point with
                           | Some features => [features]
                           | None => []
                           end) points
  /\ labels ts
     = flat_map (fun point => match row point with
                              | Some _ => [label point]
                              | None => []
                              end) points
  /\ exists kept,
       List.length kept = List.length points
       /\ labels ts = select (map label points) kept
       /\ List.length (feature_matrix ts) = List.length (labels ts)
       /\ (List.length (feature_matrix ts) <= List.length points)%nat.
Proof.
  intros Hts row.
  destruct (sampling_is_a_filter w coll incl band_urls points no_samples ts Hts)
    as [Hrows Hlabels].
  split; [exact Hrows|]. split; [exact Hlabels|].
  destruct (sampling_invariant w coll incl band_urls points no_samples)
    as (ts' & kept & Hrun & Hlen & Hkept & Hcount).
  rewrite Hts in Hrun. injection Hrun as <-.
  cbn [no_samples labels feature_matrix app List.length Nat.add] in Hkept, Hcount.
  exists kept. repeat split; try assumption.
  - rewrite Hcount, Hkept, length_select; [reflexivity|].
    rewrite length_map. lia.
  - rewrite Hcount, <- Hlen. apply count_true_le.
Qed.

Lemma sampled_rows_follow_the_training_points_witness :
  List.length (feature_matrix (demo_training_set Demo.two_classes)) = 5%nat
  /\ labels (demo_training_set Demo.two_classes) = [1; 1; 2; 2; 1]
  /\ exists kept,
       List.length kept = List.length Demo.two_classes
       /\ labels (demo_training_set Demo.two_classes)
          = select (map label Demo.two_classes) kept
       /\ List.length (feature_matrix (demo_training_set Demo.two_classes))
          = List.length (labels (demo_training_set Demo.two_classes))
       /\ (List.length (feature_matrix (demo_training_set Demo.two_classes))
           <= List.length Demo.two_classes)%nat.
Proof.
  assert (Hts : outcome_of (sample_training_points Demo.world "sentinel-2-l2a" true
                              (get_band_urls_for_item Demo.world
                                 (Demo.scene "primary/" Demo.all_bands))
                              Demo.two_classes no_samples)
                = Ok (demo_training_set Demo.two_classes))
    by (vm_compute; reflexivity).
  destruct (sampled_rows_follow_the_training_points Demo.world "sentinel-2-l2a" true
              (get_band_urls_for_item Demo.world (Demo.scene "primary/" Demo.all_bands))
              Demo.two_classes (demo_training_set Demo.two_classes) Hts)
    as (Hrows & Hlabels & Hkept).
  split; [rewrite Hrows; vm_compute; reflexivity|].
  split; [rewrite Hlabels; vm_compute; reflexivity|].
  exact Hkept.
Defined.

(** ** The set of sampled classes and its sorted listing *)

Lemma in_set_add (x y : Z) (s : list Z) : In y (set_add x s) <-> y = x \/ In y s.
Proof.
  unfold set_add. destruct (existsb (Z.eqb x) s) eqn:E.
  - apply existsb_exists in E as (z & Hz & Hxz). apply Z.eqb_eq in Hxz. subst z.
    split; [auto | intros [-> | H]; assumption].
  - rewrite in_app_iff. cbn [In]. intuition congruence.
Qed.

Lemma nodup_set_add (x : Z) (s : list Z) : NoDup s -> NoDup (set_add x s).
Proof.
  intros Hs. unfold set_add. destruct (existsb (Z.eqb x) s) eqn:E; [assumption|].
  apply NoDup_app; [assumption | repeat constructor; intros [] |].
  intros y Hy [Heq | []]. subst y.
  assert (Hex : existsb (Z.eqb x) s = true).
  { apply existsb_exists. exists x. split; [assumption | apply Z.eqb_refl]. }
  congruence.
Qed.

Lemma classes_invariant (w : World) (coll : string) (incl : bool)
    (band_urls : PyDict.dict string) (points : list TrainingPoint) :
  forall ts0 ts,
    NoDup (sampled_classes ts0) ->
    (forall l, In l (sampled_classes ts0) <-> In l (labels ts0)) ->
    outcome_of (sample_training_points w coll incl band_urls points ts0) = Ok ts ->
    NoDup (sampled_classes ts)
    /\ (forall l, In l (sampled_classes ts) <-> In l (labels ts)).
Proof.
  induction points as [|point rest IH]; intros ts0 ts Hnd Hin.
  - cbn. intros [= <-]. auto.
  - destruct (sample_training_point_step w coll incl band_urls ts0 point)
      as (bv & _ & Hstep).
    rewrite (sample_training_points_cons _ _ _ _ _ _ _ _ Hstep).
    apply IH.
    + destruct (4 <=? PyDict.len bv); [|assumption].
      destruct (build_features incl bv); [|assumption].
      cbn [add_sample sampled_classes]. now apply nodup_set_add.
    + destruct (4 <=? PyDict.len bv); [|assumption].
      destruct (build_features incl bv); [|assumption].
      cbn [add_sample sampled_classes labels]. intros l.
      rewrite in_set_add, in_app_iff, Hin. cbn [In]. intuition congruence.
Qed.

Lemma in_insert_sorted (x y : Z) (l : list Z) :
  In y (insert_sorted x l) <-> y = x \/ In y l.
Proof.
  induction l as [|z l IH]; cbn [insert_sorted].
  - cbn. intuition congruence.
  - destruct (x <=? z); cbn [In]; [intuition congruence|].
    rewrite IH. intuition congruence.
Qed.

Lemma in_sorted (y : Z) (l : list Z) : In y (sorted l) <-> In y l.
Proof.
  unfold sorted. induction l as [|x l IH]; cbn [fold_right In]; [tauto|].
  rewrite in_insert_sorted, IH. intuition congruence.
Qed.

Lemma increasing_tail (x : Z) (l : list Z) : increasing (x :: l) -> increasing l.
Proof. destruct l; cbn; tauto. Qed.

Lemma increasing_insert (x : Z) (l : list Z) :
  increasing l -> ~ In x l -> increasing (insert_sorted x l).
Proof.
  induction l as [|y l IH]; intros Hinc Hx; cbn [insert_sorted]; [exact I|].
  destruct (x <=? y) eqn:E.
  - apply Z.leb_le in E. cbn [increasing]. split; [|assumption].
    assert (x <> y) by (intros ->; apply Hx; now left). lia.
  - apply Z.leb_gt in E.
    assert (Htail : increasing (insert_sorted x l)).
    { apply IH; [now apply increasing_tail in Hinc | intros H; apply Hx; now right]. }
    destruct l as [|z l]; cbn [insert_sorted] in *.
    + cbn. auto.
    + destruct (x <=? z); cbn [increasing] in *; intuition lia.
Qed.

Lemma increasing_sorted (l : list Z) : NoDup l -> increasing (sorted l).
Proof.
  unfold sorted. induction 1 as [|x l Hx Hnd IH]; cbn [fold_right]; [exact I|].
  apply increasing_insert; [assumption|]. fold (sorted l). now rewrite in_sorted.
Qed.

(** X2: the set of sampled classes has no repetition and holds exactly the
    labels of the sampled rows, and [sorted] lists them in strictly
    increasing order. *)
Theorem classes_sampled_lists_each_label_once (w : World) (coll : string)
    (incl : bool) (band_urls : PyDict.dict string) (points : list TrainingPoint) :
  exists ts,
    outcome_of (sample_training_points w coll incl band_urls points no_samples) = Ok ts
    /\ NoDup (sampled_classes ts)
    /\ (forall l, In l (sampled_classes ts) <-> In l (labels ts))
    /\ increasing (sorted (sampled_classes ts))
    /\ (forall l, In l (sorted (sampled_classes ts)) <-> In l (labels ts)).
Proof.
  destruct (sample_training_points_returns w coll incl band_urls points no_samples)
    as [ts Hrun].
  exists ts. split; [assumption|].
  destruct (classes_invariant w coll incl band_urls points no_samples ts) as [Hnd Hin];
    [constructor | cbn; tauto | assumption |].
  repeat split; try assumption; try apply Hin.
  - now apply increasing_sorted.
  - rewrite in_sorted. apply Hin.
  - rewrite in_sorted. apply Hin.
Qed.

(** ** A failing index computation *)

Lemma float_truediv_error (x y : float) (e : error) :
  float_truediv x y = Err e -> e = ZeroDivisionError.
Proof. unfold float_truediv. destruct (is_zero y); [now intros [= <-] | discriminate]. Qed.

Lemma build_features_error (incl : bool) (band_values : PyDict.dict float) (e : error) :
  build_features incl band_values = Err e -> e = ZeroDivisionError /\ incl = true.
Proof.
  unfold build_features, point_ndvi, point_ndwi, point_ndbi, point_evi.
  destruct incl; [|discriminate]. intros H. split; [|reflexivity].
  repeat match type of H with
         | result_bind ?r _ = _ =>
             let E := fresh "E" in
             destruct r eqn:E; cbn [result_bind] in H;
             [| injection H as <-; now apply float_truediv_error in E]
         end.
  discriminate.
Qed.

(** X3: the feature vector of a sampled point can only fail with a division
    by zero, and only when the indices are included; the training point
    is then left out, the training set stays as it was and the loop goes
    on with the next point. *)
Theorem failed_index_drops_only_the_point (w : World) (coll : string) (incl : bool)
    (band_urls : PyDict.dict string) (ts : TrainingSet) (point : TrainingPoint)
    (band_values : PyDict.dict float) (e : error) :
  outcome_of (sample_with_fallback w coll band_urls (lon point) (lat point))
    = Ok band_values ->
  build_features incl band_values = Err e ->
  e = ZeroDivisionError
  /\ incl = true
  /\ outcome_of (sample_training_point w coll incl band_urls ts point) = Ok ts
  /\ forall rest,
       outcome_of (sample_training_points w coll incl band_urls (point :: rest) ts)
       = outcome_of (sample_training_points w coll incl band_urls rest ts).
Proof.
  intros Hbv Hf.
  destruct (build_features_error _ _ _ Hf) as [-> ->].
  assert (Hstep : outcome_of (sample_training_point w coll true band_urls ts point) = Ok ts).
  { destruct (sample_training_point_step w coll true band_urls ts point)
      as (bv & Hbv' & Hstep).
    rewrite Hbv in Hbv'. injection Hbv' as <-. rewrite Hstep, Hf.
    now destruct (4 <=? PyDict.len band_values). }
  repeat split; try assumption.
  intros rest. now apply sample_training_points_cons.
Qed.

Lemma failed_index_drops_only_the_point_witness :
  build_features true evi_zero_sample = Err ZeroDivisionError
  /\ outcome_of (sample_training_point (Flat.world Flat.evi_zero) "sentinel-2-l2a" true
                   evi_zero_urls no_samples Demo.inner_point)
     = Ok no_samples.
Proof.
  split; [vm_compute; reflexivity|].
  refine (proj1 (proj2 (proj2
            (failed_index_drops_only_the_point (Flat.world Flat.evi_zero)
               "sentinel-2-l2a" true evi_zero_urls no_samples Demo.inner_point
               evi_zero_sample ZeroDivisionError _ _)))).
  - vm_compute. reflexivity.
  - vm_compute. reflexivity.
Defined.

(** ** The band resolver *)

Ltac split_assets it :=
  destruct (PyDict.get (assets_of it) "red");
  destruct (PyDict.get (assets_of it) "green");
  destruct (PyDict.get (assets_of it) "blue");
  destruct (PyDict.get (assets_of it) "nir");
  destruct (PyDict.get (assets_of it) "swir16");
  destruct (PyDict.get (assets_of it) "swir22").

Lemma band_url_keys (w : World) (it : StacItem) :
  PyDict.keys (get_band_urls_for_item w it)
  = filter (PyDict.mem (assets_of it)) band_names.
Proof.
  unfold get_band_urls_for_item, PyDict.mem, PyDict.keys, band_names.
  cbn [band_keys fold_left filter map fst snd resolve_band].
  split_assets it; reflexivity.
Qed.

Lemma band_url_value (w : World) (it : StacItem) (k : string) (a : Asset) :
  In k band_names ->
  PyDict.get (assets_of it) k = Some a ->
  PyDict.get (get_band_urls_for_item w it) k = Some (resolve_url w a).
Proof.
  unfold get_band_urls_for_item, band_names.
  cbn [band_keys fold_left map fst snd resolve_band In].
  intros [<- | [<- | [<- | [<- | [<- | [<- | []]]]]]] Hk; rewrite Hk;
    split_assets it; try discriminate; reflexivity.
Qed.

Lemma band_url_absent (w : World) (it : StacItem) (k : string) :
  PyDict.get (get_band_urls_for_item w it) k <> None ->
  In k band_names /\ PyDict.get (assets_of it) k <> None.
Proof.
  intros H.
  assert (Hin : In k (PyDict.keys (get_band_urls_for_item w it))).
  { revert H. generalize (get_band_urls_for_item w it). intros d.
    induction d as [|[k0 v0] d IH]; cbn; [tauto|].
    destruct (String.eqb_spec k0 k); auto. }
  rewrite band_url_keys in Hin. apply filter_In in Hin as [Hin Hmem].
  split; [assumption|]. unfold PyDict.mem in Hmem.
  destruct (PyDict.get (assets_of it) k); [discriminate | discriminate].
Qed.

(** X4: the resolved band URLs have as keys the target bands that the
    scene's assets have, in the order red, green, blue, nir, swir16,
    swir22 whatever the order of the assets, each with the resolved URL
    of its asset, and no other keys; a URL whose signing raises, or that
    does not point into Planetary Computer storage, is used as it is. *)
Theorem band_urls_follow_the_band_order (w : World) (it : StacItem) :
  PyDict.keys (get_band_urls_for_item w it)
  = filter (PyDict.mem (assets_of it)) band_names
  /\ (forall k a,
        In k band_names ->
        PyDict.get (assets_of it) k = Some a ->
        PyDict.get (get_band_urls_for_item w it) k = Some (resolve_url w a))
  /\ (forall k,
        ~ In k band_names -> PyDict.get (get_band_urls_for_item w it) k = None)
  /\ (forall u msg,
        pc_sign w u = Raises msg -> resolve_url w {| href := Some u |} = u)
  /\ (forall u,
        contains "blob.core.windows.net" u = false ->
        resolve_url w {| href := Some u |} = u).
Proof.
  split; [apply band_url_keys|].
  split; [apply band_url_value|].
  split.
  - intros k Hk.
    destruct (PyDict.get (get_band_urls_for_item w it) k) eqn:E; [|reflexivity].
    exfalso. apply Hk. apply (band_url_absent w it k). congruence.
  - split.
    + intros u msg Hsign. unfold resolve_url. cbn [href].
      destruct (contains _ u); [now rewrite Hsign | reflexivity].
    + intros u Hu. unfold resolve_url. cbn [href]. now rewrite Hu.
Qed.

(** ** The point sampler *)

Lemma len_set_le {V} (d : PyDict.dict V) (k : string) (v : V) :
  PyDict.len (PyDict.set d k v) <= PyDict.len d + 1.
Proof.
  unfold PyDict.len. induction d as [|[k0 v0] d IH]; cbn [PyDict.set List.length].
  - lia.
  - destruct (String.eqb k0 k); cbn [List.length]; lia.
Qed.

Lemma sample_bands_values (w : World) (lon lat : float) (items : list (string * string)) :
  forall bv0,
    exists bv,
      outcome_of (sample_bands w items lon lat bv0) = Ok bv
      /\ PyDict.len bv <= PyDict.len bv0 + Z.of_nat (List.length items)
      /\ forall k v,
           PyDict.get bv k = Some v ->
           PyDict.get bv0 k = Some v
           \/ exists url, In (k, url) items
                          /\ outcome_of (sample_band w url lon lat) = Ok (Some v).
Proof.
  induction items as [|[band_name url] rest IH]; intros bv0; cbn [sample_bands].
  - exists bv0. cbn. repeat split; [lia | auto].
  - destruct (sample_band_returns w url lon lat) as [v0 Hv0].
    rewrite outcome_bind, Hv0.
    match goal with
    | |- context [sample_bands w rest lon lat ?d] => destruct (IH d) as (bv & Hrun & Hlen & Hval)
    end.
    exists bv. split; [assumption|]. split.
    + destruct v0 as [x|]; cbn [List.length].
      * pose proof (len_set_le bv0 band_name x). lia.
      * lia.
    + intros k v Hk. destruct (Hval k v Hk) as [Hold | (url' & Hin & Hs)].
      * destruct v0 as [x|]; [|now left].
        rewrite get_set in Hold. destruct (String.eqb_spec band_name k) as [-> | _].
        -- injection Hold as ->. right. exists url. split; [now left | assumption].
        -- now left.
      * right. exists url'. split; [now right | assumption].
Qed.

Lemma sample_band_unreadable (w : World) (url msg : string) (lon lat : float) :
  rasterio_open w url = Raises msg ->
  sample_band w url lon lat = ([EvRasterOpen url], Ok None).
Proof. intros H. unfold sample_band. rewrite H. reflexivity. Qed.

(** X5: sampling a point never raises; it gives at most one value per band
    URL, every value it gives was read from the raster of that band,
    and a raster that cannot be opened only leaves its band out. *)
Theorem point_sampler_skips_what_it_cannot_read (w : World)
    (urls : PyDict.dict string) (lon lat : float) :
  (exists band_values,
     outcome_of (sample_point_from_urls w urls lon lat) = Ok band_values
     /\ PyDict.len band_values <= PyDict.len urls
     /\ forall k v,
          PyDict.get band_values k = Some v ->
          exists url, In (k, url) (PyDict.items urls)
                      /\ outcome_of (sample_band w url lon lat) = Ok (Some v))
  /\ (forall url msg,
        rasterio_open w url = Raises msg ->
        sample_band w url lon lat = ([EvRasterOpen url], Ok None)).
Proof.
  split; [|intros url msg; apply sample_band_unreadable].
  destruct (sample_bands_values w lon lat (PyDict.items urls) PyDict.empty)
    as (bv & Hrun & Hlen & Hval).
  exists bv. split; [assumption|]. split; [exact Hlen|].
  intros k v Hk. destruct (Hval k v Hk) as [Hold | H]; [discriminate | assumption].
Qed.

(** ** The stages of a run *)

Lemma silent_trace {A} (m : M A) : free_of (fun _ => true) m -> trace m = [].
Proof.
  unfold free_of. destruct (trace m) as [|ev t]; [reflexivity | discriminate].
Qed.

Ltac silent_tac := solve [apply silent_trace; free_tac; try apply free_read_array].

Lemma within_nil (kind : event -> bool) (budget : nat) : within kind budget [].
Proof. split; [reflexivity | cbn; lia]. Qed.

Lemma within_app (kind : event -> bool) (b1 b2 : nat) (t1 t2 : list event) :
  within kind b1 t1 -> within kind b2 t2 -> within kind (b1 + b2) (t1 ++ t2).
Proof.
  intros [H1 L1] [H2 L2]. split.
  - rewrite forallb_app, H1, H2. reflexivity.
  - rewrite length_app. lia.
Qed.

Lemma within_weaken (kind : event -> bool) (b b' : nat) (t : list event) :
  (b <= b')%nat -> within kind b t -> within kind b' t.
Proof. intros Hb [H L]. split; [assumption | lia]. Qed.

Lemma within_broaden (kind kind' : event -> bool) (b : nat) (t : list event) :
  (forall ev, kind ev = true -> kind' ev = true) -> within kind b t -> within kind' b t.
Proof.
  intros Hk [H L]. split; [|assumption].
  rewrite forallb_forall in *. auto.
Qed.

Lemma within_bind {A B} (kind : event -> bool) (b1 b2 : nat) (m : M A) (k : A -> M B) :
  within kind b1 (trace m) ->
  (forall a, within kind b2 (trace (k a))) ->
  within kind (b1 + b2) (trace (bind m k)).
Proof.
  intros Hm Hk. rewrite trace_bind. apply within_app; [assumption|].
  destruct (outcome_of m); [apply Hk | apply within_nil].
Qed.

Lemma staged_nil (stages : list ((event -> bool) * nat)) : staged stages [].
Proof.
  induction stages as [|[kind budget] later IH]; cbn [staged]; [reflexivity|].
  exists [], []. split; [reflexivity|]. split; [apply within_nil | assumption].
Qed.

(** A computation of the first stage, followed by the later stages. *)
Lemma staged_bind {A B} (kind : event -> bool) (budget : nat)
    (later : list ((event -> bool) * nat)) (m : M A) (k : A -> M B) :
  within kind budget (trace m) ->
  (forall a, staged later (trace (k a))) ->
  staged ((kind, budget) :: later) (trace (bind m k)).
Proof.
  intros Hm Hk. rewrite trace_bind. cbn [staged].
  exists (trace m). eexists. split; [reflexivity|]. split; [assumption|].
  destruct (outcome_of m); [apply Hk | apply staged_nil].
Qed.

(** A computation without events does not change the stages. *)
Lemma staged_silent {A B} (stages : list ((event -> bool) * nat)) (m : M A)
    (k : A -> M B) :
  trace m = [] ->
  (forall a, staged stages (trace (k a))) ->
  staged stages (trace (bind m k)).
Proof.
  intros Hm Hk. rewrite trace_bind, Hm. cbn [app].
  destruct (outcome_of m); [apply Hk | apply staged_nil].
Qed.

(** A stage that is skipped. *)
Lemma staged_skip (kind : event -> bool) (budget : nat)
    (later : list ((event -> bool) * nat)) (t : list event) :
  staged later t -> staged ((kind, budget) :: later) t.
Proof.
  intros H. cbn [staged]. exists [], t.
  split; [reflexivity|]. split; [apply within_nil | assumption].
Qed.

(** *** The traces of the stages *)

Lemma sample_band_opens (w : World) (url : string) (lon lat : float) :
  trace (sample_band w url lon lat) = [EvRasterOpen url].
Proof.
  unfold sample_band. rewrite trace_try.
  match goal with
  | |- context [outcome_of ?m] =>
      assert (Ht : trace m = [EvRasterOpen url]); [|rewrite Ht; now destruct (outcome_of m)]
  end.
  rewrite trace_bind. cbn [emit trace outcome_of fst snd app]. f_equal.
  silent_tac.
Qed.

Lemma sample_bands_opens (w : World) (lon lat : float) (items : list (string * string)) :
  forall bv, trace (sample_bands w items lon lat bv)
             = map (fun entry => EvRasterOpen (snd entry)) items.
Proof.
  induction items as [|[band_name url] rest IH]; intros bv; cbn [sample_bands map snd].
  - reflexivity.
  - rewrite trace_bind, sample_band_opens.
    destruct (sample_band_returns w url lon lat) as [v Hv]. rewrite Hv.
    cbn [app]. f_equal. apply IH.
Qed.

Lemma opens_within (urls : PyDict.dict string) :
  within is_raster_open (List.length urls)
         (map (fun entry : string * string => EvRasterOpen (snd entry)) urls).
Proof.
  split; [|rewrite length_map; lia].
  apply forallb_forall. intros ev Hev. apply in_map_iff in Hev as (entry & <- & _).
  reflexivity.
Qed.

Lemma resolved_bands_le (it : StacItem) : resolved_bands it <= 6.
Proof.
  unfold resolved_bands.
  pose proof (filter_length_le (fun entry => PyDict.mem (assets_of it) (snd entry)) band_keys) as H.
  cbn [band_keys List.length] in H. cbn [band_keys]. lia.
Qed.

Lemma band_urls_length (w : World) (it : StacItem) :
  (List.length (get_band_urls_for_item w it) <= 6)%nat.
Proof.
  pose proof (len_band_urls w it) as H. pose proof (resolved_bands_le it).
  unfold PyDict.len in H. lia.
Qed.

Lemma sample_with_fallback_within (w : World) (coll : string)
    (band_urls : PyDict.dict string) (lon lat : float) :
  within is_sampling (List.length band_urls + 7)
         (trace (sample_with_fallback w coll band_urls lon lat)).
Proof.
  unfold sample_with_fallback.
  apply within_bind.
  - unfold sample_point_from_urls. rewrite sample_bands_opens.
    apply (within_broaden is_raster_open); [now intros [] | apply opens_within].
  - intros bv. destruct (PyDict.len bv <? 4); [|apply within_nil].
    apply (within_bind is_sampling 1 6).
    + rewrite search_trace. split; [reflexivity | cbn; lia].
    + intros [it|]; [|apply within_nil].
      destruct (truthy_item it); [|apply within_nil].
      destruct (4 <=? _); [|apply within_nil].
      unfold sample_point_from_urls. rewrite sample_bands_opens.
      apply (within_broaden is_raster_open); [now intros []|].
      eapply within_weaken; [|apply opens_within]. apply band_urls_length.
Qed.

Lemma sample_training_points_within (w : World) (coll : string) (incl : bool)
    (band_urls : PyDict.dict string) (points : list TrainingPoint) :
  forall ts,
    within is_sampling (List.length points * (List.length band_urls + 7))
           (trace (sample_training_points w coll incl band_urls points ts)).
Proof.
  induction points as [|point rest IH]; intros ts; cbn [sample_training_points].
  - apply within_nil.
  - cbn [List.length Nat.mul]. apply within_bind.
    + rewrite sample_training_point_trace. apply sample_with_fallback_within.
    + intros ts'. apply IH.
Qed.

Lemma train_within (w : World) (n : Z) (ts : TrainingSet) :
  within is_fit 2 (trace (train w n ts)).
Proof.
  unfold train.
  apply (within_bind is_fit 1 1); [split; [reflexivity | cbn; lia]|]. intros _.
  apply (within_bind is_fit 0 1); [rewrite silent_trace by free_tac; apply within_nil|].
  intros [scaler X].
  apply (within_bind is_fit 1 0); [split; [reflexivity | cbn; lia]|]. intros _.
  rewrite silent_trace by free_tac. apply within_nil.
Qed.

Lemma read_band_opens (w : World) (wl wb wr wt : float) (st : ReadState)
    (entry : string * string) :
  trace (read_band w wl wb wr wt st entry) = [EvRasterOpen (snd entry)].
Proof.
  destruct entry as [band_name url]. unfold read_band.
  rewrite trace_bind. cbn [emit trace outcome_of fst snd app]. f_equal.
  silent_tac.
Qed.

Lemma read_bands_within (w : World) (wl wb wr wt : float)
    (entries : list (string * string)) :
  forall st, within is_raster_open (List.length entries)
                    (trace (read_bands w wl wb wr wt entries st)).
Proof.
  induction entries as [|entry rest IH]; intros st; cbn [read_bands].
  - apply within_nil.
  - cbn [List.length]. apply (within_bind is_raster_open 1).
    + rewrite read_band_opens. split; [reflexivity | cbn; lia].
    + intros st'. apply IH.
Qed.

Lemma classify_pixels_within (w : World) (scaler : Scaler w) (clf : Forest w)
    (n : Z) (pixels : matrix) :
  within is_predict 1 (trace (classify_pixels w scaler clf n pixels)).
Proof.
  unfold classify_pixels.
  apply (within_bind is_predict 0 1); [rewrite silent_trace by free_tac; apply within_nil|].
  intros scaled. destruct (existsb _ _); [|apply within_nil].
  apply (within_bind is_predict 0 1); [rewrite silent_trace by free_tac; apply within_nil|].
  intros rows.
  apply (within_bind is_predict 1 0); [split; [reflexivity | cbn; lia]|]. intros _.
  rewrite silent_trace by free_tac. apply within_nil.
Qed.

Lemma write_product_within (w : World) (path src_crs : string) (tr : option Affine)
    (h wd : Z) (classification : list Z) :
  within is_raster_output 2 (trace (write_product w path src_crs tr h wd classification)).
Proof.
  unfold write_product.
  apply (within_bind is_raster_output 1 1); [split; [reflexivity | cbn; lia]|]. intros _.
  apply (within_bind is_raster_output 0 1); [rewrite silent_trace by free_tac; apply within_nil|].
  intros _.
  apply (within_bind is_raster_output 1 0); [split; [reflexivity | cbn; lia]|]. intros _.
  rewrite silent_trace by free_tac. apply within_nil.
Qed.

Lemma region_of_interest_silent (w : World) (points : list TrainingPoint)
    (src_crs : string) (src_bounds : Bounds) :
  trace (region_of_interest w points src_crs src_bounds) = [].
Proof. unfold region_of_interest. silent_tac. Qed.

Lemma train_and_classify_staged (w : World) (config : Config)
    (it : StacItem) (src_crs : string) (src_bounds : Bounds) (ts : TrainingSet) :
  staged [(is_fit, 2%nat); (is_raster_open, 6%nat); (is_predict, 1%nat);
          (is_raster_output, 2%nat)]
         (trace (train_and_classify w config (get_band_urls_for_item w it)
                   src_crs src_bounds ts)).
Proof.
  unfold train_and_classify. destruct (Nat.ltb _ 3); [apply staged_nil|].
  apply staged_bind; [apply train_within|]. intros [[scaler clf] acc].
  apply staged_silent; [apply region_of_interest_silent|]. intros [[[wl wb] wr] wt].
  apply staged_bind.
  { eapply within_weaken; [|apply read_bands_within]. apply band_urls_length. }
  intros st.
  apply staged_silent; [silent_tac|]. intros nir. destruct (shape nir) as [h wd].
  apply staged_silent; [silent_tac|]. intros pixels.
  apply staged_bind; [apply classify_pixels_within|]. intros classification.
  apply staged_bind; [apply write_product_within|].
  intros r. reflexivity.
Qed.

(** More of the first stage, then the later stages. *)
Lemma staged_more {A B} (kind : event -> bool) (b1 b2 : nat)
    (later : list ((event -> bool) * nat)) (m : M A) (k : A -> M B) :
  within kind b1 (trace m) ->
  (forall a, staged ((kind, b2) :: later) (trace (k a))) ->
  staged ((kind, (b1 + b2)%nat) :: later) (trace (bind m k)).
Proof.
  intros Hm Hk. rewrite trace_bind. cbn [staged].
  destruct (outcome_of m) as [a|].
  - destruct (Hk a) as (t1 & t2 & Ht & H1 & H2). rewrite Ht.
    exists (trace m ++ t1), t2. split; [apply app_assoc|].
    split; [now apply within_app | assumption].
  - exists (trace m), []. split; [reflexivity|]. split; [|apply staged_nil].
    eapply within_weaken; [|eassumption]. lia.
Qed.

Lemma staged_weaken (kind : event -> bool) (b b' : nat)
    (later : list ((event -> bool) * nat)) (t : list event) :
  (b <= b')%nat -> staged ((kind, b) :: later) t -> staged ((kind, b') :: later) t.
Proof.
  intros Hb (t1 & t2 & Ht & H1 & H2). exists t1, t2.
  split; [assumption|]. split; [|assumption]. now apply (within_weaken kind b).
Qed.

(** A trace in stages has no event of a kind that no stage has. *)
Lemma staged_free (p : event -> bool) (stages : list ((event -> bool) * nat)) :
  Forall (fun stage => forall ev, fst stage ev = true -> p ev = false) stages ->
  forall t, staged stages t -> filter p t = [].
Proof.
  induction 1 as [|[kind budget] later Hkind Hlater IH]; cbn [staged].
  - now intros t ->.
  - intros t (t1 & t2 & -> & [Hall _] & H2). rewrite filter_app, (IH t2 H2), app_nil_r.
    cbn [fst] in Hkind. rewrite forallb_forall in Hall.
    induction t1 as [|ev t1 IH1]; [reflexivity|]. cbn [filter].
    rewrite (Hkind ev) by (apply Hall; now left).
    apply IH1. intros x Hx. apply Hall. now right.
Qed.

Lemma classify_scene_staged (w : World) (config : Config) (it : StacItem) :
  staged ((is_sampling, (1 + 13 * List.length (training_data config))%nat)
          :: [(is_fit, 2%nat); (is_raster_open, 6%nat); (is_predict, 1%nat);
              (is_raster_output, 2%nat)])
         (trace (classify_scene w config it)).
Proof.
  unfold classify_scene. destruct (PyDict.len _ <? 4); [apply staged_nil|].
  apply staged_silent; [silent_tac|]. intros nir_url.
  apply (staged_more is_sampling 1); [split; [reflexivity | cbn; lia]|]. intros _.
  apply staged_silent; [silent_tac|]. intros src.
  apply (staged_weaken is_sampling
           (List.length (training_data config)
            * (List.length (get_band_urls_for_item w it) + 7))).
  { pose proof (band_urls_length w it). nia. }
  apply staged_bind; [apply sample_training_points_within|]. intros ts.
  apply train_and_classify_staged.
Qed.

(** *** Catalog searches *)

Lemma count_app (p : event -> bool) (t1 t2 : list event) :
  count_events p (t1 ++ t2) = (count_events p t1 + count_events p t2)%nat.
Proof. unfold count_events. now rewrite filter_app, length_app. Qed.

Lemma count_bind_le {A B} (p : event -> bool) (n1 n2 : nat) (m : M A) (k : A -> M B) :
  (count_events p (trace m) <= n1)%nat ->
  (forall a, (count_events p (trace (k a)) <= n2)%nat) ->
  (count_events p (trace (bind m k)) <= n1 + n2)%nat.
Proof.
  intros Hm Hk. rewrite trace_bind, count_app.
  destruct (outcome_of m) as [a|]; [specialize (Hk a); lia | cbn; lia].
Qed.

Lemma count_free {A} (p : event -> bool) (m : M A) :
  free_of p m -> count_events p (trace m) = 0%nat.
Proof. unfold free_of, count_events. now intros ->. Qed.

Lemma sample_with_fallback_search_count (w : World) (coll : string)
    (band_urls : PyDict.dict string) (lon lat : float) :
  count_events is_search (trace (sample_with_fallback w coll band_urls lon lat))
  = match outcome_of (sample_point_from_urls w band_urls lon lat) with
    | Ok primary => if PyDict.len primary <? 4 then 1%nat else 0%nat
    | Err _ => 0%nat
    end.
Proof.
  destruct (sample_point_returns w band_urls lon lat) as [primary Hprimary].
  rewrite Hprimary. destruct (PyDict.len primary <? 4) eqn:Hlt.
  - apply (sample_with_fallback_searches w coll band_urls lon lat primary Hprimary).
    now apply Z.ltb_lt.
  - unfold sample_with_fallback. rewrite trace_bind, count_app, Hprimary, Hlt.
    rewrite (count_free _ _ (sample_point_no_search w band_urls lon lat)).
    reflexivity.
Qed.

Lemma sample_training_points_search_count (w : World) (coll : string) (incl : bool)
    (band_urls : PyDict.dict string) (points : list TrainingPoint) :
  forall ts,
    (count_events is_search (trace (sample_training_points w coll incl band_urls points ts))
     <= List.length points)%nat.
Proof.
  induction points as [|point rest IH]; intros ts; cbn [sample_training_points].
  - cbn. lia.
  - change (List.length (point :: rest)) with (1 + List.length rest)%nat.
    apply count_bind_le; [|intros ts'; apply IH].
    rewrite sample_training_point_trace, sample_with_fallback_search_count.
    destruct (outcome_of _) as [primary|]; [destruct (_ <? 4)|]; lia.
Qed.

Lemma train_and_classify_no_search (w : World) (config : Config) (it : StacItem)
    (src_crs : string) (src_bounds : Bounds) (ts : TrainingSet) :
  free_of is_search
    (train_and_classify w config (get_band_urls_for_item w it) src_crs src_bounds ts).
Proof.
  unfold free_of. eapply staged_free; [|apply train_and_classify_staged].
  repeat constructor; cbn [fst]; now intros [].
Qed.

Lemma classify_image_search_count (w : World) (config : Config) :
  (count_events is_search (trace (classify_image w config))
   <= List.length (training_data config))%nat.
Proof.
  remember (List.length (training_data config)) as n eqn:Hn.
  unfold classify_image.
  apply (count_bind_le is_search 0); [cbn; lia|]. intros _.
  apply (count_bind_le is_search 0); [rewrite count_free by free_tac; lia|]. intros it.
  unfold classify_scene. destruct (PyDict.len _ <? 4); [cbn; lia|].
  apply (count_bind_le is_search 0); [rewrite count_free by free_tac; lia|]. intros nir_url.
  apply (count_bind_le is_search 0); [cbn; lia|]. intros _.
  apply (count_bind_le is_search 0); [rewrite count_free by free_tac; lia|]. intros src.
  apply Nat.le_trans with (n + 0)%nat; [|lia].
  apply count_bind_le; [subst n; apply sample_training_points_search_count|]. intros ts.
  rewrite count_free by apply train_and_classify_no_search. lia.
Qed.

(** X6: the trace of a run starts with the one fetch of the scene
    descriptor and goes through the stages in order, each within its
    budget: sampling (the nir raster and at most 13 opens and searches
    per training point), the two fits, at most 6 opens of the reading
    loop, at most one prediction, the creation and the writing of the
    raster.  There is at most one catalog search per training point. *)
Theorem a_run_goes_through_its_stages_in_order (w : World) (config : Config) :
  let t := trace (classify_image w config) in
  let n := List.length (training_data config) in
  hd_error t = Some (EvUrlopen (stac_item_url config))
  /\ staged (run_stages n) t
  /\ (count_events is_search t <= n)%nat.
Proof.
  cbv zeta. split; [|split].
  - unfold classify_image. rewrite trace_bind. reflexivity.
  - unfold classify_image, run_stages.
    apply staged_bind; [split; [reflexivity | cbn; lia]|]. intros _.
    apply staged_silent; [silent_tac|]. intros it.
    apply classify_scene_staged.
  - apply classify_image_search_count.
Qed.

(** X7: the catalog is searched for a training point exactly when the
    primary scene gave fewer than 4 band values for it, once, and for
    the collection and the coordinates of that point. *)
Theorem a_point_is_searched_only_when_undersampled (w : World) (coll : string)
    (incl : bool) (band_urls : PyDict.dict string) (ts : TrainingSet)
    (point : TrainingPoint) :
  let step := sample_training_point w coll incl band_urls ts point in
  count_events is_search (trace step)
  = match outcome_of (sample_point_from_urls w band_urls (lon point) (lat point)) with
    | Ok primary => if PyDict.len primary <? 4 then 1%nat else 0%nat
    | Err _ => 0%nat
    end
  /\ forall ev, In ev (trace step) -> is_search ev = true ->
                ev = EvCatalogSearch coll (lon point) (lat point).
Proof.
  cbv zeta. rewrite sample_training_point_trace. split.
  - apply sample_with_fallback_search_count.
  - intros ev Hin Hs. unfold sample_with_fallback in Hin.
    rewrite trace_bind in Hin. apply in_app_or in Hin as [Hin | Hin].
    + exfalso. eapply free_of_not_in; [apply sample_point_no_search | eassumption | eassumption].
    + destruct (outcome_of _) as [primary|]; [|destruct Hin].
      destruct (PyDict.len primary <? 4); [|destruct Hin].
      rewrite trace_bind, search_trace in Hin. destruct Hin as [<- | Hin]; [reflexivity|].
      cbn [app] in Hin. exfalso.
      destruct (outcome_of _) as [[it|]|]; try destruct Hin.
      destruct (truthy_item it); [|destruct Hin].
      destruct (4 <=? _); [|destruct Hin].
      eapply free_of_not_in; [apply sample_point_no_search | eassumption | eassumption].
Qed.

(** ** Bands that a scene does not have *)

Lemma map_const {A B} (c : B) (l : list A) : map (fun _ => c) l = repeat c (List.length l).
Proof. induction l as [|a l IH]; cbn; [reflexivity | now rewrite IH]. Qed.

Lemma length_range (n : Z) : List.length (range n) = Z.to_nat n.
Proof. unfold range. now rewrite length_map, length_seq. Qed.

Lemma flatten_zeros (h w : Z) : flatten (zeros h w) = repeat fzero (Z.to_nat (h * w)).
Proof.
  unfold flatten, zeros. cbn [nd_at nd_rows nd_cols].
  now rewrite map_const, length_range.
Qed.

Lemma length_flatten (a : ndarray) :
  List.length (flatten a) = Z.to_nat (nd_rows a * nd_cols a).
Proof. unfold flatten. now rewrite length_map, length_range. Qed.

(** X8: a band without a sampled value is 0 in the feature vector of the
    point, and a band that was not read is a column of zeros in the
    pixel matrix. *)
Theorem a_missing_band_counts_as_zero (incl : bool) (k : string) (i : nat) :
  nth_error band_names i = Some k ->
  (forall band_values features,
     build_features incl band_values = Ok features ->
     PyDict.get band_values k = None ->
     nth_error features i = Some fzero)
  /\ (forall bands h w pixels,
        build_pixels incl bands h w = Ok pixels ->
        PyDict.get bands k = None ->
        column pixels i = repeat fzero (Z.to_nat (h * w))).
Proof.
  intros Hk. split.
  - intros bv features Hf Hnone.
    destruct (build_features_layout _ _ _ Hf) as [_ Hbands _].
    assert (Hi : nth_error (firstn 6 features) i = Some fzero).
    { rewrite Hbands.
      do 6 (destruct i as [|i]; [cbn in Hk; injection Hk as <-; cbn;
                                 unfold PyDict.get_default; now rewrite Hnone|]).
      destruct i; discriminate. }
    rewrite nth_error_firstn in Hi.
    destruct (Nat.ltb i 6); [assumption | discriminate].
  - intros bands h w pixels Hp Hnone.
    destruct (build_pixels_columns _ _ _ _ _ Hp)
      as [_ _ Hred Hgreen Hblue Hnir Hswir16 Hswir22 _ _ _ _].
    unfold PyDict.get_default in *.
    do 6 (destruct i as [|i];
          [cbn in Hk; injection Hk as <-; rewrite Hnone in *; cbv beta iota in *;
           rewrite <- flatten_zeros; assumption|]).
    destruct i; discriminate.
Qed.

Lemma a_missing_band_counts_as_zero_witness :
  nth_error [Demo.num 1; Demo.num 2; Demo.num 3; Demo.num 4; Demo.num 5; fzero] 5
  = Some fzero.
Proof.
  apply (proj1 (a_missing_band_counts_as_zero false "swir22" 5 eq_refl)
           [("red", Demo.num 1); ("green", Demo.num 2); ("blue", Demo.num 3);
            ("nir", Demo.num 4); ("swir16", Demo.num 5)]);
    reflexivity.
Defined.

(** ** Assembling the pixel matrix *)

Lemma assign_column_total (pixels : matrix) (k n : nat) (v : list float) :
  List.length v = List.length pixels ->
  Forall (fun row => List.length row = n) pixels ->
  (k < n)%nat ->
  exists pixels', assign_column pixels k v = Ok pixels'.
Proof.
  intros Hlen Hw Hk. unfold assign_column.
  rewrite Hlen, Nat.eqb_refl. cbn [negb].
  assert (Hex : existsb (fun row => Nat.leb (List.length row) k) pixels = false).
  { apply not_true_is_false. intros H. apply existsb_exists in H as (row & Hrow & Hle).
    rewrite Forall_forall in Hw. rewrite (Hw row Hrow) in Hle.
    apply Nat.leb_le in Hle. lia. }
  rewrite Hex. eauto.
Qed.

Lemma length_column (pixels : matrix) (k : nat) :
  List.length (column pixels k) = List.length pixels.
Proof. unfold column. apply length_map. Qed.

Lemma length_band (bands : PyDict.dict ndarray) (h w : Z) (k : string) :
  (forall a, PyDict.get bands k = Some a -> shape a = (h, w)) ->
  List.length (flatten (PyDict.get_default bands k (zeros h w))) = Z.to_nat (h * w).
Proof.
  intros H. rewrite length_flatten. unfold PyDict.get_default.
  destruct (PyDict.get bands k) as [a|]; [|reflexivity].
  specialize (H a eq_refl). unfold shape in H. now injection H as -> ->.
Qed.

(** One assignment of a column that has the length of the matrix. *)
Ltac assign_total :=
  match goal with
  | Hw : Forall (fun row => List.length row = ?n) ?p, Hl : List.length ?p = _
    |- context [assign_column ?p ?k ?v] =>
      let p' := fresh "p" in
      let E := fresh "E" in
      let Hl' := fresh "Hl" in
      let Hw' := fresh "Hw" in
      let Hv := fresh "Hv" in
      assert (Hv : List.length v = List.length p);
      [ rewrite Hl | destruct (assign_column_total p k n v Hv Hw) as [p' E];
                     [ first [lia | cbn; lia]
                     | rewrite E; cbn [result_bind];
                       destruct (assign_column_spec _ _ n _ _ E Hw) as (Hl' & Hw' & _ & _);
                       rewrite Hl in Hl'; clear E Hv ] ]
  end.

Lemma build_pixels_total (incl : bool) (bands : PyDict.dict ndarray) (h w : Z) :
  (forall k a, PyDict.get bands k = Some a -> shape a = (h, w)) ->
  exists pixels, build_pixels incl bands h w = Ok pixels.
Proof.
  intros Hshape. unfold build_pixels. cbv zeta.
  pose proof (zeros_matrix_widths (h * w) (n_features incl)) as Hw0.
  assert (Hl0 : List.length (zeros_matrix (h * w) (n_features incl)) = Z.to_nat (h * w))
    by apply repeat_length.
  assert (Hn : (6 <= Z.to_nat (n_features incl))%nat) by (destruct incl; cbn; lia).
  do 6 (assign_total; [apply length_band; apply Hshape|]).
  destruct incl; [|eauto].
  assert (Hn' : Z.to_nat (n_features true) = 10%nat) by reflexivity.
  rewrite Hn' in *.
  assign_total; [rewrite length_zip_with; rewrite !length_column; auto|].
  assign_total; [rewrite length_zip_with; rewrite !length_column; auto|].
  assign_total; [rewrite length_zip_with; rewrite !length_column; auto|].
  assign_total.
  { rewrite length_zip_with; rewrite ?length_combine, ?length_column; auto; lia. }
  eauto.
Qed.

(** ** The arrays of the reading loop *)

(** A band is only read into a grid without a negative side. *)
Lemma read_band_nonneg (w : World) (wl wb wr wt : float) (st st' : ReadState)
    (entry : string * string) :
  outcome_of (read_band w wl wb wr wt st entry) = Ok st' ->
  exists out_width out_height tr,
    out_grid st' = Some (out_width, out_height, tr)
    /\ 0 <= out_width /\ 0 <= out_height.
Proof.
  destruct entry as [band_name url].
  unfold read_band. rewrite outcome_bind. cbn [emit outcome_of snd].
  rewrite outcome_bind.
  destruct (rasterio_open w url) as [src | msg]; [|discriminate].
  cbn [call ret raise outcome_of snd]. rewrite outcome_bind.
  destruct (windows_from_bounds w wl wb wr wt (transform src)) as [fw | msg];
    [|discriminate].
  cbn [call ret raise outcome_of snd]. rewrite outcome_bind.
  destruct (clamp_window fw src) as [win | e]; [|discriminate].
  cbn [lift outcome_of snd]. rewrite outcome_bind.
  destruct (window_validate w win) as [[] | msg]; [|discriminate].
  cbn [call ret outcome_of snd]. rewrite outcome_bind.
  assert (Hread : forall ow oh tr,
             outcome_of
               (data <- read_array src win oh ow ;;
                ret {| band_data := PyDict.set (band_data st) band_name (astype_float32 data);
                       out_grid := Some (ow, oh, tr) |}) = Ok st' ->
             exists out_width out_height tr0,
               out_grid st' = Some (out_width, out_height, tr0)
               /\ 0 <= out_width /\ 0 <= out_height).
  { intros ow oh tr. rewrite outcome_bind. unfold read_array.
    destruct (oh <? 0) eqn:Hh; [discriminate|].
    destruct (ow <? 0) eqn:Hw; [discriminate|]. cbn [orb].
    rewrite outcome_bind.
    destruct (ds_read src win oh ow) as [f | msg]; [|discriminate].
    cbn [call ret outcome_of snd]. intros [= <-].
    exists ow, oh, tr. cbn [out_grid]. apply Z.ltb_ge in Hh, Hw. auto. }
  destruct (out_grid st) as [[[ow oh] tr] | ].
  - cbn [ret outcome_of snd]. apply Hread.
  - rewrite outcome_bind.
    destruct (output_size win) as [[ow oh] | e]; [|discriminate].
    cbn [lift outcome_of snd]. rewrite outcome_bind.
    destruct (transform_from_bounds w wl wb wr wt ow oh) as [tr | msg]; [|discriminate].
    cbn [call ret outcome_of snd]. apply Hread.
Qed.

(** The arrays that the reading loop leaves: all of the shape of one grid
    without a negative side. *)
Lemma read_bands_shapes (w : World) (wl wb wr wt : float)
    (entries : list (string * string)) (st : ReadState) :
  outcome_of (read_bands w wl wb wr wt entries read_start) = Ok st ->
  exists out_width out_height,
    0 <= out_width /\ 0 <= out_height
    /\ forall k a, PyDict.get (band_data st) k = Some a ->
                   shape a = (out_height, out_width).
Proof.
  destruct entries as [|[band_name url] rest]; cbn [read_bands].
  - intros [= <-]. exists 0, 0. repeat split; try lia. discriminate.
  - rewrite outcome_bind.
    destruct (outcome_of (read_band w wl wb wr wt read_start (band_name, url)))
      as [st1|] eqn:Hstep; [|discriminate].
    intros Hrest.
    destruct (read_band_nonneg _ _ _ _ _ _ _ _ Hstep) as (ow & oh & tr & Hgrid & How & Hoh).
    apply read_band_ok in Hstep
      as (src & fw & win & ow1 & oh1 & tr1 & data & _ & _ & _ & _ & Hg1 & Hshape & Hdata).
    rewrite Hgrid in Hg1. injection Hg1 as <- <- <-.
    exists ow, oh. split; [assumption|]. split; [assumption|].
    eapply (read_bands_keep_grid w wl wb wr wt rest st1 st ow oh tr); try eassumption.
    intros k a. rewrite Hdata, get_set. cbn [read_start band_data PyDict.get PyDict.empty].
    destruct (String.eqb band_name k); [|discriminate]. now intros [= <-].
Qed.

(** X9: after the reading loop all band arrays have the shape of the nir
    array, so the assembly of the pixel matrix does not fail: it has
    one row per pixel and [n_features] columns, and no side of the grid
    is negative. *)
Theorem pixel_assembly_succeeds_in_a_run (w : World) (incl : bool)
    (wl wb wr wt : float) (entries : list (string * string)) (st : ReadState)
    (nir : ndarray) :
  outcome_of (read_bands w wl wb wr wt entries read_start) = Ok st ->
  PyDict.get (band_data st) "nir" = Some nir ->
  0 <= nd_rows nir
  /\ 0 <= nd_cols nir
  /\ exists pixels,
       build_pixels incl (band_data st) (nd_rows nir) (nd_cols nir) = Ok pixels
       /\ List.length pixels = Z.to_nat (nd_rows nir * nd_cols nir)
       /\ Forall (fun row => Z.of_nat (List.length row) = n_features incl) pixels.
Proof.
  intros Hread Hnir.
  destruct (read_bands_shapes _ _ _ _ _ _ _ Hread) as (ow & oh & How & Hoh & Hshapes).
  pose proof (Hshapes "nir" nir Hnir) as Hs. unfold shape in Hs. injection Hs as Hr Hc.
  rewrite Hr, Hc. split; [assumption|]. split; [assumption|].
  destruct (build_pixels_total incl (band_data st) oh ow Hshapes) as [pixels Hp].
  exists pixels. split; [assumption|].
  destruct (build_pixels_columns _ _ _ _ _ Hp) as [Hrows Hwidth _ _ _ _ _ _ _ _ _ _].
  auto.
Qed.

Lemma demo_read_state_ok :
  outcome_of (read_bands Demo.world fzero fzero (Demo.num 4) (Demo.num 4)
                demo_entries read_start) = Ok demo_read_state.
Proof.
  unfold demo_read_state.
  destruct (outcome_of (read_bands Demo.world fzero fzero (Demo.num 4) (Demo.num 4)
                          demo_entries read_start)) as [st | e] eqn:Hrun;
    [reflexivity|].
  assert (Hok : is_ok (outcome_of (read_bands Demo.world fzero fzero (Demo.num 4)
                                     (Demo.num 4) demo_entries read_start)) = true)
    by (vm_compute; reflexivity).
  rewrite Hrun in Hok. discriminate Hok.
Qed.

Lemma demo_nir_ok : PyDict.get (band_data demo_read_state) "nir" = Some demo_nir.
Proof.
  unfold demo_nir, PyDict.get_default.
  destruct (PyDict.get (band_data demo_read_state) "nir") as [a|] eqn:Hget;
    [reflexivity|].
  assert (Hmem : PyDict.mem (band_data demo_read_state) "nir" = true)
    by (vm_compute; reflexivity).
  unfold PyDict.mem in Hmem. rewrite Hget in Hmem. discriminate Hmem.
Qed.

Lemma pixel_assembly_succeeds_in_a_run_witness :
  0 <= nd_rows demo_nir
  /\ 0 <= nd_cols demo_nir
  /\ exists pixels,
       build_pixels true (band_data demo_read_state) (nd_rows demo_nir) (nd_cols demo_nir)
       = Ok pixels
       /\ List.length pixels = Z.to_nat (nd_rows demo_nir * nd_cols demo_nir)
       /\ Forall (fun row => Z.of_nat (List.length row) = n_features true) pixels.
Proof.
  exact (pixel_assembly_succeeds_in_a_run Demo.world true fzero fzero (Demo.num 4)
           (Demo.num 4) demo_entries demo_read_state demo_nir
           demo_read_state_ok demo_nir_ok).
Defined.

(** ** The raster that is written *)

Lemma in_scatter (x : Z) (dst : list Z) :
  forall mask vals, In x (scatter dst mask vals) -> In x dst \/ In x vals.
Proof.
  induction dst as [|d dst IH]; intros mask vals H.
  - destruct mask as [|[] mask]; cbn in H; contradiction.
  - destruct mask as [|b mask]; cbn [scatter] in H; [now left|]. destruct b.
    + destruct vals as [|v vals]; cbn [In] in H; destruct H as [<- | H].
      * left. now left.
      * apply IH in H as [H | []]. left. now right.
      * right. now left.
      * apply IH in H as [H | H]; [left | right]; now right.
    + destruct H as [<- | H]; [left; now left|].
      apply IH in H as [H | H]; [left; now right | now right].
Qed.

Lemma to_uint8_range (z : Z) : 0 <= to_uint8 z <= 255.
Proof. unfold to_uint8. pose proof (Z.mod_pos_bound z 256). lia. Qed.

Lemma classified_bytes (w : World) (scaler : Scaler w) (clf : Forest w)
    (n : Z) (pixels : matrix) (cls : list Z) :
  outcome_of (classify_pixels w scaler clf n pixels) = Ok cls ->
  List.length cls = Z.to_nat n /\ Forall (fun v => 0 <= v <= 255) cls.
Proof.
  intros H. apply classify_pixels_ok in H. cbv zeta in H.
  destruct H as [[-> _] | (scaled & predicted & vals & _ & _ & _ & _ & Hvals & ->)].
  - split; [apply repeat_length|]. apply Forall_forall. intros v Hv.
    apply repeat_spec in Hv. lia.
  - split; [rewrite scatter_length; apply repeat_length|].
    apply Forall_forall. intros v Hv. apply in_scatter in Hv as [Hv | Hv].
    + apply repeat_spec in Hv. lia.
    + apply In_nth_error in Hv as [k Hk].
      destruct (Hvals k v Hk) as (L & _ & -> & _). apply to_uint8_range.
Qed.

(** X10: the raster that a run writes has no negative side, holds height x
    width values, and every value is between 0 and 255. *)
Theorem the_written_raster_is_a_grid_of_bytes (w : World) (config : Config)
    (band_urls : PyDict.dict string) (src_crs : string) (src_bounds : Bounds)
    (ts : TrainingSet) (path : string) (h wd : Z) (data : list Z) :
  In (EvRasterWrite path h wd data)
     (trace (train_and_classify w config band_urls src_crs src_bounds ts)) ->
  0 <= h
  /\ 0 <= wd
  /\ List.length data = Z.to_nat (h * wd)
  /\ Forall (fun v => 0 <= v <= 255) data.
Proof.
  intros Hin.
  apply written_raster_inv in Hin
    as (scaler & clf & wl & wb & wr & wt & st & nir & pixels
        & _ & Hread & Hnir & Hshape & _ & Hcls & _).
  destruct (read_bands_shapes _ _ _ _ _ _ _ Hread) as (ow & oh & How & Hoh & Hshapes).
  rewrite (Hshapes "nir" nir Hnir) in Hshape. injection Hshape as <- <-.
  split; [assumption|]. split; [assumption|]. now apply classified_bytes in Hcls.
Qed.

(** ** The returned summary *)

Lemma in_bind_first {A B} (m : M A) (k : A -> M B) (ev : event) :
  In ev (trace m) -> In ev (trace (bind m k)).
Proof. intros H. rewrite trace_bind. apply in_or_app. now left. Qed.

Lemma in_bind_later {A B} (m : M A) (k : A -> M B) (a : A) (ev : event) :
  outcome_of m = Ok a -> In ev (trace (k a)) -> In ev (trace (bind m k)).
Proof. intros Hm H. rewrite trace_bind, Hm. apply in_or_app. now right. Qed.

Lemma write_product_writes (w : World) (path src_crs : string) (tr : option Affine)
    (h wd : Z) (classification : list Z) (u : unit) :
  outcome_of (write_product w path src_crs tr h wd classification) = Ok u ->
  In (EvRasterWrite path h wd classification)
     (trace (write_product w path src_crs tr h wd classification)).
Proof.
  unfold write_product. cbv zeta.
  match goal with
  | |- context [gtiff_create w path ?p] =>
      destruct (gtiff_create w path p) as [[]|msg]; [|cbn; discriminate]
  end.
  intros _.
  apply in_bind_later with tt; [reflexivity|].
  apply in_bind_later with tt; [reflexivity|].
  apply in_bind_first. now left.
Qed.

(** A run of [train_and_classify] that returns. *)
Lemma train_and_classify_ok (w : World) (config : Config)
    (band_urls : PyDict.dict string) (src_crs : string) (src_bounds : Bounds)
    (ts : TrainingSet) (res : ClassificationResult) :
  outcome_of (train_and_classify w config band_urls src_crs src_bounds ts) = Ok res ->
  exists nir data,
    (3 <= List.length (feature_matrix ts))%nat
    /\ In (EvRasterWrite (output_path config) (nd_rows nir) (nd_cols nir) data)
          (trace (train_and_classify w config band_urls src_crs src_bounds ts))
    /\ res_width res = nd_cols nir
    /\ res_height res = nd_rows nir
    /\ res_classes_in_output res = unique_classes data
    /\ res_classes_sampled res = sorted (sampled_classes ts)
    /\ res_class_names res = class_info (training_data config)
    /\ res_training_samples res = List.length (feature_matrix ts)
    /\ res_success res = true
    /\ res_output_path res = output_path config
    /\ res_crs res = src_crs.
Proof.
  unfold train_and_classify.
  destruct (Nat.ltb (List.length (feature_matrix ts)) 3) eqn:Hguard; [discriminate|].
  apply Nat.ltb_ge in Hguard.
  rewrite outcome_bind.
  destruct (outcome_of (train _ _ _)) as [[[scaler clf] acc]|] eqn:Htrain; [|discriminate].
  rewrite outcome_bind.
  destruct (outcome_of (region_of_interest _ _ _ _)) as [[[[wl wb] wr] wt]|] eqn:Hroi;
    [|discriminate].
  rewrite outcome_bind.
  destruct (outcome_of (read_bands _ _ _ _ _ _ _)) as [st|] eqn:Hread; [|discriminate].
  rewrite outcome_bind.
  destruct (outcome_of (lift (PyDict.subscript (band_data st) "nir"))) as [nir|] eqn:Hnir;
    [|discriminate].
  unfold shape. rewrite outcome_bind.
  destruct (outcome_of (lift (build_pixels _ _ _ _))) as [pixels|] eqn:Hpixels;
    [|discriminate].
  rewrite outcome_bind.
  destruct (outcome_of (classify_pixels _ _ _ _ _)) as [data|] eqn:Hcls; [|discriminate].
  rewrite outcome_bind.
  destruct (outcome_of (write_product _ _ _ _ _ _ _)) as [u|] eqn:Hwrite; [|discriminate].
  cbn [ret outcome_of snd]. intros [= <-].
  exists nir, data. split; [assumption|]. split; [|repeat split; reflexivity].
  eapply in_bind_later; [exact Htrain|].
  eapply in_bind_later; [exact Hroi|].
  eapply in_bind_later; [exact Hread|].
  eapply in_bind_later; [exact Hnir|].
  eapply in_bind_later; [exact Hpixels|].
  eapply in_bind_later; [exact Hcls|].
  apply in_bind_first. eapply write_product_writes. exact Hwrite.
Qed.

(** *** [np.unique] of the positive entries *)

Lemma increasing_from (f : Z -> bool) (n : nat) :
  forall a, increasing (filter f (map Z.of_nat (seq a n)))
            /\ Forall (fun v => Z.of_nat a <= v) (filter f (map Z.of_nat (seq a n))).
Proof.
  induction n as [|n IH]; intros a; cbn [seq map filter].
  - split; [exact I | constructor].
  - destruct (IH (S a)) as [Hinc Hall].
    assert (Hall' : Forall (fun v => Z.of_nat a <= v) (filter f (map Z.of_nat (seq (S a) n)))).
    { eapply Forall_impl; [|exact Hall]. cbv beta. intros v Hv. lia. }
    destruct (f (Z.of_nat a)); [|auto]. split.
    + destruct (filter f (map Z.of_nat (seq (S a) n))) as [|y r] eqn:E; [exact I|].
      cbn [increasing]. split; [|exact Hinc]. inversion Hall. lia.
    + constructor; [lia | assumption].
Qed.

Lemma in_unique_classes (classification : list Z) (v : Z) :
  In v (unique_classes classification) <-> 1 <= v <= 255 /\ In v classification.
Proof.
  unfold unique_classes. rewrite filter_In, in_map_iff. split.
  - intros [(k & <- & Hk) Hex]. apply in_seq in Hk.
    apply existsb_exists in Hex as (x & Hx & Heq). apply Z.eqb_eq in Heq. subst x.
    split; [lia | assumption].
  - intros [Hv Hin]. split.
    + exists (Z.to_nat v). split; [lia|]. apply in_seq. lia.
    + apply existsb_exists. exists v. split; [assumption | apply Z.eqb_refl].
Qed.

(** X11: a run that returns has written a raster of the returned height and
    width to the output path; its summary reports success and at least
    3 training samples, and [classes_in_output] lists the values of the
    raster other than 0, each once, in increasing order. *)
Theorem the_summary_describes_the_written_raster (w : World) (config : Config)
    (band_urls : PyDict.dict string) (src_crs : string) (src_bounds : Bounds)
    (ts : TrainingSet) (res : ClassificationResult) :
  let run := train_and_classify w config band_urls src_crs src_bounds ts in
  outcome_of run = Ok res ->
  res_success res = true
  /\ res_training_samples res = List.length (feature_matrix ts)
  /\ (3 <= res_training_samples res)%nat
  /\ exists data,
       In (EvRasterWrite (output_path config) (res_height res) (res_width res) data)
          (trace run)
       /\ increasing (res_classes_in_output res)
       /\ forall v, In v (res_classes_in_output res) <-> In v data /\ v <> 0.
Proof.
  cbv zeta. intros Hrun.
  destruct (train_and_classify_ok _ _ _ _ _ _ _ Hrun)
    as (nir & data & Hrows & Hin & -> & -> & -> & _ & _ & -> & -> & _).
  repeat split; try assumption.
  exists data. split; [assumption|]. split.
  - apply (increasing_from _ 255 1).
  - intros v. rewrite in_unique_classes.
    apply written_raster_inv in Hin
      as (scaler & clf & wl & wb & wr & wt & st & nir' & pixels
          & _ & _ & _ & _ & _ & Hcls & _).
    apply classified_bytes in Hcls as [_ Hbytes]. rewrite Forall_forall in Hbytes.
    split; [intros [Hv Hd]; split; [assumption | lia]|].
    intros [Hd Hv]. split; [|assumption]. specialize (Hbytes v Hd). lia.
Qed.

Lemma the_written_raster_is_a_grid_of_bytes_witness :
  0 <= 4
  /\ 0 <= 4
  /\ List.length [0; 1; 1; 1; 0; 1; 1; 1; 0; 1; 1; 1; 0; 1; 1; 1] = Z.to_nat (4 * 4)
  /\ Forall (fun v => 0 <= v <= 255) [0; 1; 1; 1; 0; 1; 1; 1; 0; 1; 1; 1; 0; 1; 1; 1].
Proof.
  apply (the_written_raster_is_a_grid_of_bytes Demo.world
           (Demo.config "item/all" Demo.one_class)
           (get_band_urls_for_item Demo.world (Demo.scene "primary/" Demo.all_bands))
           "EPSG:32633" (bounds (Demo.raster 3000)) (demo_training_set Demo.one_class)
           "out.tif").
  vm_compute. repeat (first [left; reflexivity | right]).
Defined.

Lemma the_summary_describes_the_written_raster_witness :
  exists res,
    outcome_of (demo_run Demo.one_class) = Ok res
    /\ res_success res = true
    /\ res_training_samples res = List.length (feature_matrix (demo_training_set Demo.one_class))
    /\ (3 <= res_training_samples res)%nat
    /\ exists data,
         In (EvRasterWrite "out.tif" (res_height res) (res_width res) data)
            (trace (demo_run Demo.one_class))
         /\ increasing (res_classes_in_output res)
         /\ forall v, In v (res_classes_in_output res) <-> In v data /\ v <> 0.
Proof.
  destruct (outcome_of (demo_run Demo.one_class)) as [res | e] eqn:Hrun.
  - exists res. split; [reflexivity|].
    exact (the_summary_describes_the_written_raster Demo.world
             (Demo.config "item/all" Demo.one_class)
             (get_band_urls_for_item Demo.world (Demo.scene "primary/" Demo.all_bands))
             "EPSG:32633" (bounds (Demo.raster 3000)) (demo_training_set Demo.one_class)
             res Hrun).
  - exfalso.
    assert (Hok : is_ok (outcome_of (demo_run Demo.one_class)) = true)
      by (vm_compute; reflexivity).
    rewrite Hrun in Hok. discriminate Hok.
Defined.

(** ** The names of the classes *)

Lemma to_int_proper (n : Z) :
  Z.to_int n <> Decimal.Pos Decimal.Nil /\ Z.to_int n <> Decimal.Neg Decimal.Nil.
Proof.
  split; intros H; pose proof (DecimalZ.of_to n) as Hn; rewrite H in Hn;
    cbn in Hn; subst n; discriminate H.
Qed.

(** [str] of an integer can be read back: two labels have one key only
    when they are equal. *)
Lemma str_of_int_inj (n n' : Z) : str_of_int n = str_of_int n' -> n = n'.
Proof.
  unfold str_of_int. intros H.
  destruct (to_int_proper n) as [Hp Hn]. destruct (to_int_proper n') as [Hp' Hn'].
  pose proof (NilZero.isi _ Hp Hn) as E. pose proof (NilZero.isi _ Hp' Hn') as E'.
  rewrite H in E. rewrite E in E'. injection E' as E'.
  now apply DecimalZ.to_int_inj.
Qed.

Lemma str_of_int_eqb (n n' : Z) : String.eqb (str_of_int n) (str_of_int n') = (n =? n').
Proof.
  destruct (String.eqb_spec (str_of_int n) (str_of_int n')) as [H | H].
  - apply str_of_int_inj in H. subst. now rewrite Z.eqb_refl.
  - symmetry. apply Z.eqb_neq. intros ->. now apply H.
Qed.

Lemma class_info_fold (points : list TrainingPoint) :
  class_info points = fold_left name_label points PyDict.empty.
Proof. reflexivity. Qed.

Lemma name_label_get (info : PyDict.dict string) (point : TrainingPoint) (k : string) :
  PyDict.get (name_label info point) k
  = match PyDict.get info k with
    | Some name => Some name
    | None => if String.eqb (str_of_int (label point)) k
              then Some (point_name point) else None
    end.
Proof.
  unfold name_label, PyDict.mem. cbv zeta.
  destruct (PyDict.get info (str_of_int (label point))) as [name|] eqn:Hkey.
  - destruct (PyDict.get info k) eqn:Hk; [reflexivity|].
    destruct (String.eqb_spec (str_of_int (label point)) k) as [<- | _]; congruence.
  - rewrite get_set. fold (point_name point).
    destruct (String.eqb_spec (str_of_int (label point)) k) as [<- | _].
    + now rewrite Hkey.
    + now destruct (PyDict.get info k).
Qed.

Lemma fold_name_label_get (points : list TrainingPoint) (k : string) :
  forall info,
    PyDict.get (fold_left name_label points info) k
    = match PyDict.get info k with
      | Some name => Some name
      | None => option_map point_name
                  (find (fun point => String.eqb (str_of_int (label point)) k) points)
      end.
Proof.
  induction points as [|point rest IH]; intros info; cbn [fold_left find].
  - now destruct (PyDict.get info k).
  - rewrite IH, name_label_get.
    destruct (PyDict.get info k); [reflexivity|].
    now destruct (String.eqb (str_of_int (label point)) k).
Qed.

Lemma find_ext {A} (f g : A -> bool) (l : list A) :
  (forall a, f a = g a) -> find f l = find g l.
Proof.
  intros H. induction l as [|a l IH]; cbn [find]; [reflexivity|].
  rewrite H, IH. reflexivity.
Qed.

(** X12: the class names are keyed by the labels of all training points;
    a label has the name of the first training point that carries it
    (its class name or "class_<label>"), and two labels never share a
    key. *)
Theorem class_names_follow_the_first_point_of_a_label (points : list TrainingPoint) :
  (forall lbl,
     PyDict.get (class_info points) (str_of_int lbl)
     = option_map point_name (first_with_label points lbl))
  /\ (forall point,
        In point points ->
        exists first,
          first_with_label points (label point) = Some first
          /\ label first = label point
          /\ PyDict.get (class_info points) (str_of_int (label point))
             = Some (point_name first))
  /\ (forall k name,
        PyDict.get (class_info points) k = Some name ->
        exists point, In point points /\ k = str_of_int (label point))
  /\ (forall n n', str_of_int n = str_of_int n' -> n = n').
Proof.
  assert (Hget : forall lbl,
             PyDict.get (class_info points) (str_of_int lbl)
             = option_map point_name (first_with_label points lbl)).
  { intros lbl. rewrite class_info_fold, fold_name_label_get.
    cbn [PyDict.get PyDict.empty]. unfold first_with_label. f_equal.
    apply find_ext. intros point. apply str_of_int_eqb. }
  split; [exact Hget|]. split; [|split; [|exact str_of_int_inj]].
  - intros point Hin. rewrite Hget. unfold first_with_label.
    destruct (find (fun q => label q =? label point) points) as [first|] eqn:Hfind.
    + exists first. apply find_some in Hfind as [_ Heq]. apply Z.eqb_eq in Heq. auto.
    + exfalso. apply (find_none _ _ Hfind) in Hin. rewrite Z.eqb_refl in Hin. discriminate.
  - intros k name Hk. rewrite class_info_fold, fold_name_label_get in Hk.
    cbn [PyDict.get PyDict.empty] in Hk.
    destruct (find (fun point => String.eqb (str_of_int (label point)) k) points)
      as [point|] eqn:Hfind; [|discriminate].
    apply find_some in Hfind as [Hin Heq]. apply String.eqb_eq in Heq.
    exists point. auto.
Qed.

(** ** The region of interest *)

Lemma SFltb_leb (x y : float) : SFltb x y = true -> SFleb x y = true.
Proof.
  unfold SFltb, SFleb. destruct (SFcompare x y) as [[]|]; congruence.
Qed.

Lemma SFleb_refl (x : float) : is_nan x = false -> SFleb x x = true.
Proof.
  unfold SFleb. destruct x as [s | s | | s m e]; cbn [is_nan SFcompare]; try discriminate;
    intros _; try reflexivity.
  - now destruct s.
  - destruct s; rewrite Z.compare_refl, Pos.compare_cont_refl; reflexivity.
Qed.

Lemma py_max2_ge (a x : float) : is_nan a = false -> SFleb a (py_max2 a x) = true.
Proof.
  intros Ha. unfold py_max2. destruct (SFltb a x) eqn:E.
  - now apply SFltb_leb.
  - now apply SFleb_refl.
Qed.

Lemma py_min2_le (a x : float) : is_nan a = false -> SFleb (py_min2 a x) a = true.
Proof.
  intros Ha. unfold py_min2. destruct (SFltb x a) eqn:E.
  - now apply SFltb_leb.
  - now apply SFleb_refl.
Qed.

(** Through one [bind] of a computation that returned. *)
Ltac bind_inv H :=
  rewrite outcome_bind in H;
  match type of H with
  | match ?o with _ => _ end = _ =>
      let E := fresh "E" in destruct o eqn:E; [|discriminate H]
  end.

(** X13: when the region of interest is computed there is a training point,
    and the region is clipped to the image: its left and bottom are not
    below, its right and top not above those of the image bounds (for
    bounds that are numbers). *)
Theorem the_window_stays_inside_the_image (w : World) (points : list TrainingPoint)
    (src_crs : string) (src_bounds : Bounds) (l b r t : float) :
  outcome_of (region_of_interest w points src_crs src_bounds) = Ok (l, b, r, t) ->
  points <> []
  /\ (is_nan (b_left src_bounds) = false -> SFleb (b_left src_bounds) l = true)
  /\ (is_nan (b_bottom src_bounds) = false -> SFleb (b_bottom src_bounds) b = true)
  /\ (is_nan (b_right src_bounds) = false -> SFleb r (b_right src_bounds) = true)
  /\ (is_nan (b_top src_bounds) = false -> SFleb t (b_top src_bounds) = true).
Proof.
  unfold region_of_interest. cbv zeta. intros H.
  split.
  { intros ->. cbn in H. discriminate H. }
  do 4 bind_inv H.
  bind_inv H. match goal with p : (list float * list float)%type |- _ => destruct p as [xs ys] end.
  do 4 bind_inv H.
  cbn [ret outcome_of snd] in H. injection H as <- <- <- <-.
  repeat split; intros Hnan; first [now apply py_max2_ge | now apply py_min2_le].
Qed.

Lemma the_window_stays_inside_the_image_witness :
  exists l b r t,
    outcome_of (region_of_interest Demo.world Demo.one_class "EPSG:32633"
                  (bounds (Demo.raster 3000))) = Ok (l, b, r, t)
    /\ SFleb (b_left (bounds (Demo.raster 3000))) l = true
    /\ SFleb r (b_right (bounds (Demo.raster 3000))) = true.
Proof.
  destruct (outcome_of (region_of_interest Demo.world Demo.one_class "EPSG:32633"
                          (bounds (Demo.raster 3000)))) as [[[[l b] r] t] | e] eqn:Hrun.
  - exists l, b, r, t. split; [reflexivity|].
    destruct (the_window_stays_inside_the_image Demo.world Demo.one_class "EPSG:32633"
                (bounds (Demo.raster 3000)) l b r t Hrun)
      as (_ & Hl & _ & Hr & _).
    split; [apply Hl | apply Hr]; reflexivity.
  - exfalso. vm_compute in Hrun. discriminate Hrun.
Defined.

(** ** The command line *)

Lemma classify_image_success (w : World) (config : Config) (res : ClassificationResult) :
  outcome_of (classify_image w config) = Ok res -> res_success res = true.
Proof.
  unfold classify_image. intros H.
  do 2 bind_inv H. unfold classify_scene in H.
  destruct (PyDict.len _ <? 4); [discriminate H|].
  do 4 bind_inv H.
  apply train_and_classify_ok in H as (nir & data & H). tauto.
Qed.

(** X14: [main] prints exactly one document and exits with 0 or 1; it exits
    with 0 exactly when the document is the summary of a successful
    classification.  Without a path argument it only prints the usage
    error; a configuration that cannot be loaded and every exception of
    [classify_image] are printed as an error, with exit code 1. *)
Theorem main_prints_one_document (w : World) (load_config : string -> outcome Config)
    (argv : list string) :
  let p := main w load_config argv in
  (exists doc,
     proc_stdout p = [doc]
     /\ (proc_exit p = 0 \/ proc_exit p = 1)
     /\ (proc_exit p = 0 <-> exists res, doc = PrintedResult res /\ res_success res = true))
  /\ ((List.length argv < 2)%nat ->
      p = {| proc_stdout := [PrintedUsage]; proc_events := []; proc_exit := 1 |})
  /\ (forall path msg,
        nth_error argv 1 = Some path ->
        load_config path = Raises msg ->
        p = {| proc_stdout := [PrintedError (LibraryError msg)];
               proc_events := []; proc_exit := 1 |})
  /\ (forall path config,
        nth_error argv 1 = Some path ->
        load_config path = Returns config ->
        proc_events p = trace (classify_image w config)
        /\ proc_stdout p
           = [match outcome_of (classify_image w config) with
              | Ok res => PrintedResult res
              | Err e => PrintedError e
              end]).
Proof.
  cbv zeta. unfold main.
  assert (Hpath : forall path, nth_error argv 1 = Some path ->
                    Nat.ltb (List.length argv) 2 = false /\ nth 1 argv "" = path).
  { intros path Hp. destruct argv as [|a0 [|a1 rest]]; try discriminate.
    cbn in Hp. injection Hp as <-. auto. }
  split; [|split; [|split]].
  - destruct (Nat.ltb (List.length argv) 2).
    + exists PrintedUsage. cbn. repeat split; auto.
      * discriminate.
      * intros (res & Hres & _). discriminate Hres.
    + destruct (load_and_classify w load_config (nth 1 argv "")) as [t [res | e]] eqn:Hrun.
      * exists (PrintedResult res). cbn. repeat split; auto.
        intros _. exists res. split; [reflexivity|].
        unfold load_and_classify in Hrun.
        destruct (load_config (nth 1 argv "")) as [config | msg]; [|discriminate Hrun].
        apply (classify_image_success w config).
        unfold call, ret, bind in Hrun.
        destruct (classify_image w config) as [t' r'] eqn:Hc.
        cbn in Hrun. injection Hrun as _ ->. reflexivity.
      * exists (PrintedError e). cbn. repeat split; auto.
        -- discriminate.
        -- intros (res & Hres & _). discriminate Hres.
  - intros Hlen. apply Nat.ltb_lt in Hlen. now rewrite Hlen.
  - intros path msg Hp Hload. destruct (Hpath path Hp) as [-> ->].
    unfold load_and_classify. now rewrite Hload.
  - intros path config Hp Hload. destruct (Hpath path Hp) as [-> ->].
    unfold load_and_classify. rewrite Hload.
    unfold call, ret, bind. destruct (classify_image w config) as [t [res | e]]; auto.
Qed.

Lemma same_float_eq (x y : float) : same_float x y = true -> x = y.
Proof.
  destruct x as [s | s | | s m e], y as [s' | s' | | s' m' e']; cbn [same_float];
    try discriminate; try reflexivity.
  - intros H. apply Bool.eqb_prop in H. now subst.
  - intros H. apply Bool.eqb_prop in H. now subst.
  - intros H. apply andb_prop in H as [H He]. apply andb_prop in H as [Hs Hm].
    apply Bool.eqb_prop in Hs. apply Pos.eqb_eq in Hm. apply Z.eqb_eq in He. now subst.
Qed.

Lemma in_range (n k : Z) : 0 <= k < n -> In k (range n).
Proof.
  intros H. unfold range. apply in_map_iff. exists (Z.to_nat k).
  split; [lia|]. apply in_seq. lia.
Qed.

Lemma keeps_side_small : forallb keeps_side (range (MAX_DIM + 1)) = true.
Proof. vm_compute. reflexivity. Qed.

Lemma keeps_side_spec (n : Z) :
  0 <= n <= MAX_DIM ->
  exists a q1 q2,
    int_truediv n MAX_DIM = Ok a
    /\ (SFltb a (float_of_Z binary64 1) = true \/ a = float_of_Z binary64 1)
    /\ int_div_number n (PyInt 1) = Ok q1 /\ py_int q1 = Ok n
    /\ int_div_number n (PyFloat (float_of_Z binary64 1)) = Ok q2 /\ py_int q2 = Ok n.
Proof.
  intros Hn. pose proof keeps_side_small as H. rewrite forallb_forall in H.
  assert (Hin : In n (range (MAX_DIM + 1))) by (apply in_range; unfold MAX_DIM in *; lia).
  specialize (H n Hin). unfold keeps_side in H. cbv zeta in H.
  destruct (int_truediv n MAX_DIM) as [a|]; [|discriminate].
  destruct (int_div_number n (PyInt 1)) as [q1|]; [|discriminate].
  destruct (int_div_number n (PyFloat (float_of_Z binary64 1))) as [q2|]; [|discriminate].
  apply andb_prop in H as [Ha Hq].
  destruct (py_int q1) as [r1|] eqn:E1; [|discriminate].
  destruct (py_int q2) as [r2|] eqn:E2; [|discriminate].
  apply andb_prop in Hq as [H1 H2]. apply Z.eqb_eq in H1, H2. subst r1 r2.
  exists a, q1, q2. repeat split; try reflexivity; try assumption.
  apply orb_prop in Ha as [Ha | Ha]; [now left | right; now apply same_float_eq].
Qed.

(** X15: a window of at most 1000 x 1000 pixels is not resampled: the output
    size is the size of the window. *)
Theorem small_windows_keep_their_size (win : Window) :
  0 <= width win <= MAX_DIM ->
  0 <= height win <= MAX_DIM ->
  output_size win = Ok (width win, height win).
Proof.
  intros Hw Hh. unfold output_size.
  destruct (keeps_side_spec _ Hw) as (a & qa1 & qa2 & -> & Ha & Hqa1 & Hra1 & Hqa2 & Hra2).
  destruct (keeps_side_spec _ Hh) as (b & qb1 & qb2 & -> & Hb & Hqb1 & Hrb1 & Hqb2 & Hrb2).
  cbn [result_bind]. unfold max_with_one.
  set (m := if SFltb a b then b else a).
  assert (Hm : SFltb m (float_of_Z binary64 1) = true \/ m = float_of_Z binary64 1)
    by (unfold m; destruct (SFltb a b); assumption).
  destruct Hm as [Hm | Hm]; rewrite Hm.
  - rewrite Hqa1. cbn [result_bind]. rewrite Hra1. cbn [result_bind].
    rewrite Hqb1. cbn [result_bind]. rewrite Hrb1. reflexivity.
  - change (SFltb (float_of_Z binary64 1) (float_of_Z binary64 1)) with false.
    cbv iota.
    rewrite Hqa2. cbn [result_bind]. rewrite Hra2. cbn [result_bind].
    rewrite Hqb2. cbn [result_bind]. rewrite Hrb2. reflexivity.
Qed.

Lemma small_windows_keep_their_size_witness :
  output_size {| col_off := 0; row_off := 0; width := 1000; height := 0 |} = Ok (1000, 0).
Proof.
  apply (small_windows_keep_their_size
           {| col_off := 0; row_off := 0; width := 1000; height := 0 |});
    cbn; unfold MAX_DIM; lia.
Defined.

(** ** The longer side of a downscaled window *)

Lemma py_int_pos_lower (m : positive) (e r : Z) :
  py_int (S754_finite false m e) = Ok r -> (F2R (Zpos m) e < IZR r + 1)%R.
Proof.
  cbn [py_int cond_Zopp]. intros [= <-]. destruct (Z_le_gt_dec 0 e) as [He | He].
  - rewrite Z.shiftl_mul_pow2 by assumption.
    rewrite <- F2R_int, F2R_scale by assumption. replace (0 + e) with e by lia. lra.
  - rewrite Z.shiftl_div_pow2 by lia.
    rewrite <- plus_IZR, <- F2R_int.
    pose proof (F2R_div (Zpos m) e (- e) ltac:(lia)) as [_ H].
    replace (e + - e) with 0 in H by lia. exact H.
Qed.

Lemma Rdiv_ge_of_mul (x y c : R) : (0 < y)%R -> (c * y <= x)%R -> (c <= x / y)%R.
Proof.
  intros Hy H. apply Rmult_le_reg_r with y; [assumption|].
  unfold Rdiv. rewrite Rmult_assoc, Rinv_l, Rmult_1_r by lra. assumption.
Qed.

(** The quotient of a positive integer by [MAX_DIM], as a float: a
    positive canonical float close to the quotient. *)
Lemma int_truediv_close (n : Z) (fn : float) :
  0 < n ->
  int_truediv n MAX_DIM = Ok fn ->
  fn = S754_zero false
  \/ exists mf ef,
       fn = S754_finite false mf ef
       /\ canonical_mantissa 53 1024 mf ef = true
       /\ (IZR n * (999998 / 1000000000) - / 1000000000 <= F2R (Zpos mf) ef
           <= IZR n * (1000002 / 1000000000) + / 1000000000)%R.
Proof.
  intros Hn Hfn. unfold MAX_DIM in Hfn.
  assert (HN : (0 < IZR n)%R) by (apply IZR_lt; lia).
  destruct (int_truediv_pos n 1000 fn ltac:(lia) ltac:(lia) Hfn) as (u & Hu & Hrd).
  apply unit_of_small in Hu; [|lra].
  pose proof (int_truediv_comparable _ _ _ Hfn) as Hc.
  destruct fn as [s | s | | s mf ef]; try contradiction; cbn in Hrd.
  - destruct Hrd as [-> _]. now left.
  - destruct Hrd as (-> & Hcan & _ & Hv). right. exists mf, ef.
    split; [reflexivity|]. split; [assumption|]. lra.
Qed.

(** One side of the output: at least 999 when it is the longer side of a
    window above [MAX_DIM]. *)
Lemma out_dim_ge (n k : Z) (fn fk x y q : float) (r : Z) :
  MAX_DIM < n -> k <= n ->
  int_truediv n MAX_DIM = Ok fn ->
  int_truediv k MAX_DIM = Ok fk ->
  (x = fn /\ y = fk) \/ (x = fk /\ y = fn) ->
  int_div_number n (max_with_one x y) = Ok q ->
  py_int q = Ok r ->
  999 <= r.
Proof.
  intros Hn Hk Hfn Hfk Hxy Hq Hr.
  assert (HN : (1001 <= IZR n)%R) by (apply IZR_le; unfold MAX_DIM in Hn; lia).
  assert (HK : (IZR k <= IZR n)%R) by (apply IZR_le; lia).
  pose proof (int_truediv_comparable _ _ _ Hfn) as Hcn.
  pose proof (int_truediv_comparable _ _ _ Hfk) as Hck.
  destruct (int_truediv_close n fn ltac:(unfold MAX_DIM in Hn; lia) Hfn)
    as [-> | (mf & ef & -> & Hcf & Hvf)].
  { exfalso. unfold MAX_DIM in Hfn.
    destruct (int_truediv_pos n 1000 _ ltac:(unfold MAX_DIM in Hn; lia) ltac:(lia) Hfn)
      as (u & Hu & Hrd).
    apply unit_of_small in Hu; [|lra]. cbn in Hrd. lra. }
  set (vf := F2R (Zpos mf) ef) in *.
  assert (Hcx : comparable x) by (destruct Hxy as [[-> _] | [-> _]]; assumption).
  assert (Hcy : comparable y) by (destruct Hxy as [[_ ->] | [_ ->]]; assumption).
  assert (Hwhich : x = S754_finite false mf ef \/ y = S754_finite false mf ef)
    by (destruct Hxy as [[-> _] | [_ ->]]; auto).
  destruct (larger_of x y mf ef Hcx Hcy Hwhich) as (mm & em & Em & Hcm & Hvm).
  fold vf in Hvm. set (vm := F2R (Zpos mm) em) in *.
  (* the scale is close to n / 1000 from above as well *)
  assert (Hvm_hi : (vm <= IZR n * (1000002 / 1000000000) + / 1000000000)%R).
  { assert (Hcase : S754_finite false mm em = S754_finite false mf ef
                    \/ S754_finite false mm em = fk).
    { rewrite <- Em. destruct Hxy as [[-> ->] | [-> ->]]; destruct (SFltb _ _); auto. }
    destruct Hcase as [[= -> ->] | Hfk'].
    - unfold vm, vf in *. lra.
    - destruct (Z_le_gt_dec k 0) as [Hk0 | Hk0].
      + exfalso. rewrite <- Hfk' in Hfk.
        apply int_truediv_nonpos in Hfk; [|assumption | unfold MAX_DIM; lia].
        destruct Hfk as [H | [H | (m0 & e0 & H)]]; discriminate H.
      + rewrite <- Hfk' in Hfk.
        destruct (int_truediv_close k _ ltac:(lia) Hfk) as [H | (mk & ek & [= <- <-] & _ & Hvk)];
          [discriminate H|].
        fold vm in Hvk. lra. }
  unfold max_with_one in Hq. rewrite Em, one_is in Hq.
  destruct (SFltb (S754_finite false mm em) (S754_finite false 4503599627370496 (-52)))
    eqn:Hone.
  { exfalso.
    apply (SFltb_true_pos 53 1024 ltac:(lia) mm 4503599627370496 em (-52) Hcm eq_refl)
      in Hone.
    rewrite one_value in Hone. fold vm in Hone. lra. }
  cbn [int_div_number] in Hq.
  destruct (int_to_float n) as [fx|] eqn:Hx; [|discriminate].
  cbn [result_bind] in Hq. unfold float_truediv in Hq. cbn [is_zero] in Hq.
  injection Hq as <-.
  destruct (int_to_float_pos n fx ltac:(unfold MAX_DIM in Hn; lia) Hx) as (u2 & Hu2 & Hrd2).
  apply unit_of_small in Hu2; [|lra].
  destruct fx as [sx | sx | | sx mx ex]; cbn in Hrd2; try contradiction.
  { exfalso. lra. }
  { cbn in Hr. discriminate. }
  destruct Hrd2 as (-> & _ & _ & Hvx).
  unfold fdiv in Hr. cbn [prec emax binary64] in Hr.
  destruct (SFdiv_rounded 53 1024 ltac:(lia) false false mx mm ex em) as (u3 & Hu3 & Hrd3).
  cbv zeta in Hu3, Hrd3. fold vm in Hu3, Hrd3.
  set (vx := F2R (Zpos mx) ex) in *.
  assert (Hvm_pos : (0 < vm)%R) by lra.
  assert (HX : (99999 / 100 <= vx / vm)%R).
  { apply Rdiv_ge_of_mul; [assumption|]. lra. }
  apply unit_of_small in Hu3; [|lra].
  enough (Hlt : (998 < IZR r)%R) by (apply lt_IZR in Hlt; lia).
  destruct (SFdiv 53 1024 (S754_finite false mx ex) (S754_finite false mm em))
    as [sq | sq | | sq mq eq]; cbn in Hrd3; try contradiction.
  - exfalso. lra.
  - cbn in Hr. discriminate.
  - destruct Hrd3 as (-> & _ & _ & Hvq).
    apply py_int_pos_lower in Hr. lra.
Qed.

(** X16: when the longer side of the window exceeds 1000 pixels, the
    corresponding side of the output is 999 or 1000 pixels long. *)
Theorem a_downscaled_window_keeps_its_longer_side (win : Window) (out_width out_height : Z) :
  output_size win = Ok (out_width, out_height) ->
  (MAX_DIM < width win -> height win <= width win -> 999 <= out_width <= MAX_DIM)
  /\ (MAX_DIM < height win -> width win <= height win -> 999 <= out_height <= MAX_DIM).
Proof.
  intros Hsize. destruct (output_size_le _ _ _ Hsize) as [Hw_le Hh_le].
  unfold output_size in Hsize.
  destruct (int_truediv (width win) MAX_DIM) as [a|] eqn:Ha; [|discriminate].
  destruct (int_truediv (height win) MAX_DIM) as [b|] eqn:Hb; [|discriminate].
  cbn [result_bind] in Hsize.
  destruct (int_div_number (width win) (max_with_one a b)) as [qw|] eqn:Hqw; [|discriminate].
  cbn [result_bind] in Hsize.
  destruct (py_int qw) as [ow|] eqn:How; [|discriminate].
  cbn [result_bind] in Hsize.
  destruct (int_div_number (height win) (max_with_one a b)) as [qh|] eqn:Hqh; [|discriminate].
  cbn [result_bind] in Hsize.
  destruct (py_int qh) as [oh|] eqn:Hoh; [|discriminate].
  cbn [result_bind] in Hsize. injection Hsize as <- <-.
  split; intros Hbig Hlonger; (split; [|assumption]).
  - apply (out_dim_ge (width win) (height win) a b a b qw); auto.
  - apply (out_dim_ge (height win) (width win) b a a b qh); auto.
Qed.

Lemma a_downscaled_window_keeps_its_longer_side_witness : 999 <= 999 <= MAX_DIM.
Proof.
  apply (proj1 (a_downscaled_window_keeps_its_longer_side
                  {| col_off := 0; row_off := 0; width := 1070; height := 500 |}
                  999 467 eq_refl));
    cbn; unfold MAX_DIM; lia.
Defined.

(** ** The errors that leave [classify_image] *)

Section Avoiding.
Variable bad : error -> bool.
Hypothesis library_errors_pass : forall msg, bad (LibraryError msg) = false.

Lemma safe_bind {A B} (m : M A) (k : A -> M B) :
  safe bad m -> (forall a, safe bad (k a)) -> safe bad (bind m k).
Proof.
  unfold safe. rewrite outcome_bind. destruct (outcome_of m); auto.
Qed.

Lemma avoids_bind {A B} (r : result A) (k : A -> result B) :
  avoids bad r -> (forall a, avoids bad (k a)) -> avoids bad (result_bind r k).
Proof. destruct r; cbn; auto. Qed.

Lemma safe_call {A} (o : outcome A) : safe bad (call o).
Proof. destruct o; cbn; auto. Qed.

Lemma safe_ret {A} (a : A) : safe bad (ret a).
Proof. exact I. Qed.

Lemma safe_emit (ev : event) : safe bad (emit ev).
Proof. exact I. Qed.

Lemma safe_lift {A} (r : result A) : avoids bad r -> safe bad (lift r).
Proof. auto. Qed.

Lemma safe_returns {A} (m : M A) : returns m -> safe bad m.
Proof. intros [a H]. unfold safe. now rewrite H. Qed.

End Avoiding.

Ltac safe_step :=
  lazymatch goal with
  | |- safe _ (ret _) => apply safe_ret
  | |- safe _ (emit _) => apply safe_emit
  | |- safe _ (call _) => apply safe_call; intros; reflexivity
  | |- safe _ (lift _) => apply safe_lift
  | |- safe _ (raise _) => reflexivity
  | |- safe _ (bind _ _) => apply safe_bind; [ | intros ? ]
  | |- avoids _ (result_bind _ _) => apply avoids_bind; [ | intros ? ]
  | |- avoids _ (Ok _) => exact I
  | |- avoids _ (Err _) => reflexivity
  | |- safe _ (if ?x then _ else _) => destruct x
  | |- avoids _ (if ?x then _ else _) => destruct x
  | |- safe _ (match ?x with _ => _ end) => destruct x
  | |- avoids _ (match ?x with _ => _ end) => destruct x
  end.

Ltac safe_tac := repeat safe_step; auto.

(** *** No division by zero *)

Lemma int_truediv_nonzero (n d : Z) : d <> 0 -> avoids is_zero_division (int_truediv n d).
Proof.
  intros Hd. unfold int_truediv. apply Z.eqb_neq in Hd. rewrite Hd. safe_tac.
Qed.

(** [scale] is never zero: it is 1 or a float that is not below 1. *)
Lemma scale_nonzero (n : Z) (a b : float) :
  avoids is_zero_division (int_div_number n (max_with_one a b)).
Proof.
  unfold max_with_one. set (m := if SFltb a b then b else a).
  destruct (SFltb m (float_of_Z binary64 1)) eqn:Hone; cbn [int_div_number].
  - now apply int_truediv_nonzero.
  - apply avoids_bind; [unfold int_to_float; safe_tac|]. intros x.
    unfold float_truediv. destruct m as [s | s | | s mm em]; cbn [is_zero]; try exact I.
    destruct s; discriminate Hone.
Qed.

Lemma output_size_no_zero_division (win : Window) :
  avoids is_zero_division (output_size win).
Proof.
  unfold output_size.
  apply avoids_bind; [now apply int_truediv_nonzero|]. intros a.
  apply avoids_bind; [now apply int_truediv_nonzero|]. intros b.
  cbv zeta.
  apply avoids_bind; [apply scale_nonzero|]. intros qw.
  apply avoids_bind; [unfold py_int; safe_tac|]. intros ow.
  apply avoids_bind; [apply scale_nonzero|]. intros qh.
  apply avoids_bind; [unfold py_int; safe_tac|]. intros oh.
  exact I.
Qed.

Lemma no_zero_division_in_masked_assign (dst : list Z) (mask : list bool) (vals : list Z) :
  avoids is_zero_division (masked_assign dst mask vals).
Proof.
  unfold masked_assign.
  destruct (negb _); [reflexivity|].
  destruct (Nat.eqb _ _); [exact I|].
  destruct (map to_uint8 vals) as [|v [|v' r]]; cbn; auto.
Qed.

Lemma no_zero_division_in_read_bands (w : World) (wl wb wr wt : float)
    (entries : list (string * string)) :
  forall st, safe is_zero_division (read_bands w wl wb wr wt entries st).
Proof.
  induction entries as [|[band_name url] rest IH]; intros st; cbn [read_bands].
  - exact I.
  - apply safe_bind; [|intros st'; apply IH].
    unfold read_band, clamp_window, py_int, read_array.
    safe_tac; apply output_size_no_zero_division.
Qed.

Lemma no_zero_division_after_sampling (w : World) (config : Config)
    (band_urls : PyDict.dict string) (src_crs : string) (src_bounds : Bounds)
    (ts : TrainingSet) :
  safe is_zero_division (train_and_classify w config band_urls src_crs src_bounds ts).
Proof.
  unfold train_and_classify. destruct (Nat.ltb _ 3); [reflexivity|].
  apply safe_bind; [unfold train; safe_tac|]. intros [[scaler clf] acc].
  apply safe_bind.
  { unfold region_of_interest, py_min_list, py_max_list. safe_tac. }
  intros [[[wl wb] wr] wt].
  apply safe_bind; [apply no_zero_division_in_read_bands|]. intros st.
  apply safe_bind; [unfold PyDict.subscript; safe_tac|]. intros nir.
  destruct (shape nir) as [h wd].
  apply safe_bind; [unfold build_pixels, assign_column; safe_tac|]. intros pixels.
  apply safe_bind.
  { unfold classify_pixels, boolean_index. safe_tac.
    apply no_zero_division_in_masked_assign. }
  intros classification.
  apply safe_bind; [unfold write_product; safe_tac|]. intros _. exact I.
Qed.

(** *** No minimum of an empty sequence *)

Lemma safe_bind_ret (bad : error -> bool) {A B} (a : A) (k : A -> M B) :
  safe bad (k a) -> safe bad (bind (ret a) k).
Proof. unfold safe. now rewrite outcome_bind. Qed.

Lemma py_min_list_nonempty (l : list float) :
  l <> [] -> avoids is_empty_sequence (py_min_list l).
Proof. destruct l; [congruence | intros _; exact I]. Qed.

Lemma py_max_list_nonempty (l : list float) :
  l <> [] -> avoids is_empty_sequence (py_max_list l).
Proof. destruct l; [congruence | intros _; exact I]. Qed.

Lemma region_of_interest_nonempty (w : World) (points : list TrainingPoint)
    (src_crs : string) (src_bounds : Bounds) :
  keeps_lengths w ->
  points <> [] ->
  safe is_empty_sequence (region_of_interest w points src_crs src_bounds).
Proof.
  intros Hw Hpoints. unfold region_of_interest. cbv zeta.
  assert (Hlat : map lat points <> []) by (destruct points; [congruence | discriminate]).
  assert (Hlon : map lon points <> []) by (destruct points; [congruence | discriminate]).
  apply safe_bind; [now apply py_min_list_nonempty|]. intros lo_lat.
  apply safe_bind; [now apply py_max_list_nonempty|]. intros hi_lat.
  apply safe_bind; [now apply py_min_list_nonempty|]. intros lo_lon.
  apply safe_bind; [now apply py_max_list_nonempty|]. intros hi_lon.
  match goal with
  | |- context [transform_coords w ?a ?b ?xs ?ys] =>
      destruct (transform_coords w a b xs ys) as [[xs' ys']|msg] eqn:Htr;
      [apply Hw in Htr as [Hx Hy] | reflexivity]
  end.
  assert (Hxs : xs' <> []) by (destruct xs'; [discriminate Hx | discriminate]).
  assert (Hys : ys' <> []) by (destruct ys'; [discriminate Hy | discriminate]).
  cbn [call]. apply safe_bind_ret.
  apply safe_bind; [now apply py_min_list_nonempty|]. intros min_xs.
  apply safe_bind; [now apply py_max_list_nonempty|]. intros max_xs.
  apply safe_bind; [now apply py_min_list_nonempty|]. intros min_ys.
  apply safe_bind; [now apply py_max_list_nonempty|]. intros max_ys.
  exact I.
Qed.

Lemma no_empty_sequence_in_output_size (win : Window) :
  avoids is_empty_sequence (output_size win).
Proof.
  unfold output_size, int_truediv, int_div_number, max_with_one, float_truediv,
    int_to_float, int_truediv, py_int.
  safe_tac.
Qed.

Lemma no_empty_sequence_in_masked_assign (dst : list Z) (mask : list bool) (vals : list Z) :
  avoids is_empty_sequence (masked_assign dst mask vals).
Proof.
  unfold masked_assign.
  destruct (negb _); [reflexivity|].
  destruct (Nat.eqb _ _); [exact I|].
  destruct (map to_uint8 vals) as [|v [|v' r]]; cbn; auto.
Qed.

Lemma no_empty_sequence_in_read_bands (w : World) (wl wb wr wt : float)
    (entries : list (string * string)) :
  forall st, safe is_empty_sequence (read_bands w wl wb wr wt entries st).
Proof.
  induction entries as [|[band_name url] rest IH]; intros st; cbn [read_bands].
  - exact I.
  - apply safe_bind; [|intros st'; apply IH].
    unfold read_band, clamp_window, py_int, read_array.
    safe_tac; apply no_empty_sequence_in_output_size.
Qed.

Lemma no_empty_sequence_after_sampling (w : World) (config : Config)
    (band_urls : PyDict.dict string) (src_crs : string) (src_bounds : Bounds)
    (ts : TrainingSet) :
  keeps_lengths w ->
  (List.length (feature_matrix ts) <= List.length (training_data config))%nat ->
  safe is_empty_sequence (train_and_classify w config band_urls src_crs src_bounds ts).
Proof.
  intros Hw Hrows. unfold train_and_classify.
  destruct (Nat.ltb _ 3) eqn:Hguard; [reflexivity|]. apply Nat.ltb_ge in Hguard.
  apply safe_bind; [unfold train; safe_tac|]. intros [[scaler clf] acc].
  apply safe_bind.
  { apply region_of_interest_nonempty; [assumption|].
    destruct (training_data config); [cbn in Hrows; lia | discriminate]. }
  intros [[[wl wb] wr] wt].
  apply safe_bind; [apply no_empty_sequence_in_read_bands|]. intros st.
  apply safe_bind; [unfold PyDict.subscript; safe_tac|]. intros nir.
  destruct (shape nir) as [h wd].
  apply safe_bind; [unfold build_pixels, assign_column; safe_tac|]. intros pixels.
  apply safe_bind.
  { unfold classify_pixels, boolean_index. safe_tac.
    apply no_empty_sequence_in_masked_assign. }
  intros classification.
  apply safe_bind; [unfold write_product; safe_tac|]. intros _. exact I.
Qed.

(** X18: when coordinates are transformed one to one, [classify_image]
    never ends in the error of [min] or [max] of an empty sequence: the
    region of interest, which fails in that way on no points, is only
    computed after at least 3 points have been sampled. *)
Theorem the_minimum_of_no_points_is_never_taken (w : World) (config : Config) :
  keeps_lengths w ->
  avoids is_empty_sequence (outcome_of (classify_image w config))
  /\ forall src_crs src_bounds,
       outcome_of (region_of_interest w [] src_crs src_bounds) = Err EmptySequence.
Proof.
  intros Hw. split; [|reflexivity].
  change (safe is_empty_sequence (classify_image w config)).
  unfold classify_image.
  apply safe_bind; [exact I|]. intros _.
  apply safe_bind; [apply safe_call; reflexivity|]. intros it.
  unfold classify_scene. destruct (PyDict.len _ <? 4); [reflexivity|].
  apply safe_bind; [unfold PyDict.subscript; safe_tac|]. intros nir_url.
  apply safe_bind; [exact I|]. intros _.
  apply safe_bind; [apply safe_call; reflexivity|]. intros src.
  match goal with
  | |- safe _ (bind (sample_training_points ?w ?c ?i ?u ?p ?t) _) =>
      destruct (sampling_invariant w c i u p t) as (ts & kept & Hrun & Hlen & _ & Hrows)
  end.
  unfold safe. rewrite outcome_bind, Hrun.
  apply no_empty_sequence_after_sampling; [assumption|].
  rewrite Hrows, <- Hlen. cbn [no_samples feature_matrix List.length Nat.add].
  apply count_true_le.
Qed.

Lemma the_minimum_of_no_points_is_never_taken_witness :
  avoids is_empty_sequence
    (outcome_of (classify_image Demo.world (Demo.config "item/all" Demo.two_classes))).
Proof.
  refine (proj1 (the_minimum_of_no_points_is_never_taken Demo.world
                   (Demo.config "item/all" Demo.two_classes) _)).
  intros src dst xs ys xs' ys' H. cbn in H. injection H as <- <-. auto.
Defined.

(** ** A sampled value *)

(** X19: a band value is sampled only for a point that, in the coordinates
    of the raster, lies within the bounds of the raster and on one of
    its pixels; the value is that pixel, read through a 1 x 1 window. *)
Theorem a_sample_is_the_pixel_under_the_point (w : World) (url : string)
    (lon lat v : float) :
  outcome_of (sample_band w url lon lat) = Ok (Some v) ->
  sampled_under_point w url lon lat v.
Proof.
  unfold sample_band. rewrite outcome_try.
  match goal with
  | |- match outcome_of ?m with _ => _ end = _ -> _ =>
      destruct (outcome_of m) as [r|e] eqn:H; [|discriminate]
  end.
  intros [= ->].
  rewrite outcome_bind in H. cbn [emit outcome_of snd] in H.
  rewrite outcome_bind in H.
  destruct (rasterio_open w url) as [src|msg] eqn:Hsrc; [|discriminate H].
  cbn [call ret outcome_of snd] in H. rewrite outcome_bind in H.
  destruct (transform_coords w "EPSG:4326" (crs src) [lon] [lat]) as [[xs ys]|msg] eqn:Htr;
    [|discriminate H].
  cbn [call ret outcome_of snd] in H. rewrite outcome_bind in H.
  unfold list_item in H.
  destruct (nth_error xs 0) as [x|] eqn:Hx; [|discriminate H].
  cbn [lift outcome_of snd] in H.
  destruct (SFleb (b_left (bounds src)) x) eqn:Hl; [|discriminate H].
  destruct (SFleb x (b_right (bounds src))) eqn:Hr; [|discriminate H].
  cbn [andb negb] in H. rewrite outcome_bind in H.
  destruct (nth_error ys 0) as [y|] eqn:Hy; [|discriminate H].
  cbn [lift outcome_of snd] in H.
  destruct (SFleb (b_bottom (bounds src)) y) eqn:Hb; [|discriminate H].
  destruct (SFleb y (b_top (bounds src))) eqn:Ht; [|discriminate H].
  cbn [andb negb] in H. rewrite outcome_bind in H.
  destruct (ds_index src x y) as [[row col]|msg] eqn:Hidx; [|discriminate H].
  cbn [call ret outcome_of snd] in H.
  destruct (0 <=? row) eqn:Hr0; [|discriminate H].
  destruct (row <? src_height src) eqn:Hr1; [|discriminate H].
  destruct (0 <=? col) eqn:Hc0; [|discriminate H].
  destruct (col <? src_width src) eqn:Hc1; [|discriminate H].
  cbn [andb] in H. rewrite outcome_bind in H.
  destruct (window_validate w _) as [[]|msg]; [|discriminate H].
  cbn [call ret outcome_of snd] in H. rewrite outcome_bind in H.
  unfold read_array in H. cbn [Z.ltb Z.compare orb] in H. rewrite outcome_bind in H.
  destruct (ds_read src _ 1 1) as [data|msg] eqn:Hread; [|discriminate H].
  cbn [call ret outcome_of snd nd_at] in H. injection H as <-.
  apply Z.leb_le in Hr0, Hc0. apply Z.ltb_lt in Hr1, Hc1.
  exists src, xs, ys, x, y, row, col, data. repeat split; auto.
Qed.

Lemma a_sample_is_the_pixel_under_the_point_witness :
  sampled_under_point Demo.world "primary/nir" (Demo.num 1) (Demo.num 1) (Demo.num 3110).
Proof.
  apply a_sample_is_the_pixel_under_the_point. vm_compute. reflexivity.
Defined.

(** ** The pixels that are classified *)


(** * One run, from the window to the raster *)

(** ** One factor for both sides of the output *)

(** [output_size] computes [scale] once and divides both sides by it. *)
Lemma output_size_factor (win : Window) :
  output_size win
  = (let? scale := scale_of win in
     let? out_width := out_side (width win) scale in
     let? out_height := out_side (height win) scale in
     Ok (out_width, out_height)).
Proof.
  unfold output_size, scale_of, out_side.
  destruct (int_truediv (width win) MAX_DIM) as [a|]; [|reflexivity].
  destruct (int_truediv (height win) MAX_DIM) as [b|]; [|reflexivity].
  cbn [result_bind].
  destruct (int_div_number (width win) (max_with_one a b)) as [qw|]; [|reflexivity].
  cbn [result_bind].
  destruct (py_int qw) as [ow|]; [|reflexivity].
  cbn [result_bind].
  destruct (int_div_number (height win) (max_with_one a b)) as [qh|]; reflexivity.
Qed.

Lemma float_value_pos (m : positive) (e : Z) : (0 < F2R (Zpos m) e)%R.
Proof.
  unfold F2R. apply Rmult_lt_0_compat; [apply IZR_lt; lia | apply pow2_pos].
Qed.

Lemma nonneg_float_value (x : float) : nonneg_float x -> (0 <= float_value x)%R.
Proof.
  intros [-> | (m & e & -> & _)]; cbn [float_value cond_Zopp]; [lra|].
  apply Rlt_le, float_value_pos.
Qed.




Lemma scale_of_proper (win : Window) (scale : number) :
  scale_of win = Ok scale -> proper_scale scale.
Proof.
  unfold scale_of.
  destruct (int_truediv (width win) MAX_DIM) as [a|] eqn:Ha; [|discriminate].
  destruct (int_truediv (height win) MAX_DIM) as [b|] eqn:Hb; [|discriminate].
  cbn [result_bind]. intros [= <-].
  pose proof (int_truediv_comparable _ _ _ Ha) as Hca.
  pose proof (int_truediv_comparable _ _ _ Hb) as Hcb.
  unfold max_with_one. set (m := if SFltb a b then b else a).
  assert (Hm : comparable m) by (unfold m; destruct (SFltb a b); assumption).
  rewrite one_is.
  destruct (SFltb m (S754_finite false 4503599627370496 (-52))) eqn:Hone; [now left|].
  right. destruct m as [s | s | | s mm em]; try contradiction.
  - destruct s; discriminate Hone.
  - destruct s; [discriminate Hone|]. exists mm, em.
    split; [reflexivity|]. split; [exact Hm|].
    rewrite <- one_value.
    now apply (SFltb_false_pos 53 1024 ltac:(lia) mm 4503599627370496 em (-52)).
Qed.





(** ** The stages of a run, event by event *)

Lemma within_in (kind : event -> bool) (budget : nat) (t : list event) (ev : event) :
  within kind budget t -> In ev t -> kind ev = true.
Proof.
  intros [Hall _] Hin. rewrite forallb_forall in Hall. now apply Hall.
Qed.

(** An event of a run that is neither the fetch of the descriptor nor an
    event of the sampling is an event of what follows the sampling: the
    descriptor was fetched, at least 4 bands were resolved, the nir
    raster was opened and the sampling loop ended with a training set. *)
Lemma classify_image_later (w : World) (config : Config) (ev : event) :
  is_urlopen ev = false -> is_sampling ev = false ->
  In ev (trace (classify_image w config)) ->
  exists it nir_url src ts,
    urlopen_json w (stac_item_url config) = Returns it
    /\ 4 <= PyDict.len (get_band_urls_for_item w it)
    /\ PyDict.get (get_band_urls_for_item w it) "nir" = Some nir_url
    /\ rasterio_open w nir_url = Returns src
    /\ outcome_of (sample_training_points w (config_collection config)
                     (config_include_indices config) (get_band_urls_for_item w it)
                     (training_data config) no_samples) = Ok ts
    /\ In ev (trace (train_and_classify w config (get_band_urls_for_item w it)
                       (crs src) (bounds src) ts)).
Proof.
  intros Hu Hs Hin. unfold classify_image in Hin.
  apply in_trace_bind in Hin as [Hin | (? & _ & Hin)].
  { destruct Hin as [<- | []]. discriminate Hu. }
  apply in_trace_bind in Hin as [Hin | (it & Hit & Hin)].
  { destruct (urlopen_json w (stac_item_url config)); destruct Hin. }
  destruct (urlopen_json w (stac_item_url config)) as [it' | msg] eqn:Hfetch;
    [|discriminate Hit].
  injection Hit as ->. unfold classify_scene in Hin.
  destruct (PyDict.len (get_band_urls_for_item w it) <? 4) eqn:Hlen; [destruct Hin|].
  apply Z.ltb_ge in Hlen.
  apply in_trace_bind in Hin as [Hin | (nir_url & Hnir & Hin)]; [destruct Hin|].
  unfold PyDict.subscript in Hnir.
  destruct (PyDict.get (get_band_urls_for_item w it) "nir") as [url|] eqn:Hget;
    [|discriminate Hnir].
  injection Hnir as ->.
  apply in_trace_bind in Hin as [Hin | (? & _ & Hin)].
  { destruct Hin as [<- | []]. discriminate Hs. }
  apply in_trace_bind in Hin as [Hin | (src & Hsrc & Hin)].
  { destruct (rasterio_open w nir_url); destruct Hin. }
  destruct (rasterio_open w nir_url) as [src' | msg] eqn:Hopen; [|discriminate Hsrc].
  injection Hsrc as ->.
  apply in_trace_bind in Hin as [Hin | (ts & Hts & Hin)].
  { apply (within_in _ _ _ _ (sample_training_points_within _ _ _ _ _ _)) in Hin.
    congruence. }
  exists it, nir_url, src, ts. repeat split; assumption.
Qed.

(** And back: an event of what follows the sampling is an event of the
    run. *)
Lemma classify_image_reaches (w : World) (config : Config) (ev : event)
    (it : StacItem) (nir_url : string) (src : Dataset) (ts : TrainingSet) :
  urlopen_json w (stac_item_url config) = Returns it ->
  4 <= PyDict.len (get_band_urls_for_item w it) ->
  PyDict.get (get_band_urls_for_item w it) "nir" = Some nir_url ->
  rasterio_open w nir_url = Returns src ->
  outcome_of (sample_training_points w (config_collection config)
                (config_include_indices config) (get_band_urls_for_item w it)
                (training_data config) no_samples) = Ok ts ->
  In ev (trace (train_and_classify w config (get_band_urls_for_item w it)
                  (crs src) (bounds src) ts)) ->
  In ev (trace (classify_image w config)).
Proof.
  intros Hfetch Hlen Hget Hopen Hts Hin. unfold classify_image.
  apply in_bind_later with tt; [reflexivity|].
  apply in_bind_later with it; [now rewrite Hfetch|].
  unfold classify_scene. apply Z.ltb_ge in Hlen. rewrite Hlen.
  apply in_bind_later with nir_url; [unfold PyDict.subscript; now rewrite Hget|].
  apply in_bind_later with tt; [reflexivity|].
  apply in_bind_later with src; [now rewrite Hopen|].
  now apply in_bind_later with ts.
Qed.

(** The matrix that the scaler is fitted on is the feature matrix of the
    sampling loop, and it has at least 3 rows. *)
Lemma scaler_fit_inv (w : World) (config : Config) (band_urls : PyDict.dict string)
    (src_crs : string) (src_bounds : Bounds) (ts : TrainingSet) (X : matrix) :
  In (EvScalerFit X)
     (trace (train_and_classify w config band_urls src_crs src_bounds ts)) ->
  X = feature_matrix ts /\ (3 <= List.length (feature_matrix ts))%nat.
Proof.
  unfold train_and_classify. intros Hin.
  destruct (Nat.ltb (List.length (feature_matrix ts)) 3) eqn:Hguard; [destruct Hin|].
  apply Nat.ltb_ge in Hguard. split; [|assumption].
  apply in_trace_bind in Hin as [Hin | ([[scaler clf] acc] & _ & Hin)].
  - unfold train in Hin. cbv zeta in Hin.
    apply in_trace_bind in Hin as [Hin | (? & _ & Hin)].
    { destruct Hin as [[= <-] | []]. reflexivity. }
    exfalso. revert Hin.
    match goal with
    | |- In _ (trace ?m) -> False => apply (free_of_not_in (fun ev => match ev with
                                                          | EvScalerFit _ => true
                                                          | _ => false
                                                          end) m)
    end; [free_tac | reflexivity].
  - exfalso.
    apply in_trace_bind in Hin as [Hin | ([[[wl wb] wr] wt] & _ & Hin)].
    { now rewrite region_of_interest_silent in Hin. }
    apply in_trace_bind in Hin as [Hin | (st & _ & Hin)].
    { apply (within_in _ _ _ _ (read_bands_within _ _ _ _ _ _ _)) in Hin.
      discriminate Hin. }
    apply in_trace_bind in Hin as [Hin | (nir & _ & Hin)]; [destruct Hin|].
    destruct (shape nir) as [h wd].
    apply in_trace_bind in Hin as [Hin | (pixels & _ & Hin)]; [destruct Hin|].
    apply in_trace_bind in Hin as [Hin | (cls & _ & Hin)].
    { apply (within_in _ _ _ _ (classify_pixels_within _ _ _ _ _)) in Hin.
      discriminate Hin. }
    apply in_trace_bind in Hin as [Hin | (? & _ & [])].
    apply (within_in _ _ _ _ (write_product_within _ _ _ _ _ _ _)) in Hin.
    discriminate Hin.
Qed.

(** A run that gets past the guard on the samples fits the scaler first. *)
Lemma scaler_fit_first (w : World) (config : Config) (band_urls : PyDict.dict string)
    (src_crs : string) (src_bounds : Bounds) (ts : TrainingSet) :
  (3 <= List.length (feature_matrix ts))%nat ->
  In (EvScalerFit (feature_matrix ts))
     (trace (train_and_classify w config band_urls src_crs src_bounds ts)).
Proof.
  intros Hguard. unfold train_and_classify.
  apply Nat.ltb_ge in Hguard. rewrite Hguard.
  apply in_bind_first. unfold train. cbv zeta. apply in_bind_first. now left.
Qed.




(** ** The output grid of a run *)







(** ** One layout for the rows of a run *)

(** Every row of the feature matrix of the sampling loop is a feature
    vector that [build_features] built. *)
Lemma sampled_rows_are_built (w : World) (coll : string) (incl : bool)
    (band_urls : PyDict.dict string) (points : list TrainingPoint) (ts : TrainingSet) :
  outcome_of (sample_training_points w coll incl band_urls points no_samples) = Ok ts ->
  Forall (fun features =>
            Z.of_nat (List.length features) = n_features incl
            /\ exists band_values,
                 build_features incl band_values = Ok features
                 /\ point_features incl band_values features)
         (feature_matrix ts).
Proof.
  intros Hts.
  eapply sample_training_points_rows; [| |exact Hts].
  - intros bv f Hf. pose proof (build_features_layout _ _ _ Hf) as Hl.
    split; [now destruct Hl|]. now exists bv.
  - constructor.
Qed.

(** C2: in one run of [classify_image], with [include_indices] as the
    configuration has it, the matrix the scaler is fitted on has at
    least 3 rows and each of them is a feature vector built by the
    sampling path; the raster that is written is the classification of
    the pixel matrix built by the inference path from the bands read in
    the same run; the rows of both have [n_features] entries, 10 with
    the indices and 6 without: the six bands in the order red, green,
    blue, nir, swir16, swir22, then NDVI, NDWI, NDBI, EVI.  The sampling
    path builds a vector for every sample unless an index divides by
    zero, and the inference path builds a row for every pixel of the
    grid. *)
Theorem feature_vectors_have_one_layout (w : World) (config : Config) :
  let incl := config_include_indices config in
  let run := classify_image w config in
  n_features incl = (if incl then 10 else 6)
  /\ (forall X,
        In (EvScalerFit X) (trace run) ->
        (3 <= List.length X)%nat
        /\ Forall (fun features =>
                     Z.of_nat (List.length features) = n_features incl
                     /\ exists band_values,
                          build_features incl band_values = Ok features
                          /\ point_features incl band_values features) X)
  /\ (forall path h wd data,
        In (EvRasterWrite path h wd data) (trace run) ->
        exists X it wl wb wr wt st pixels scaler clf,
          In (EvScalerFit X) (trace run)
          /\ Forall (fun features => Z.of_nat (List.length features) = n_features incl) X
          /\ urlopen_json w (stac_item_url config) = Returns it
          /\ outcome_of (read_bands w wl wb wr wt
                           (PyDict.items (get_band_urls_for_item w it)) read_start)
             = Ok st
          /\ build_pixels incl (band_data st) h wd = Ok pixels
          /\ pixel_columns incl (band_data st) h wd pixels
          /\ List.length pixels = Z.to_nat (h * wd)
          /\ Forall (fun row => Z.of_nat (List.length row) = n_features incl) pixels
          /\ outcome_of (classify_pixels w scaler clf (h * wd) pixels) = Ok data
          /\ List.length data = List.length pixels)
  /\ (forall w' coll flag band_urls ts point,
        exists band_values,
          outcome_of (sample_with_fallback w' coll band_urls (lon point) (lat point))
          = Ok band_values
          /\ outcome_of (sample_training_point w' coll flag band_urls ts point)
             = Ok (if 4 <=? PyDict.len band_values then
                     match build_features flag band_values with
                     | Ok features => add_sample ts features (label point)
                     | Err _ => ts
                     end
                   else ts))
  /\ (forall band_values,
        exists features, build_features false band_values = Ok features)
  /\ (forall band_values,
        (exists features, build_features true band_values = Ok features)
        \/ build_features true band_values = Err ZeroDivisionError)
  /\ (forall flag bands h wd,
        (forall k a, PyDict.get bands k = Some a -> shape a = (h, wd)) ->
        exists pixels, build_pixels flag bands h wd = Ok pixels)
  /\ (forall flag band_values features,
        build_features flag band_values = Ok features ->
        point_features flag band_values features)
  /\ (forall flag w' coll band_urls points ts,
        outcome_of (sample_training_points w' coll flag band_urls points no_samples)
          = Ok ts ->
        Forall (fun features => Z.of_nat (List.length features) = n_features flag)
               (feature_matrix ts))
  /\ (forall flag bands h wd pixels,
        build_pixels flag bands h wd = Ok pixels ->
        pixel_columns flag bands h wd pixels).
Proof.
  cbv zeta.
  assert (Hfit : forall X,
             In (EvScalerFit X) (trace (classify_image w config)) ->
             (3 <= List.length X)%nat
             /\ Forall (fun features =>
                          Z.of_nat (List.length features)
                          = n_features (config_include_indices config)
                          /\ exists band_values,
                               build_features (config_include_indices config) band_values
                               = Ok features
                               /\ point_features (config_include_indices config)
                                    band_values features) X).
  { intros X Hin.
    apply classify_image_later in Hin
      as (it & nir_url & src & ts & _ & _ & _ & _ & Hts & Hin); try reflexivity.
    apply scaler_fit_inv in Hin as [-> Hrows]. split; [assumption|].
    now apply sampled_rows_are_built in Hts. }
  split; [now destruct (config_include_indices config)|].
  split; [exact Hfit|]. split; [|split; [|split; [|split; [|split; [|split; [|split]]]]]].
  - intros path h wd data Hin.
    apply classify_image_later in Hin
      as (it & nir_url & src & ts & Hfetch & Hlen & Hget & Hopen & Hts & Hin);
      try reflexivity.
    pose proof Hin as Hwrite.
    apply written_raster_inv in Hwrite
      as (scaler & clf & wl & wb & wr & wt & st & nir & pixels
          & _ & Hread & _ & _ & Hpixels & Hcls & _).
    assert (Hguard : (3 <= List.length (feature_matrix ts))%nat).
    { unfold train_and_classify in Hin.
      destruct (Nat.ltb (List.length (feature_matrix ts)) 3) eqn:Hg; [destruct Hin|].
      now apply Nat.ltb_ge in Hg. }
    assert (HX : In (EvScalerFit (feature_matrix ts)) (trace (classify_image w config))).
    { eapply classify_image_reaches; try eassumption. now apply scaler_fit_first. }
    pose proof (build_pixels_columns _ _ _ _ _ Hpixels) as Hcols.
    exists (feature_matrix ts), it, wl, wb, wr, wt, st, pixels, scaler, clf.
    split; [exact HX|]. split.
    { destruct (Hfit _ HX) as [_ Hall]. eapply Forall_impl; [|exact Hall].
      cbv beta. intros f Hf. tauto. }
    split; [exact Hfetch|]. split; [exact Hread|].
    split; [exact Hpixels|]. split; [exact Hcols|].
    split; [now destruct Hcols|]. split; [now destruct Hcols|].
    split; [exact Hcls|].
    apply classified_bytes in Hcls as [-> _]. symmetry. now destruct Hcols.
  - intros w' coll flag band_urls ts point. apply sample_training_point_step.
  - intros band_values. eexists. reflexivity.
  - intros band_values.
    destruct (build_features true band_values) as [features | e] eqn:Hf.
    + left. now exists features.
    + right. apply build_features_error in Hf as [-> _]. reflexivity.
  - intros flag bands h wd. apply build_pixels_total.
  - apply build_features_layout.
  - intros flag w' coll band_urls points ts Hts.
    apply sampled_rows_are_built in Hts.
    eapply Forall_impl; [|exact Hts]. cbv beta. intros f Hf. tauto.
  - apply build_pixels_columns.
Qed.

Lemma feature_vectors_have_one_layout_witness :
  In (EvScalerFit (feature_matrix (demo_training_set Demo.two_classes)))
     (trace (classify_image Demo.world (Demo.config "item/all" Demo.two_classes)))
  /\ List.length (feature_matrix (demo_training_set Demo.two_classes)) = 5%nat
  /\ Forall (fun features =>
               Z.of_nat (List.length features) = n_features true
               /\ exists band_values,
                    build_features true band_values = Ok features
                    /\ point_features true band_values features)
            (feature_matrix (demo_training_set Demo.two_classes))
  /\ In (EvRasterWrite "out.tif" 4 4 [0; 1; 1; 1; 0; 1; 1; 1; 0; 1; 1; 1; 0; 1; 1; 1])
        (trace (classify_image Demo.world (Demo.config "item/all" Demo.two_classes)))
  /\ exists bands pixels,
       build_pixels true bands 4 4 = Ok pixels
       /\ pixel_columns true bands 4 4 pixels
       /\ List.length pixels = 16%nat
       /\ Forall (fun row => Z.of_nat (List.length row) = n_features true) pixels.
Proof.
  assert (Hfit : In (EvScalerFit (feature_matrix (demo_training_set Demo.two_classes)))
                    (trace (classify_image Demo.world
                              (Demo.config "item/all" Demo.two_classes))))
    by (vm_compute; repeat (first [left; reflexivity | right])).
  assert (Hwrite : In (EvRasterWrite "out.tif" 4 4
                         [0; 1; 1; 1; 0; 1; 1; 1; 0; 1; 1; 1; 0; 1; 1; 1])
                      (trace (classify_image Demo.world
                                (Demo.config "item/all" Demo.two_classes))))
    by (vm_compute; repeat (first [left; reflexivity | right])).
  pose proof (feature_vectors_have_one_layout Demo.world
                (Demo.config "item/all" Demo.two_classes)) as H.
  cbv zeta in H. destruct H as (_ & Hrows & Hpix & _).
  split; [exact Hfit|]. split; [vm_compute; reflexivity|].
  split; [exact (proj2 (Hrows _ Hfit))|]. split; [exact Hwrite|].
  destruct (Hpix _ _ _ _ Hwrite)
    as (X & it & wl & wb & wr & wt & st & pixels & scaler & clf
        & _ & _ & _ & _ & Hp & Hc & Hl & Hw & _).
  exists (band_data st), pixels.
  split; [exact Hp|]. split; [exact Hc|]. split; [exact Hl | exact Hw].
Defined.

(** ** The errors of the output size *)

Lemma int_truediv_error (n d : Z) (e : error) :
  d <> 0 -> int_truediv n d = Err e -> e = OverflowError.
Proof.
  intros Hd. unfold int_truediv. apply Z.eqb_neq in Hd. rewrite Hd.
  destruct (float_ratio binary64 n d); try discriminate. now intros [= <-].
Qed.

Lemma int_to_float_error (n : Z) (e : error) :
  int_to_float n = Err e -> e = OverflowError.
Proof.
  unfold int_to_float. destruct (float_of_Z binary64 n); try discriminate.
  now intros [= <-].
Qed.

Lemma int_to_float_finite (n : Z) (x : float) :
  int_to_float n = Ok x -> is_finite x = true.
Proof.
  unfold int_to_float, float_of_Z. cbn [prec emax binary64].
  destruct n as [|p|p]; cbn [binary_normalize].
  - now intros [= <-].
  - destruct (binary_round_rounded 53 1024 ltac:(lia) false p 0) as (u & _ & Hr).
    destruct (binary_round 53 1024 false p 0); cbn in Hr; try contradiction;
      try discriminate; now intros [= <-].
  - destruct (binary_round_rounded 53 1024 ltac:(lia) true p 0) as (u & _ & Hr).
    destruct (binary_round 53 1024 true p 0); cbn in Hr; try contradiction;
      try discriminate; now intros [= <-].
Qed.

(** One side of the output can only fail because a number is too large
    for a float. *)
Lemma out_side_error (n : Z) (scale : number) (e : error) :
  proper_scale scale -> out_side n scale = Err e -> e = OverflowError.
Proof.
  intros Hscale. unfold out_side.
  destruct (int_div_number n scale) as [q|e'] eqn:Hq; cbn [result_bind].
  - assert (Hnan : is_nan q = false).
    { destruct Hscale as [-> | (m & em & -> & _ & _)]; cbn [int_div_number] in Hq.
      - apply int_truediv_comparable in Hq. now destruct q.
      - destruct (int_to_float n) as [x|] eqn:Hx; [|discriminate].
        cbn [result_bind] in Hq. unfold float_truediv in Hq. cbn [is_zero] in Hq.
        injection Hq as <-. apply int_to_float_finite in Hx.
        unfold fdiv. cbn [prec emax binary64].
        destruct x as [s | s | | s mx ex]; try discriminate; [reflexivity|].
        destruct (SFdiv_rounded 53 1024 ltac:(lia) s false mx m ex em) as (u & _ & Hr).
        destruct (SFdiv 53 1024 (S754_finite s mx ex) (S754_finite false m em));
          cbn in Hr; try contradiction; reflexivity. }
    destruct q; try discriminate; cbn [py_int]; try discriminate.
    now intros [= <-].
  - intros [= <-].
    destruct Hscale as [-> | (m & em & -> & _ & _)]; cbn [int_div_number] in Hq.
    + now apply int_truediv_error in Hq.
    + destruct (int_to_float n) as [x|] eqn:Hx; cbn [result_bind] in Hq.
      * unfold float_truediv in Hq. cbn [is_zero] in Hq. discriminate.
      * injection Hq as <-. now apply int_to_float_error in Hx.
Qed.

(** X17: the factor [scale] of lines 302-304 is the int 1 or a float that
    is not below 1, so the two divisions by it never divide by zero:
    the output size can only fail with [OverflowError], for a window
    side that is too large for a float. *)
Theorem the_downscale_factor_is_never_zero (win : Window) :
  (forall scale,
      scale_of win = Ok scale ->
      scale = PyInt 1
      \/ exists m e, scale = PyFloat (S754_finite false m e)
                     /\ (1 <= F2R (Zpos m) e)%R)
  /\ (forall scale n,
        scale_of win = Ok scale -> avoids is_zero_division (out_side n scale))
  /\ avoids is_zero_division (output_size win)
  /\ (forall e, output_size win = Err e -> e = OverflowError).
Proof.
  split; [|split; [|split]].
  - intros scale Hs.
    destruct (scale_of_proper _ _ Hs) as [-> | (m & e & -> & _ & Hv)]; [now left|].
    right. now exists m, e.
  - intros scale n Hs. apply scale_of_proper in Hs.
    destruct (out_side n scale) as [r|e] eqn:Hr; [exact I|].
    apply (out_side_error _ _ _ Hs) in Hr. now subst e.
  - apply output_size_no_zero_division.
  - intros e. rewrite output_size_factor.
    destruct (scale_of win) as [scale|e'] eqn:Hs; cbn [result_bind].
    + pose proof (scale_of_proper _ _ Hs) as Hp.
      destruct (out_side (width win) scale) as [ow|e1] eqn:How; cbn [result_bind].
      * destruct (out_side (height win) scale) as [oh|e2] eqn:Hoh; cbn [result_bind];
          [discriminate|].
        intros [= <-]. now apply (out_side_error _ _ _ Hp) in Hoh.
      * intros [= <-]. now apply (out_side_error _ _ _ Hp) in How.
    + intros [= <-]. unfold scale_of in Hs.
      destruct (int_truediv (width win) MAX_DIM) as [a|e1] eqn:Ha; cbn [result_bind] in Hs.
      * destruct (int_truediv (height win) MAX_DIM) as [b|e2] eqn:Hb;
          cbn [result_bind] in Hs; [discriminate|].
        injection Hs as <-. apply int_truediv_error in Hb; [assumption|].
        unfold MAX_DIM. lia.
      * injection Hs as <-. apply int_truediv_error in Ha; [assumption|].
        unfold MAX_DIM. lia.
Qed.

(** ** The pixels that are classified, in a run *)



